(** * The critique route of the LEAP-LA OCR Challenge UI

    A shallow embedding of [src/app/api/critique/route.ts]: the request
    schema, the prompt builder with its truncation helper, the response
    helper and the [POST] handler, together with the JavaScript built-ins
    the handler relies on (string primitives, [JSON.stringify], [Number],
    the object parser of zod).  *)

From Stdlib Require Import String Ascii List ZArith NArith Lia Bool.
From Stdlib Require Import DecimalString DecimalN.
From Stdlib Require DecimalPos DecimalFacts.
From ExtLib Require Import Structures.Monad.
Import ListNotations.
Import MonadNotation.

#[local] Set Warnings "-register-all".

Local Open Scope Z_scope.

(** ** JavaScript strings

    A JavaScript string is a finite sequence of UTF-16 code units;
    [length], [slice], [includes] and [trim] all work on code units. *)

Module JsString.

Definition code_unit := N.
Definition jsstring := list code_unit.

(** An ASCII literal of the source as a sequence of code units. *)
Definition lit (s : string) : jsstring :=
  map N_of_ascii (list_ascii_of_string s).

Definition LF : jsstring := [10%N].
Definition QUOTE : jsstring := [34%N].

(** [s.length] *)
Definition jslength (s : jsstring) : Z := Z.of_nat (length s).

(** [s.slice(start, end)] for integer arguments: negative positions count
    from the end, positions are clamped to the string, and the result is
    empty when the interval is. *)
Definition slice (s : jsstring) (start end_ : Z) : jsstring :=
  let len := jslength s in
  let from := if start <? 0 then Z.max (len + start) 0 else Z.min start len in
  let to := if end_ <? 0 then Z.max (len + end_) 0 else Z.min end_ len in
  firstn (Z.to_nat (to - from)) (skipn (Z.to_nat from) s).

Fixpoint startsWith (s search : jsstring) : bool :=
  match search, s with
  | [], _ => true
  | _ :: _, [] => false
  | a :: search', b :: s' => (a =? b)%N && startsWith s' search'
  end.

(** [s.includes(search)]: [search] occurs in [s] at some position. *)
Fixpoint includes (s search : jsstring) : bool :=
  startsWith s search ||
  match s with
  | [] => false
  | _ :: s' => includes s' search
  end.

(** The code units [trim] removes: WhiteSpace and LineTerminator of
    ECMAScript (TAB, LF, VT, FF, CR, SP, NBSP, U+1680, U+2000..U+200A,
    U+2028, U+2029, U+202F, U+205F, U+3000, U+FEFF). *)
Definition isWhiteSpace (c : code_unit) : bool :=
  ((9 <=? c) && (c <=? 13) || (c =? 32) || (c =? 160) || (c =? 5760)
   || (8192 <=? c) && (c <=? 8202) || (c =? 8232) || (c =? 8233)
   || (c =? 8239) || (c =? 8287) || (c =? 12288) || (c =? 65279))%N.

Fixpoint trimStart (s : jsstring) : jsstring :=
  match s with
  | [] => []
  | c :: s' => if isWhiteSpace c then trimStart s' else s
  end.

Definition trimEnd (s : jsstring) : jsstring := rev (trimStart (rev s)).

(** [s.trim()] *)
Definition trim (s : jsstring) : jsstring := trimEnd (trimStart s).

(** [lines.join(sep)] *)
Fixpoint join (sep : jsstring) (lines : list jsstring) : jsstring :=
  match lines with
  | [] => []
  | [l] => l
  | l :: rest => l ++ sep ++ join sep rest
  end.

(** The decimal digits of a natural number, most significant first. *)
Definition decimal (n : N) : jsstring :=
  lit (NilEmpty.string_of_uint (N.to_uint n)).

(** Reading decimal digits back; [None] when some code unit is no digit. *)
Definition parseDecimal (s : jsstring) : option N :=
  option_map N.of_uint
    (NilEmpty.uint_of_string (string_of_list_ascii (map ascii_of_N s))).

(** The text of an integer-valued Number [z] in a template literal, for a
    magnitude below 10^21, which covers every string length: the decimal
    digits, with a minus sign when negative ([intToString_toString] below
    relates it to [Number::toString]). *)
Definition intToString (z : Z) : jsstring :=
  if z <? 0 then lit "-" ++ decimal (Z.abs_N z) else decimal (Z.to_N z).

End JsString.
Export JsString.

(** ** Truncation ([truncate], lines 17-26) *)

(** Hard limits. *)
Definition MAX_PRD_CHARS : Z := 20000.
Definition MAX_CODE_CHARS : Z := 20000.
Definition MAX_FAILUREINFO_CHARS : Z := 12000.
Definition MAX_PROMPT_CHARS : Z := 60000.

Definition truncate (s : jsstring) (max : Z) : jsstring :=
  if jslength s <=? max then s
  else slice s 0 max
       ++ (LF ++ LF ++ lit "...[TRUNCATED " ++ intToString (jslength s - max)
           ++ lit " chars]").

(** ** Numbers

    A Number is NaN, an infinity, or a double, written as the finite
    decimal [± mantissa / 10^scale] of its shortest digits: the digits
    [Number::toString] prints, which are the fewest that read back as the
    same double.  Integer values have [scale = 0].  [toNumber] gives the
    Number value for a decimal of any length: the nearest double, ties to
    even, an infinity beyond the largest one. *)

Module JsNum.

Inductive JsNumber :=
| NaN
| Infinity (negative : bool)
| Finite (negative : bool) (mantissa : N) (scale : N).

Definition ofZ (z : Z) : JsNumber := Finite (z <? 0) (Z.abs_N z) 0.

(** Cancel the trailing zeros of the mantissa against the scale. *)
Fixpoint reduce (fuel : nat) (m sc : N) : N * N :=
  match fuel with
  | O => (m, sc)
  | S fuel' =>
      if ((0 <? sc) && (m mod 10 =? 0))%N
      then reduce fuel' (m / 10)%N (sc - 1)%N
      else (m, sc)
  end.

Definition mkFinite (neg : bool) (m : N) (exp10 : Z) : JsNumber :=
  if 0 <=? exp10 then Finite neg (m * 10 ^ Z.to_N exp10)%N 0
  else let '(m', sc) := reduce (N.to_nat (Z.to_N (- exp10))) m (Z.to_N (- exp10)) in
       Finite neg m' sc.

(** *** The Number value for a real number

    A positive double is [q * 2^k] with [2^52 <= q < 2^53] and
    [-1074 <= k <= 971], or [q < 2^52] and [k = -1074] (a subnormal).  The
    reals here are fractions [a / b] of naturals, [b] positive. *)

Definition Double : Type := N * Z.

Definition sameDouble (d d' : Double) : bool :=
  (fst d =? fst d')%N && (snd d =? snd d').

(** The integer nearest to [a / b], the even one of two equally near. *)
Definition roundHalfEven (a b : N) : N :=
  let q := (a / b)%N in
  match (2 * (a mod b) ?= b)%N with
  | Lt => q
  | Gt => (q + 1)%N
  | Eq => if N.even q then q else (q + 1)%N
  end.

(** [a / b] as a fraction with [x * base^e] for [e >= 0] in the numerator
    or in the denominator for [e < 0]. *)
Definition scale (base : N) (x : N) (e : Z) : N * N :=
  if 0 <=? e then ((x * base ^ Z.to_N e)%N, 1%N)
  else (x, (base ^ Z.to_N (- e))%N).

(** [floor (log2 (a / b))], for [a] and [b] positive. *)
Definition binade (a b : N) : Z :=
  let e := Z.of_N (N.log2 a) - Z.of_N (N.log2 b) in
  let below :=
    if 0 <=? e then (a <? b * 2 ^ Z.to_N e)%N
    else (a * 2 ^ Z.to_N (- e) <? b)%N in
  if below then e - 1 else e.

(** The double nearest to [a / b], for [a] and [b] positive; [None] when
    it is beyond the largest double.  The result may be zero. *)
Definition nearestDouble (a b : N) : option Double :=
  let k := Z.max (binade a b - 52) (-1074) in
  let q :=
    if 0 <=? k then roundHalfEven a (b * 2 ^ Z.to_N k)%N
    else roundHalfEven (a * 2 ^ Z.to_N (- k))%N b in
  let '(q, k) := if (q =? 2 ^ 53)%N then ((2 ^ 52)%N, k + 1) else (q, k) in
  if 971 <? k then None else Some (q, k).

(** The number of decimal digits of a natural. *)
Definition nbDigits (n : N) : Z := Z.of_nat (Decimal.nb_digits (N.to_uint n)).

(** A decimal position above [a / b]: [a / b <= 10^p]. *)
Definition magnitude (a b : N) : Z :=
  if (b <=? a)%N then nbDigits (a / b) else 1 - nbDigits (b / a).

(** Does [s * 10^p] read back as the double [d]? *)
Definition readsBack (s : N) (p : Z) (d : Double) : bool :=
  let '(a, b) := scale 10 s p in
  match nearestDouble a b with
  | Some d' => sameDouble d d'
  | None => false
  end.

(** The shortest digits of the double [d], whose value is [a / b]: from
    the position [p] downward, the first position at which a multiple of
    [10^p] next to [a / b] reads back as [d]; of two that do, the nearer
    one, and the even one of two equally near.  Seventeen digits always
    read back, so the fuel does not run out. *)
Fixpoint shortest (fuel : nat) (a b : N) (d : Double) (p : Z) : N * Z :=
  match fuel with
  | O => (0%N, p)
  | S fuel' =>
      let '(x, y) :=
        if 0 <=? p then (a, (b * 10 ^ Z.to_N p)%N)
        else ((a * 10 ^ Z.to_N (- p))%N, b) in
      let lo := (x / y)%N in
      let hi := (lo + 1)%N in
      let okLo := (0 <? lo)%N && readsBack lo p d in
      let okHi := readsBack hi p d in
      if okLo && okHi then (roundHalfEven x y, p)
      else if okLo then (lo, p)
      else if okHi then (hi, p)
      else shortest fuel' a b d (p - 1)
  end.

(** The Number value for [± m * 10^exp10]. *)
Definition toNumber (neg : bool) (m : N) (exp10 : Z) : JsNumber :=
  if (m =? 0)%N then Finite neg 0 0 else
  let mag := nbDigits m + exp10 in
  if 310 <? mag then Infinity neg else
  if mag <? -330 then Finite neg 0 0 else
  let '(a, b) := scale 10 m exp10 in
  match nearestDouble a b with
  | None => Infinity neg
  | Some (q, k) =>
      if (q =? 0)%N then Finite neg 0 0 else
      let '(a', b') := scale 2 q k in
      let '(s, p) := shortest 18 a' b' (q, k) (magnitude a' b') in
      mkFinite neg s p
  end.

Definition zeros (n : Z) : jsstring := repeat 48%N (Z.to_nat n).

Fixpoint dropZeros (l : jsstring) : jsstring :=
  match l with
  | [] => []
  | c :: l' => if (c =? 48)%N then dropZeros l' else l
  end.

Definition stripTrailingZeros (ds : jsstring) : jsstring :=
  rev (dropZeros (rev ds)).

(** [Number::toString(x)] in radix 10, on the digits [ds] ([k] of them),
    with [n] the position of the decimal point. *)
Definition toString (x : JsNumber) : jsstring :=
  match x with
  | NaN => lit "NaN"
  | Infinity neg => (if neg then lit "-" else []) ++ lit "Infinity"
  | Finite _ 0%N _ => lit "0"
  | Finite neg m sc =>
      let all := decimal m in
      let ds := stripTrailingZeros all in
      let k := jslength ds in
      let n := jslength all - Z.of_N sc in
      (if neg then lit "-" else []) ++
      (if (k <=? n) && (n <=? 21) then ds ++ zeros (n - k)
       else if (0 <? n) && (n <=? 21)
         then firstn (Z.to_nat n) ds ++ lit "." ++ skipn (Z.to_nat n) ds
       else if (-6 <? n) && (n <=? 0) then lit "0." ++ zeros (- n) ++ ds
       else
         let e := n - 1 in
         let exponent :=
           lit "e" ++ (if e <? 0 then lit "-" else lit "+") ++ decimal (Z.abs_N e) in
         if k =? 1 then ds ++ exponent
         else firstn 1 ds ++ lit "." ++ skipn 1 ds ++ exponent)
  end.

(** *** [Number(string)]: StringToNumber

    The literal is read to the real number it denotes, and that is
    rounded by [toNumber]. *)

Definition digitValue (radix : N) (c : code_unit) : option N :=
  let v := (if (48 <=? c) && (c <=? 57) then Some (c - 48)
            else if (97 <=? c) && (c <=? 102) then Some (c - 87)
            else if (65 <=? c) && (c <=? 70) then Some (c - 55)
            else None)%N in
  match v with
  | Some d => if (d <? radix)%N then Some d else None
  | None => None
  end.

(** The longest prefix of digits: its value, its length, and the rest. *)
Fixpoint digits (radix : N) (acc : N) (count : N) (s : jsstring)
  : N * N * jsstring :=
  match s with
  | [] => (acc, count, [])
  | c :: s' =>
      match digitValue radix c with
      | Some d => digits radix (acc * radix + d)%N (count + 1)%N s'
      | None => (acc, count, s)
      end
  end.

Definition nonDecimalLiteral (radix : N) (s : jsstring) : JsNumber :=
  match digits radix 0 0 s with
  | (v, count, []) => if (0 <? count)%N then toNumber false v 0 else NaN
  | _ => NaN
  end.

(** ExponentPart, optional: [e] or [E], an optional sign, digits. *)
Definition exponentPart (s : jsstring) : option Z :=
  match s with
  | [] => Some 0
  | c :: s' =>
      if ((c =? 101) || (c =? 69))%N then
        let '(neg, s'') :=
          match s' with
          | 45%N :: r => (true, r)
          | 43%N :: r => (false, r)
          | _ => (false, s')
          end in
        match digits 10 0 0 s'' with
        | (v, count, []) =>
            if (0 <? count)%N
            then Some (if neg then - Z.of_N v else Z.of_N v) else None
        | _ => None
        end
      else None
  end.

(** StrUnsignedDecimalLiteral. *)
Definition unsignedDecimalLiteral (neg : bool) (s : jsstring) : JsNumber :=
  if list_eq_dec N.eq_dec s (lit "Infinity") then Infinity neg else
  let '(ip, icount, r) := digits 10 0 0 s in
  let '(m, fcount, r') :=
    match r with
    | 46%N :: r1 =>
        let '(m, total, r2) := digits 10 ip icount r1 in
        (m, (total - icount)%N, r2)
    | _ => (ip, 0%N, r)
    end in
  if ((icount + fcount =? 0))%N then NaN else
  match exponentPart r' with
  | Some e => toNumber neg m (e - Z.of_N fcount)
  | None => NaN
  end.

Definition StringToNumber (s : jsstring) : JsNumber :=
  match trim s with
  | [] => Finite false 0 0
  | 48%N :: 120%N :: r | 48%N :: 88%N :: r => nonDecimalLiteral 16 r
  | 48%N :: 111%N :: r | 48%N :: 79%N :: r => nonDecimalLiteral 8 r
  | 48%N :: 98%N :: r | 48%N :: 66%N :: r => nonDecimalLiteral 2 r
  | 45%N :: r => unsignedDecimalLiteral true r
  | 43%N :: r => unsignedDecimalLiteral false r
  | r => unsignedDecimalLiteral false r
  end.

End JsNum.
Export JsNum.

(** ** Values, thrown values and completions *)

(** What [await req.json()] yields: the result of [JSON.parse]. *)
Inductive Json :=
| JNull
| JBool (b : bool)
| JNumber (x : JsNumber)
| JString (s : jsstring)
| JArray (items : list Json)
| JObject (props : list (jsstring * Json)).

(** A value of type [unknown], as [safeStringifyFailureInfo] takes it.
    Besides plain data it may be [undefined], a BigInt, a function or a
    symbol; [VCircular] stands for a property that refers back to an
    object enclosing it, which makes the structure cyclic.  The properties
    of an object are listed in their enumeration order. *)
Inductive JsValue :=
| VUndefined
| VNull
| VBool (b : bool)
| VNumber (x : JsNumber)
| VString (s : jsstring)
| VArray (items : list JsValue)
| VObject (props : list (jsstring * JsValue))
| VBigInt (z : Z)
| VFunction
| VSymbol
| VCircular.

Fixpoint ofJson (j : Json) : JsValue :=
  match j with
  | JNull => VNull
  | JBool b => VBool b
  | JNumber x => VNumber x
  | JString s => VString s
  | JArray items => VArray (map ofJson items)
  | JObject props => VObject (map (fun kv => (fst kv, ofJson (snd kv))) props)
  end.

(** An optional property read as a value: absent is [undefined]. *)
Definition ofOptJson (o : option Json) : JsValue :=
  match o with
  | Some j => ofJson j
  | None => VUndefined
  end.

(** The issues of a [ZodError]: what was violated, and where.  The
    message of an issue is a function of its code, fixed by zod's error
    map, and is left out. *)
Inductive ZodIssueCode := invalid_type | too_small.

Record ZodIssue := mkIssue {
  issue_code : ZodIssueCode;
  issue_path : list jsstring
}.

(** What a [catch] clause may receive: a [ZodError], another error object
    with its [name], or a value that has no name. *)
Inductive Thrown :=
| ZodError (issues : list ZodIssue)
| ErrorNamed (name : jsstring)
| ThrownOther.

Inductive Completion (A : Type) :=
| Normal (a : A)
| Throw (e : Thrown).
Arguments Normal {A} a.
Arguments Throw {A} e.

#[export] Instance Monad_Completion : Monad Completion := {
  ret := fun A a => Normal a;
  bind := fun A B c k =>
    match c with
    | Normal a => k a
    | Throw e => Throw e
    end
}.

Local Open Scope monad_scope.

Definition TypeError : Thrown := ErrorNamed (lit "TypeError").

(** ** [JSON.stringify(value, null, 2)] *)

Module JSON.

Definition hexDigit (d : N) : code_unit :=
  (if d <? 10 then 48 + d else 87 + d)%N.

(** [\uXXXX] with lower-case hexadecimal digits. *)
Definition unicodeEscape (c : code_unit) : jsstring :=
  lit "\u" ++ [hexDigit (c / 4096 mod 16)%N; hexDigit (c / 256 mod 16)%N;
               hexDigit (c / 16 mod 16)%N; hexDigit (c mod 16)%N].

Definition isLeadingSurrogate (c : code_unit) : bool :=
  ((55296 <=? c) && (c <=? 56319))%N.
Definition isTrailingSurrogate (c : code_unit) : bool :=
  ((56320 <=? c) && (c <=? 57343))%N.

Definition quoteCodeUnit (c : code_unit) : jsstring :=
  match c with
  | 8%N => lit "\b"
  | 9%N => lit "\t"
  | 10%N => lit "\n"
  | 12%N => lit "\f"
  | 13%N => lit "\r"
  | 34%N => lit "\" ++ QUOTE
  | 92%N => lit "\\"
  | _ => if (c <? 32)%N then unicodeEscape c else [c]
  end.

Fixpoint quoteBody (s : jsstring) : jsstring :=
  match s with
  | [] => []
  | c :: r =>
      if isLeadingSurrogate c then
        match r with
        | d :: r' =>
            if isTrailingSurrogate d then c :: d :: quoteBody r'
            else unicodeEscape c ++ quoteBody r
        | [] => unicodeEscape c
        end
      else if isTrailingSurrogate c then unicodeEscape c ++ quoteBody r
      else quoteCodeUnit c ++ quoteBody r
  end.

(** QuoteJSONString *)
Definition quote (s : jsstring) : jsstring := QUOTE ++ quoteBody s ++ QUOTE.

Definition gap : jsstring := lit "  ".

(** SerializeJSONProperty at indentation [indent]: [None] is
    [undefined]. *)
Fixpoint serialize (indent : jsstring) (v : JsValue)
  : Completion (option jsstring) :=
  match v with
  | VUndefined | VFunction | VSymbol => Normal None
  | VNull => Normal (Some (lit "null"))
  | VBool b => Normal (Some (if b then lit "true" else lit "false"))
  | VNumber x =>
      Normal (Some match x with
                   | Finite _ _ _ => JsNum.toString x
                   | _ => lit "null"
                   end)
  | VString s => Normal (Some (quote s))
  | VBigInt _ => Throw TypeError
  | VCircular => Throw TypeError
  | VArray items =>
      let stepback := indent in
      let indent := indent ++ gap in
      let fix elements (l : list JsValue) : Completion (list jsstring) :=
        match l with
        | [] => Normal []
        | x :: l' =>
            match serialize indent x with
            | Throw e => Throw e
            | Normal strP =>
                match elements l' with
                | Throw e => Throw e
                | Normal partial =>
                    Normal (match strP with
                            | None => lit "null"
                            | Some str => str
                            end :: partial)
                end
            end
        end in
      match elements items with
      | Throw e => Throw e
      | Normal [] => Normal (Some (lit "[]"))
      | Normal partial =>
          Normal (Some (lit "[" ++ LF ++ indent
                        ++ join (lit "," ++ LF ++ indent) partial
                        ++ LF ++ stepback ++ lit "]"))
      end
  | VObject props =>
      let stepback := indent in
      let indent := indent ++ gap in
      let fix members (l : list (jsstring * JsValue))
        : Completion (list jsstring) :=
        match l with
        | [] => Normal []
        | (key, x) :: l' =>
            match serialize indent x with
            | Throw e => Throw e
            | Normal strP =>
                match members l' with
                | Throw e => Throw e
                | Normal partial =>
                    Normal (match strP with
                            | None => partial
                            | Some str =>
                                (quote key ++ lit ": " ++ str) :: partial
                            end)
                end
            end
        end in
      match members props with
      | Throw e => Throw e
      | Normal [] => Normal (Some (lit "{}"))
      | Normal partial =>
          Normal (Some (lit "{" ++ LF ++ indent
                        ++ join (lit "," ++ LF ++ indent) partial
                        ++ LF ++ stepback ++ lit "}"))
      end
  end.

Definition stringify (v : JsValue) : Completion (option jsstring) :=
  serialize [] v.

End JSON.

(** ** The request schema ([CritiqueRequestSchema], lines 7-15)

    zod's object parser reads every key of the shape from the data, runs the
    key's schema on it, and collects the issues of all keys; keys of the
    data that the shape does not name are dropped from the result. *)

Module Zod.

Inductive ParseResult (A : Type) :=
| Valid (a : A)
| Invalid (issues : list ZodIssue).
Arguments Valid {A} a.
Arguments Invalid {A} issues.

(** A schema checks the datum found at [path]; [None] is [undefined]. *)
Definition Schema (A : Type) := list jsstring -> option Json -> ParseResult A.

(** [z.string()] *)
Definition string : Schema jsstring := fun path data =>
  match data with
  | Some (JString s) => Valid s
  | _ => Invalid [mkIssue invalid_type path]
  end.

(** [schema.min(n)] on a string schema *)
Definition min (n : Z) (schema : Schema jsstring) : Schema jsstring :=
  fun path data =>
    match schema path data with
    | Valid s => if jslength s <? n then Invalid [mkIssue too_small path]
                 else Valid s
    | Invalid issues => Invalid issues
    end.

(** [schema.optional()] *)
Definition optional {A} (schema : Schema A) : Schema (option A) :=
  fun path data =>
    match data with
    | None => Valid None
    | Some _ =>
        match schema path data with
        | Valid a => Valid (Some a)
        | Invalid issues => Invalid issues
        end
    end.

(** [z.any().optional()]: every datum passes, absent or not. *)
Definition any_optional : Schema (option Json) := fun _ data => Valid data.

(** [data[key]] on the properties of a parsed object. *)
Fixpoint getProp (key : jsstring) (props : list (jsstring * Json))
  : option Json :=
  match props with
  | [] => None
  | (k, v) :: rest =>
      if list_eq_dec N.eq_dec k key then Some v else getProp key rest
  end.

Definition field {A} (props : list (jsstring * Json)) (key : jsstring)
  (schema : Schema A) : ParseResult A :=
  schema [key] (getProp key props).

(** Results of the keys are combined in the order of the shape, and the
    issues of every key are kept. *)
Definition ap {A B} (rf : ParseResult (A -> B)) (ra : ParseResult A)
  : ParseResult B :=
  match rf, ra with
  | Valid f, Valid a => Valid (f a)
  | Valid _, Invalid issues => Invalid issues
  | Invalid issues, Valid _ => Invalid issues
  | Invalid issues, Invalid more => Invalid (issues ++ more)
  end.

End Zod.

Notation "rf <*> ra" := (Zod.ap rf ra) (at level 50, left associativity).

(** [z.infer<typeof CritiqueRequestSchema>] *)
Record CritiqueRequest := mkCritiqueRequest {
  id : jsstring;
  prd : jsstring;
  buggy_solution_code : jsstring;
  failure_info : option Json;
  label : option jsstring;
  qwq_critique : option jsstring;
  meta : option Json
}.

Definition CritiqueRequestSchema (props : list (jsstring * Json))
  : Zod.ParseResult CritiqueRequest :=
  Zod.Valid mkCritiqueRequest
  <*> Zod.field props (lit "id") (Zod.min 1 Zod.string)
  <*> Zod.field props (lit "prd") (Zod.min 1 Zod.string)
  <*> Zod.field props (lit "buggy_solution_code") (Zod.min 1 Zod.string)
  <*> Zod.field props (lit "failure_info") Zod.any_optional
  <*> Zod.field props (lit "label") (Zod.optional Zod.string)
  <*> Zod.field props (lit "qwq_critique") (Zod.optional Zod.string)
  <*> Zod.field props (lit "meta") Zod.any_optional.

(** [CritiqueRequestSchema.parse(body)]: the parsed request, or a
    [ZodError] carrying the issues.  A body that is no object gives one
    issue at the root. *)
Definition CritiqueRequestSchema_parse (body : Json)
  : Completion CritiqueRequest :=
  match body with
  | JObject props =>
      match CritiqueRequestSchema props with
      | Zod.Valid input => Normal input
      | Zod.Invalid issues => Throw (ZodError issues)
      end
  | _ => Throw (ZodError [mkIssue invalid_type []])
  end.

(** ** The prompt builder (lines 28-92) *)

(** [try { body } catch { handler }] around a computation without
    effects. *)
Definition tryCatch {A} (body : Completion A) (handler : Thrown -> A) : A :=
  match body with
  | Normal a => a
  | Throw e => handler e
  end.

(** [x ?? d] *)
Definition nullish (x d : JsValue) : JsValue :=
  match x with
  | VUndefined | VNull => d
  | _ => x
  end.

(** A string argument whose [length] is read: on [undefined] the read
    throws a TypeError. *)
Definition stringArg (s : option jsstring) : Completion jsstring :=
  match s with
  | Some s => Normal s
  | None => Throw TypeError
  end.

Definition safeStringifyFailureInfo (x : JsValue) : jsstring :=
  tryCatch
    (raw <- JSON.stringify (nullish x VNull) ;;
     raw <- stringArg raw ;;
     ret (truncate raw MAX_FAILUREINFO_CHARS))
    (fun _ => lit "null").

(** The array of lines that [buildPrompt] joins, around its four
    interpolated entries. *)
Definition promptLines (prdTrimmed codeTrimmed failureInfo label : jsstring)
  : list jsstring :=
  [
    lit "You are a meticulous Quality Assurance Engineer for the OpenCodeReasoning (OCR) Challenge.";
    [];
    lit "You will be given:";
    lit "- PRD: the exact problem statement + constraints";
    lit "- BUGGY_CODE: a Python solution that fails";
    lit "- FAILURE_INFO: failing tests / trace / error details (may be partial)";
    lit "- LABEL/JUDGEMENT: may be present as a hint about expected behavior";
    [];
    lit "OUTPUT FORMAT CONTRACT (STRICT):";
    lit "- Your output MUST contain exactly THREE sections, in this exact order.";
    lit "- The FIRST line of each section MUST be EXACTLY one of these header lines (match characters exactly):";
    lit "Detailed Diagnosis";
    lit "[Proposed Fix]";
    lit "<Test_Validation>";
    lit "- Do NOT add any other headers or lines that look like headers.";
    lit "- Do NOT add numbering, bullets, colons, markdown prefixes (e.g. ###), or extra characters on the header lines.";
    lit "- Do NOT output anything before 'Detailed Diagnosis' and do NOT output anything after the <Test_Validation> section.";
    [];
    lit "CORRECTNESS REQUIREMENTS:";
    lit "- Detailed Diagnosis: identify faulty line(s), root cause, and how it violates the PRD.";
    lit "- [Proposed Fix]: provide a complete, self-contained Python script that solves the PRD.";
    lit "  - Keep the original structure where possible; change only what is necessary to satisfy the PRD.";
    lit "  - Do NOT introduce unrelated algorithms or features.";
    lit "- <Test_Validation>: include at least 3 NEW assert statements (plain 'assert', no test frameworks).";
    lit "  - Include at least 1 counter-factual assert that fails on the buggy code but passes on your fix (use FAILURE_INFO when possible).";
    lit "  - Include at least 2 additional edge/boundary asserts implied by the PRD.";
    lit "- The asserts MUST be consistent with the behavior of your fixed code.";
    lit "- Do NOT use external internet, files, or non-standard libraries.";
    lit "- Keep it formal, precise, and technical. No filler.";
    [];
    lit "INPUTS:";
    [];
    lit "=== PRD ===";
    prdTrimmed;
    [];
    lit "=== BUGGY_CODE ===";
    codeTrimmed;
    [];
    lit "=== FAILURE_INFO (json) ===";
    failureInfo;
    [];
    lit "=== LABEL/JUDGEMENT (optional) ===";
    label;
    [];
    lit "Return ONLY the three required sections, in order, with the exact header lines."
  ].

Definition buildPrompt (input : CritiqueRequest) : jsstring :=
  let prd := truncate (prd input) MAX_PRD_CHARS in
  let code := truncate (buggy_solution_code input) MAX_CODE_CHARS in
  let failureInfo := safeStringifyFailureInfo (ofOptJson (failure_info input)) in
  let label := match label input with Some l => l | None => lit "null" end in
  let prompt := join LF (promptLines (trim prd) (trim code) failureInfo label) in
  truncate prompt MAX_PROMPT_CHARS.

(** ** Responses ([jsonNoStore], lines 94-98) *)

(** The two result shapes the handler builds. *)
Inductive CritiqueResult :=
| Failure (request_id : jsstring) (error : jsstring)
          (details : option (list ZodIssue))
| Success (request_id : jsstring) (id : jsstring) (model : jsstring)
          (hasAllHeaders : bool) (text : jsstring).

Module Headers.

(** Header names are kept in lower case, one entry per name. *)
Definition Headers := list (jsstring * jsstring).

Definition lowerCase (name : jsstring) : jsstring :=
  map (fun c => if ((65 <=? c) && (c <=? 90))%N then (c + 32)%N else c) name.

Definition sameName (name : jsstring) (entry : jsstring * jsstring) : bool :=
  if list_eq_dec N.eq_dec (fst entry) (lowerCase name) then true else false.

Definition get (name : jsstring) (h : Headers) : option jsstring :=
  option_map snd (find (sameName name) h).

Definition set (name value : jsstring) (h : Headers) : Headers :=
  filter (fun entry => negb (sameName name entry)) h
  ++ [(lowerCase name, value)].

End Headers.

Record Response := mkResponse {
  status : Z;
  headers : Headers.Headers;
  body : CritiqueResult
}.

(** [NextResponse.json(body, { status })] *)
Definition NextResponse_json (body : CritiqueResult) (status : Z) : Response :=
  mkResponse status [(lit "content-type", lit "application/json")] body.

(** [res.headers.set(name, value)] *)
Definition setHeader (res : Response) (name value : jsstring) : Response :=
  let 'mkResponse st h b := res in mkResponse st (Headers.set name value h) b.

(** [jsonNoStore(body, status = 200)]; the handler leaves the status out
    on success only. *)
Definition jsonNoStore (body : CritiqueResult) (status : Z) : Response :=
  let res := NextResponse_json body status in
  setHeader res (lit "Cache-Control") (lit "no-store").

(** ** The handler ([POST], lines 100-197) *)

(** What the handler reads of the request: the content type header
    ([null] when absent) and the outcome of [await req.json()]. *)
Record Request := mkRequest {
  content_type : option jsstring;
  json : Completion Json
}.

(** [process.env] *)
Record Env := mkEnv {
  HF_TOKEN : option jsstring;
  HF_MODEL : option jsstring;
  CRITIQUE_TIMEOUT_MS : option jsstring
}.

(** The client of the model endpoint and one call of
    [client.chat.completions.create]. *)
Record ClientOptions := mkClientOptions {
  apiKey : jsstring;
  baseURL : jsstring;
  maxRetries : Z
}.

Record Message := mkMessage {
  role : jsstring;
  content : jsstring
}.

Record CreateParams := mkCreateParams {
  create_model : jsstring;
  temperature : JsNumber;
  max_tokens : Z;
  messages : list Message
}.

(** The part of a completion the handler reads, every level optional. *)
Record ResponseMessage := mkResponseMessage {
  message_content : option jsstring
}.

Record Choice := mkChoice {
  message : option ResponseMessage
}.

Record ChatCompletion := mkChatCompletion {
  choices : option (list Choice)
}.

(** The endpoint behind the client: it sees the client options, the
    parameters and the delay after which the abort signal fires, and
    settles with a completion or throws (an [AbortError] on abort). *)
Definition Endpoint :=
  ClientOptions -> CreateParams -> JsNumber -> Completion ChatCompletion.

(** The effects of one run that the properties speak of, in order. *)
Inductive Event :=
| SetTimeout (ms : JsNumber)
| Create (client : ClientOptions) (params : CreateParams)
| ClearTimeout.

(** A computation that logs events and then returns or throws. *)
Definition Eff (A : Type) : Type := (list Event * Completion A)%type.

#[export] Instance Monad_Eff : Monad Eff := {
  ret := fun A a => ([], Normal a);
  bind := fun A B m k =>
    match m with
    | (log, Normal a) => let '(log', r) := k a in (log ++ log', r)
    | (log, Throw e) => (log, Throw e)
    end
}.

Definition emit (ev : Event) : Eff unit := ([ev], Normal tt).

Definition await {A} (c : Completion A) : Eff A := ([], c).

(** [try { body } finally { cleanup }] *)
Definition tryFinally {A} (body : Eff A) (cleanup : Eff unit) : Eff A :=
  let '(log, r) := body in
  match cleanup with
  | (log', Normal _) => (log ++ log', r)
  | (log', Throw e) => (log ++ log', Throw e)
  end.

(** [x || d] on strings: [d] replaces an absent or empty string. *)
Definition orElse (x : option jsstring) (d : jsstring) : jsstring :=
  match x with
  | Some (c :: s) => c :: s
  | _ => d
  end.

(** The operand of [Number] in the handler: a string or a number. *)
Inductive StringOrNumber :=
| IsString (s : jsstring)
| IsNumber (x : JsNumber).

(** [Number(value)]: a string is converted, a number is returned as it
    is. *)
Definition Number (value : StringOrNumber) : JsNumber :=
  match value with
  | IsString s => StringToNumber s
  | IsNumber x => x
  end.

(** [Number(process.env.CRITIQUE_TIMEOUT_MS || 45_000)]: the operand is
    the variable when it is set and not empty, the number 45000
    otherwise. *)
Definition timeoutMs (env : Env) : JsNumber :=
  Number match CRITIQUE_TIMEOUT_MS env with
         | Some (c :: s) => IsString (c :: s)
         | _ => IsNumber (ofZ 45000)
         end.

(** [completion.choices?.[0]?.message?.content ?? ""] *)
Definition completionText (completion : ChatCompletion) : jsstring :=
  match choices completion with
  | Some (choice :: _) =>
      match message choice with
      | Some m =>
          match message_content m with
          | Some s => s
          | None => []
          end
      | None => []
      end
  | _ => []
  end.

Definition hasAllHeaders (text : jsstring) : bool :=
  includes text (lit "Detailed Diagnosis") &&
  includes text (lit "[Proposed Fix]") &&
  includes text (lit "<Test_Validation>").

(** The [try] block of the handler. *)
Definition POST_try (requestId : jsstring) (env : Env) (endpoint : Endpoint)
  (req : Request) : Eff Response :=
  let ct := orElse (content_type req) [] in
  if negb (includes ct (lit "application/json")) then
    ret (jsonNoStore
           (Failure requestId (lit "Content-Type must be application/json") None)
           415)
  else
  match HF_TOKEN env with
  | None | Some [] =>
      ret (jsonNoStore
             (Failure requestId (lit "Server misconfigured: HF_TOKEN missing") None)
             500)
  | Some hfToken =>
      body <- await (json req) ;;
      input <- await (CritiqueRequestSchema_parse body) ;;
      let client :=
        mkClientOptions hfToken (lit "https://router.huggingface.co/v1") 2 in
      let model := orElse (HF_MODEL env) (lit "Qwen/Qwen2.5-Coder-7B-Instruct") in
      let timeoutMs := timeoutMs env in
      emit (SetTimeout timeoutMs) ;;
      text <- tryFinally
                (let params :=
                   mkCreateParams model (Finite false 2 1) 1400
                     [mkMessage (lit "system")
                        (lit "You are a QA Engineer. Follow the required OCR output structure exactly.");
                      mkMessage (lit "user") (buildPrompt input)] in
                 emit (Create client params) ;;
                 completion <- await (endpoint client params timeoutMs) ;;
                 ret (completionText completion))
                (emit ClearTimeout) ;;
      let hasAllHeaders := hasAllHeaders text in
      ret (jsonNoStore
             (Success requestId input.(id) model hasAllHeaders text)
             200)
  end.

(** The [catch] clause of the handler. *)
Definition POST_catch (requestId : jsstring) (err : Thrown) : Response :=
  match err with
  | ZodError issues =>
      jsonNoStore
        (Failure requestId (lit "Invalid request body") (Some issues)) 400
  | ErrorNamed name =>
      if list_eq_dec N.eq_dec name (lit "AbortError") then
        jsonNoStore
          (Failure requestId (lit "Upstream model request timed out") None) 504
      else jsonNoStore (Failure requestId (lit "Server error") None) 500
  | ThrownOther => jsonNoStore (Failure requestId (lit "Server error") None) 500
  end.

(** One run of the handler: the response, and the events of the run.
    [requestId] is the fresh [crypto.randomUUID()] of the run. *)
Definition POST (requestId : jsstring) (env : Env) (endpoint : Endpoint)
  (req : Request) : Response * list Event :=
  let '(log, r) := POST_try requestId env endpoint req in
  match r with
  | Normal res => (res, log)
  | Throw err => (POST_catch requestId err, log)
  end.

(** ** Notions the properties are stated with *)

(** The marker [truncate] appends when it drops [dropped] code units. *)
Definition truncationMarker (dropped : Z) : jsstring :=
  LF ++ LF ++ lit "...[TRUNCATED " ++ intToString dropped ++ lit " chars]".

(** The count a marker states: the decimal number between its fixed
    opening and closing text. *)
Definition markerCount (marker : jsstring) : option N :=
  let opening := LF ++ LF ++ lit "...[TRUNCATED " in
  let closing := lit " chars]" in
  let inner := skipn (length opening) marker in
  parseDecimal (firstn (length inner - length closing) inner).

(** The truncation law for a [field] rendered as [rendered] under a
    [budget]. *)
Definition obeysTruncationLaw (field : jsstring) (budget : Z)
  (rendered : jsstring) : Prop :=
  (jslength field <= budget -> rendered = field) /\
  (budget < jslength field ->
   rendered = firstn (Z.to_nat budget) field
              ++ truncationMarker (jslength field - budget) /\
   jslength rendered
   = budget + jslength (truncationMarker (jslength field - budget)) /\
   markerCount (truncationMarker (jslength field - budget))
   = Some (Z.to_N (jslength field - budget))).

(** [search] occurs in [s]: some code units, then [search], then the
    rest. *)
Definition occursIn (search s : jsstring) : Prop :=
  exists before after : jsstring, s = before ++ search ++ after.

(** The four interpolated sections of the prompt. *)
Definition prdSection (input : CritiqueRequest) : jsstring :=
  trim (truncate (prd input) MAX_PRD_CHARS).

Definition codeSection (input : CritiqueRequest) : jsstring :=
  trim (truncate (buggy_solution_code input) MAX_CODE_CHARS).

Definition failureInfoSection (input : CritiqueRequest) : jsstring :=
  safeStringifyFailureInfo (ofOptJson (failure_info input)).

Definition labelSection (input : CritiqueRequest) : jsstring :=
  match label input with Some l => l | None => lit "null" end.

(** The fixed text around the sections. *)
Definition PROMPT_HEAD : jsstring :=
  join LF (firstn 33 (promptLines [] [] [] [])) ++ LF.
Definition CODE_HEADING : jsstring :=
  LF ++ LF ++ lit "=== BUGGY_CODE ===" ++ LF.
Definition FAILURE_INFO_HEADING : jsstring :=
  LF ++ LF ++ lit "=== FAILURE_INFO (json) ===" ++ LF.
Definition LABEL_HEADING : jsstring :=
  LF ++ LF ++ lit "=== LABEL/JUDGEMENT (optional) ===" ++ LF.
Definition PROMPT_TAIL : jsstring :=
  LF ++ LF
  ++ lit "Return ONLY the three required sections, in order, with the exact header lines.".

(** The prompt before the overall cap is applied. *)
Definition assembledPrompt (input : CritiqueRequest) : jsstring :=
  PROMPT_HEAD ++ prdSection input ++ CODE_HEADING ++ codeSection input
  ++ FAILURE_INFO_HEADING ++ failureInfoSection input
  ++ LABEL_HEADING ++ labelSection input ++ PROMPT_TAIL.

(** The prompt renders the sections [p], [c] and [f] for the problem
    statement, the code and the failure info: it is the fixed text with
    these three and the label in their places, under the overall cap. *)
Definition rendersSections (input : CritiqueRequest) (p c f : jsstring)
  : Prop :=
  buildPrompt input
  = truncate (PROMPT_HEAD ++ p ++ CODE_HEADING ++ c
              ++ FAILURE_INFO_HEADING ++ f
              ++ LABEL_HEADING ++ labelSection input ++ PROMPT_TAIL)
      MAX_PROMPT_CHARS.

(** A required field is violated when the datum is absent, no string, or
    the empty string. *)
Definition violatesRequired (datum : option Json) : bool :=
  match datum with
  | Some (JString (_ :: _)) => false
  | _ => true
  end.

(** An optional string field is violated when the datum is present and
    no string. *)
Definition violatesOptionalString (datum : option Json) : bool :=
  match datum with
  | None | Some (JString _) => false
  | _ => true
  end.

(** The fields of an object that violate the schema, in the order of the
    shape. *)
Definition violatedFields (props : list (jsstring * Json)) : list jsstring :=
  filter (fun key => violatesRequired (Zod.getProp key props))
    [lit "id"; lit "prd"; lit "buggy_solution_code"]
  ++ filter (fun key => violatesOptionalString (Zod.getProp key props))
       [lit "label"; lit "qwq_critique"].

(** The keys the shape names. *)
Definition schemaKeys : list jsstring :=
  [lit "id"; lit "prd"; lit "buggy_solution_code"; lit "failure_info";
   lit "label"; lit "qwq_critique"; lit "meta"].

(** [object[key] = value]: an own property is replaced in place, a new
    one is added at the end. *)
Fixpoint setProp (key : jsstring) (value : Json)
  (props : list (jsstring * Json)) : list (jsstring * Json) :=
  match props with
  | [] => [(key, value)]
  | (k, v) :: rest =>
      if list_eq_dec N.eq_dec k key then (k, value) :: rest
      else (k, v) :: setProp key value rest
  end.

(** The datum as a string, for a field the schema has checked. *)
Definition stringOf (datum : option Json) : jsstring :=
  match datum with
  | Some (JString s) => s
  | _ => []
  end.

Definition optStringOf (datum : option Json) : option jsstring :=
  match datum with
  | Some (JString s) => Some s
  | _ => None
  end.

(** The request a valid object is parsed into: the fields of the shape,
    read from the object. *)
Definition requestOf (props : list (jsstring * Json)) : CritiqueRequest :=
  mkCritiqueRequest
    (stringOf (Zod.getProp (lit "id") props))
    (stringOf (Zod.getProp (lit "prd") props))
    (stringOf (Zod.getProp (lit "buggy_solution_code") props))
    (Zod.getProp (lit "failure_info") props)
    (optStringOf (Zod.getProp (lit "label") props))
    (optStringOf (Zod.getProp (lit "qwq_critique") props))
    (Zod.getProp (lit "meta") props).

(** The request declares its content as JSON. *)
Definition declaresJson (req : Request) : bool :=
  includes (orElse (content_type req) []) (lit "application/json").

(** The access credential: present when the variable is set and not
    empty. *)
Definition credential (env : Env) : option jsstring :=
  match HF_TOKEN env with
  | Some (c :: token) => Some (c :: token)
  | _ => None
  end.

(** The body of the request, read and validated. *)
Definition validated (req : Request) : Completion CritiqueRequest :=
  body <- json req ;; CritiqueRequestSchema_parse body.

(** The client, the model and the parameters the handler uses. *)
Definition clientOf (hfToken : jsstring) : ClientOptions :=
  mkClientOptions hfToken (lit "https://router.huggingface.co/v1") 2.

Definition modelOf (env : Env) : jsstring :=
  orElse (HF_MODEL env) (lit "Qwen/Qwen2.5-Coder-7B-Instruct").

Definition paramsOf (env : Env) (input : CritiqueRequest) : CreateParams :=
  mkCreateParams (modelOf env) (Finite false 2 1) 1400
    [mkMessage (lit "system")
       (lit "You are a QA Engineer. Follow the required OCR output structure exactly.");
     mkMessage (lit "user") (buildPrompt input)].

(** What the endpoint answers to the one call of a run. *)
Definition answer (env : Env) (endpoint : Endpoint) (hfToken : jsstring)
  (input : CritiqueRequest) : Completion ChatCompletion :=
  endpoint (clientOf hfToken) (paramsOf env input) (timeoutMs env).

(** The outbound calls among the events of a run. *)
Definition outboundCalls (log : list Event)
  : list (ClientOptions * CreateParams) :=
  flat_map (fun ev => match ev with
                      | Create client params => [(client, params)]
                      | _ => []
                      end) log.

(** The outcomes of the specification, and the status of each. *)
Inductive Outcome :=
| Succeeded
| ValidationError
| BadContentType
| Misconfigured
| UpstreamTimeout
| ServerError.

Definition statusOf (o : Outcome) : Z :=
  match o with
  | Succeeded => 200
  | ValidationError => 400
  | BadContentType => 415
  | Misconfigured => 500
  | UpstreamTimeout => 504
  | ServerError => 500
  end.

(** The outcome a response reports, read off its body. *)
Definition outcome (res : Response) : option Outcome :=
  match body res with
  | Success _ _ _ _ _ => Some Succeeded
  | Failure _ error details =>
      if list_eq_dec N.eq_dec error (lit "Invalid request body")
      then match details with Some _ => Some ValidationError | None => None end
      else if list_eq_dec N.eq_dec error
                (lit "Content-Type must be application/json")
      then Some BadContentType
      else if list_eq_dec N.eq_dec error
                (lit "Server misconfigured: HF_TOKEN missing")
      then Some Misconfigured
      else if list_eq_dec N.eq_dec error
                (lit "Upstream model request timed out")
      then Some UpstreamTimeout
      else if list_eq_dec N.eq_dec error (lit "Server error")
      then Some ServerError
      else None
  end.

(** The outcome of a thrown value, by the tests of the [catch] clause. *)
Definition outcomeOfThrown (err : Thrown) : Outcome :=
  match err with
  | ZodError _ => ValidationError
  | ErrorNamed name =>
      if list_eq_dec N.eq_dec name (lit "AbortError") then UpstreamTimeout
      else ServerError
  | ThrownOther => ServerError
  end.

(** A response is marked as not cacheable. *)
Definition notCacheable (res : Response) : Prop :=
  Headers.get (lit "Cache-Control") (headers res) = Some (lit "no-store").

(** ** Concrete requests *)

(** A request body with the given problem statement and label. *)
Definition sampleBody (prd : jsstring) (label : option jsstring) : Json :=
  JObject
    ([(lit "id", JString (lit "s1"));
      (lit "prd", JString prd);
      (lit "buggy_solution_code", JString (lit "def f(x): return 0"));
      (lit "failure_info",
       JObject [(lit "trace", JString (lit "AssertionError"))])]
     ++ match label with
        | Some l => [(lit "label", JString l)]
        | None => []
        end).

(** The request the schema parses [sampleBody prd label] into. *)
Definition sampleRequest (prd : jsstring) (label : option jsstring)
  : CritiqueRequest :=
  mkCritiqueRequest (lit "s1") prd (lit "def f(x): return 0")
    (Some (JObject [(lit "trace", JString (lit "AssertionError"))]))
    label None None.

(** Scenario A of the specification. *)
Definition scenarioA : CritiqueRequest :=
  sampleRequest (lit "Return sum of list") None.

(** A problem statement within its budget that starts with a space. *)
Definition paddedRequest : CritiqueRequest :=
  sampleRequest (lit " Return sum of list") None.

(** A problem statement of 20001 spaces, one over its budget. *)
Definition blankRequest : CritiqueRequest :=
  sampleRequest (repeat 32%N (N.to_nat 20001)) None.

(** A problem statement of 20001 letters, one over its budget. *)
Definition longPrdRequest : CritiqueRequest :=
  sampleRequest (97%N :: repeat 97%N (N.to_nat 20000)) None.

(** The failure info of these requests as the prompt shows it. *)
Definition traceText : jsstring :=
  lit "{" ++ LF ++ lit "  " ++ QUOTE ++ lit "trace" ++ QUOTE ++ lit ": "
  ++ QUOTE ++ lit "AssertionError" ++ QUOTE ++ LF ++ lit "}".

(** A label of 60000 letters; the label has no budget of its own. *)
Definition longLabelRequest : CritiqueRequest :=
  sampleRequest (lit "Return sum of list") (Some (repeat 97%N (N.to_nat 60000))).

(** A body with no problem statement (scenario B of the specification). *)
Definition bodyMissingPrd : Json :=
  JObject
    [(lit "id", JString (lit "s1"));
     (lit "buggy_solution_code", JString (lit "def f(x): return 0"))].

(** The three required fields in place, and a critique that is a number. *)
(** The three required fields and nothing else. *)
Definition requiredProps : list (jsstring * Json) :=
  [(lit "id", JString (lit "s1"));
   (lit "prd", JString (lit "Return sum of list"));
   (lit "buggy_solution_code", JString (lit "def f(x): return 0"))].

Definition propsWithNumericCritique : list (jsstring * Json) :=
  [(lit "id", JString (lit "s1"));
   (lit "prd", JString (lit "Return sum of list"));
   (lit "buggy_solution_code", JString (lit "def f(x): return 0"));
   (lit "qwq_critique", JNumber (ofZ 5))].

Definition bodyWithNumericCritique : Json := JObject propsWithNumericCritique.

Definition jsonRequest (data : Json) : Request :=
  mkRequest (Some (lit "application/json")) (Normal data).

Definition plainTextRequest (data : Json) : Request :=
  mkRequest (Some (lit "text/plain")) (Normal data).

Definition envWithToken : Env := mkEnv (Some (lit "hf_token")) None None.

Definition envWithoutToken : Env := mkEnv None None None.

(** The timeout variable set to a number, and to a text that is none. *)
Definition envTimeout10 : Env :=
  mkEnv (Some (lit "hf_token")) None (Some (lit "10")).

Definition envTimeoutAbc : Env :=
  mkEnv (Some (lit "hf_token")) None (Some (lit "abc")).

(** An endpoint that answers every call with [text], and one on which
    every call is aborted. *)
Definition answering (text : jsstring) : Endpoint :=
  fun _ _ _ =>
    Normal (mkChatCompletion
              (Some [mkChoice (Some (mkResponseMessage (Some text)))])).

Definition aborting : Endpoint :=
  fun _ _ _ => Throw (ErrorNamed (lit "AbortError")).

(** What [client.chat.completions.create] throws when the signal it was
    given fires: an [APIUserAbortError] of the client library (which is not
    among the sources).  The class sets no [name] of its own, so the [name]
    the handler reads is that of [Error]. *)
Definition APIUserAbortError : Thrown := ErrorNamed (lit "Error").

(** An endpoint that does not answer before the timer fires: the call is
    aborted through the signal and the client throws. *)
Definition timingOut : Endpoint :=
  fun _ _ _ => Throw APIUserAbortError.

Definition threeHeaders : jsstring :=
  lit "Detailed Diagnosis" ++ LF ++ lit "[Proposed Fix]" ++ LF
  ++ lit "<Test_Validation>".

(** ** [JSON.stringify(value)] without indentation

    The text the sample page sends: no gap, so the members of an array or
    an object are separated by a comma alone and a key is followed by a
    colon alone. *)

Module JSONText.

Fixpoint serialize (v : JsValue) : Completion (option jsstring) :=
  match v with
  | VUndefined | VFunction | VSymbol => Normal None
  | VNull => Normal (Some (lit "null"))
  | VBool b => Normal (Some (if b then lit "true" else lit "false"))
  | VNumber x =>
      Normal (Some match x with
                   | Finite _ _ _ => JsNum.toString x
                   | _ => lit "null"
                   end)
  | VString s => Normal (Some (JSON.quote s))
  | VBigInt _ => Throw TypeError
  | VCircular => Throw TypeError
  | VArray items =>
      let fix elements (l : list JsValue) : Completion (list jsstring) :=
        match l with
        | [] => Normal []
        | x :: l' =>
            match serialize x with
            | Throw e => Throw e
            | Normal strP =>
                match elements l' with
                | Throw e => Throw e
                | Normal partial =>
                    Normal (match strP with
                            | None => lit "null"
                            | Some str => str
                            end :: partial)
                end
            end
        end in
      match elements items with
      | Throw e => Throw e
      | Normal partial =>
          Normal (Some (lit "[" ++ join (lit ",") partial ++ lit "]"))
      end
  | VObject props =>
      let fix members (l : list (jsstring * JsValue))
        : Completion (list jsstring) :=
        match l with
        | [] => Normal []
        | (key, x) :: l' =>
            match serialize x with
            | Throw e => Throw e
            | Normal strP =>
                match members l' with
                | Throw e => Throw e
                | Normal partial =>
                    Normal (match strP with
                            | None => partial
                            | Some str =>
                                (JSON.quote key ++ lit ":" ++ str) :: partial
                            end)
                end
            end
        end in
      match members props with
      | Throw e => Throw e
      | Normal partial =>
          Normal (Some (lit "{" ++ join (lit ",") partial ++ lit "}"))
      end
  end.

Definition stringify (v : JsValue) : Completion (option jsstring) :=
  serialize v.

End JSONText.

(** ** The pages

    The effects and handlers of [src/app/page.tsx] and
    [src/app/samples/[id]/page.tsx], as the state updates and calls they
    make. *)

(** The result of a query on the sample store: [error] with its message,
    or [data], [None] when there is none. *)
Record QueryResult (A : Type) := mkQueryResult {
  data : option A;
  error : option jsstring
}.
Arguments mkQueryResult {A} data error.
Arguments data {A} q.
Arguments error {A} q.

(** *** The sample page ([src/app/samples/[id]/page.tsx]) *)

Module SamplePage.

(** A row of the sample store as the page holds it; the columns typed
    [any] hold parsed JSON, [JNull] for a null column. *)
Record Sample := mkSample {
  id : jsstring;
  question_id : option jsstring;
  prd : option jsstring;
  buggy_solution_code : option jsstring;
  failure_info : Json;
  label : option jsstring;
  meta : Json
}.

(** [clampText(s, max = 12000)], lines 57-60 *)
Definition clampText (s : jsstring) (max : Z) : jsstring :=
  if jslength s <=? max then s
  else slice s 0 max ++ (LF ++ LF ++ lit "...[TRUNCATED]").

(** The text of the failure-info block (line 207):
    [clampText(JSON.stringify(sample.failure_info ?? {}, null, 2))]. *)
Definition failureInfoText (failure_info : JsValue) : Completion jsstring :=
  raw <- JSON.stringify (nullish failure_info (VObject [])) ;;
  raw <- stringArg raw ;;
  ret (clampText raw 12000).

(** The critique the page holds (its state is a critique or [null]): the
    data of an accepted response as it came, or a failure built by the
    page. *)
Inductive Critique :=
| FromServer (data : Json)
| Failed (error : Json) (details : option Json) (request_id : option Json).

(** The second argument of [fetch]. *)
Record RequestInit := mkRequestInit {
  method : jsstring;
  headers : list (jsstring * jsstring);
  cache : jsstring;
  body : option jsstring
}.

(** What the page reads of the response of [fetch]. *)
Record FetchResponse := mkFetchResponse {
  ok : bool;
  status : Z;
  json : Completion Json
}.

(** What the page needs of its surroundings: [fetch], and the [message]
    of a thrown value ([None] when it has none). *)
Record Browser := mkBrowser {
  fetch : jsstring -> RequestInit -> Completion FetchResponse;
  messageOf : Thrown -> option jsstring
}.

(** The state updates and calls of the page, in order. *)
Inductive PageEvent :=
| SetErr (err : option jsstring)
| SetSample (sample : option Sample)
| SetCritique (critique : option Critique)
| SetCritiqueLoading (loading : bool)
| Fetch (url : jsstring) (init : RequestInit).

(** [data?.[key]] on parsed JSON, for the keys the page reads ([error],
    [details], [request_id]): a property of an object, [undefined] on
    anything else. *)
Definition propertyOf (data : Json) (key : jsstring) : option Json :=
  match data with
  | JObject props => Zod.getProp key props
  | _ => None
  end.

(** [x ?? d] on an optional JSON value. *)
Definition orNullish (x : option Json) (d : Json) : Json :=
  match x with
  | None | Some JNull => d
  | Some v => v
  end.

(** The object [runCritique] serializes (lines 123-130). *)
Definition payload (sample : Sample) (prd code : jsstring) : JsValue :=
  VObject
    [(lit "id", VString sample.(id));
     (lit "prd", VString prd);
     (lit "buggy_solution_code", VString code);
     (lit "failure_info", nullish (ofJson sample.(failure_info)) VNull);
     (lit "label", match sample.(label) with
                   | Some l => VString l
                   | None => VUndefined
                   end);
     (lit "meta", nullish (ofJson sample.(meta)) VUndefined)].

(** The [catch] clause of [runCritique] (lines 145-146). *)
Definition runCritique_catch (browser : Browser) (e : Thrown)
  : list PageEvent :=
  [SetCritique
     (Some (Failed
              (JString match browser.(messageOf) e with
                       | Some m => m
                       | None => lit "Network error"
                       end)
              None None))].

(** [runCritique] (lines 108-150): the updates and the call it makes,
    given the sample the page holds. *)
Definition runCritique (browser : Browser) (sample : option Sample)
  : list PageEvent :=
  match sample with
  | None => []
  | Some sample =>
      match sample.(prd), sample.(buggy_solution_code) with
      | Some (c :: p), Some (d :: q) =>
          [SetCritiqueLoading true; SetCritique None]
          ++ match JSONText.stringify (payload sample (c :: p) (d :: q)) with
             | Throw e => runCritique_catch browser e
             | Normal text =>
                 let init :=
                   mkRequestInit (lit "POST")
                     [(lit "Content-Type", lit "application/json")]
                     (lit "no-store") text in
                 Fetch (lit "/api/critique") init
                 :: match browser.(fetch) (lit "/api/critique") init with
                    | Throw e => runCritique_catch browser e
                    | Normal res =>
                        match res.(json) with
                        | Throw e => runCritique_catch browser e
                        | Normal data =>
                            if negb res.(ok) then
                              [SetCritique
                                 (Some (Failed
                                          (orNullish (propertyOf data (lit "error"))
                                             (JString
                                                (lit "Request failed ("
                                                 ++ intToString res.(status)
                                                 ++ lit ")")))
                                          (Some (orNullish
                                                   (propertyOf data (lit "details"))
                                                   JNull))
                                          (propertyOf data (lit "request_id"))))]
                            else
                              (* [setCritique(data)]: [null] for the body
                                 [null] *)
                              [SetCritique match data with
                                           | JNull => None
                                           | _ => Some (FromServer data)
                                           end]
                        end
                    end
             end
          ++ [SetCritiqueLoading false]
      | _, _ =>
          [SetCritique
             (Some (Failed
                      (JString (lit "Sample is missing prd or buggy_solution_code"))
                      None None))]
      end
  end.

(** The effect that loads the sample (lines 72-106).  [id] is the route
    parameter when it is a string; [alive] tells whether the page is
    still mounted when the query settles. *)
Definition loadSample (id : option jsstring) (result : QueryResult Sample)
  (alive : bool) : list PageEvent :=
  match id with
  | None | Some [] => []
  | Some id =>
      [SetErr None; SetSample None; SetCritique None]
      ++ (if negb alive then []
          else match result.(error) with
               | Some message => [SetErr (Some message)]
               | None =>
                   match result.(data) with
                   | None => [SetErr (Some (lit "No sample found for id: " ++ id))]
                   | Some sample => [SetSample (Some sample)]
                   end
               end)
  end.

(** The state of the page that the events update. *)
Record PageState := mkPageState {
  state_sample : option Sample;
  state_err : option jsstring;
  state_critique : option Critique;
  state_critiqueLoading : bool
}.

Definition initialState : PageState := mkPageState None None None false.

Definition update (st : PageState) (ev : PageEvent) : PageState :=
  match ev with
  | SetErr e =>
      mkPageState st.(state_sample) e st.(state_critique)
        st.(state_critiqueLoading)
  | SetSample s =>
      mkPageState s st.(state_err) st.(state_critique)
        st.(state_critiqueLoading)
  | SetCritique c =>
      mkPageState st.(state_sample) st.(state_err) c
        st.(state_critiqueLoading)
  | SetCritiqueLoading b =>
      mkPageState st.(state_sample) st.(state_err) st.(state_critique) b
  | Fetch _ _ => st
  end.

Definition run (st : PageState) (events : list PageEvent) : PageState :=
  fold_left update events st.

End SamplePage.

(** *** The home page ([src/app/page.tsx]) *)

Module HomePage.

Record SampleRow := mkSampleRow {
  id : jsstring;
  question_id : option jsstring;
  label : option jsstring
}.

Inductive HomeEvent :=
| SetLoading (loading : bool)
| SetErr (err : option jsstring)
| SetRows (rows : list SampleRow).

(** The effect that loads the list (lines 18-42); [alive] tells whether
    the page is still mounted when the query settles. *)
Definition loadRows (result : QueryResult (list SampleRow)) (alive : bool)
  : list HomeEvent :=
  [SetLoading true; SetErr None]
  ++ (if negb alive then []
      else (match result.(error) with
            | Some message => [SetErr (Some message)]
            | None =>
                [SetRows match result.(data) with
                         | Some rows => rows
                         | None => []
                         end]
            end)
           ++ [SetLoading false]).

Record HomeState := mkHomeState {
  rows : list SampleRow;
  err : option jsstring;
  loading : bool
}.

(** [useState([])], [useState(null)], [useState(true)] *)
Definition initialState : HomeState := mkHomeState [] None true.

Definition update (st : HomeState) (ev : HomeEvent) : HomeState :=
  match ev with
  | SetLoading b => mkHomeState st.(rows) st.(err) b
  | SetErr e => mkHomeState st.(rows) e st.(loading)
  | SetRows r => mkHomeState r st.(err) st.(loading)
  end.

Definition run (st : HomeState) (events : list HomeEvent) : HomeState :=
  fold_left update events st.

End HomePage.

(** ** More notions the properties are stated with *)

(** The request id a result carries. *)
Definition requestIdOf (result : CritiqueResult) : jsstring :=
  match result with
  | Failure request_id _ _ => request_id
  | Success request_id _ _ _ _ => request_id
  end.

(** A completion that holds no text for the handler. *)
Definition lacksContent (completion : ChatCompletion) : Prop :=
  match choices completion with
  | None | Some [] => True
  | Some (choice :: _) =>
      match message choice with
      | None => True
      | Some m => message_content m = None
      end
  end.

(** The JSON object that the text of [payload] denotes: a property whose
    value is [undefined] is not written. *)
Definition payloadProps (sample : SamplePage.Sample) (prd code : jsstring)
  : list (jsstring * Json) :=
  [(lit "id", JString sample.(SamplePage.id));
   (lit "prd", JString prd);
   (lit "buggy_solution_code", JString code);
   (lit "failure_info", sample.(SamplePage.failure_info))]
  ++ match sample.(SamplePage.label) with
     | Some l => [(lit "label", JString l)]
     | None => []
     end
  ++ match sample.(SamplePage.meta) with
     | JNull => []
     | m => [(lit "meta", m)]
     end.

(** The headers of the request as the handler reads them. *)
Definition headersOf (init : SamplePage.RequestInit) : Headers.Headers :=
  fold_left (fun h entry => Headers.set (fst entry) (snd entry) h)
    init.(SamplePage.headers) [].

(** [!!s] on a column typed [string | null]. *)
Definition present (s : option jsstring) : bool :=
  match s with
  | Some (_ :: _) => true
  | _ => false
  end.

(** The calls of [fetch] among the events of the page. *)
Definition fetchCalls (events : list SamplePage.PageEvent)
  : list (jsstring * SamplePage.RequestInit) :=
  flat_map (fun ev => match ev with
                      | SamplePage.Fetch url init => [(url, init)]
                      | _ => []
                      end) events.

(** The request the handler is given when the page's call arrives: the
    headers of the call, and the object its body denotes. *)
Definition arriving (init : SamplePage.RequestInit)
  (props : list (jsstring * Json)) : Request :=
  mkRequest (Headers.get (lit "content-type") (headersOf init))
    (Normal (JObject props)).

(** The request the handler validates from the page's call. *)
Definition sentRequest (sample : SamplePage.Sample) (prd code : jsstring)
  : CritiqueRequest :=
  mkCritiqueRequest sample.(SamplePage.id) prd code
    (Some sample.(SamplePage.failure_info))
    sample.(SamplePage.label) None
    match sample.(SamplePage.meta) with
    | JNull => None
    | m => Some m
    end.

(** The JSON object a response body denotes (the object literals of
    [POST]); [issuesJson] gives the JSON of the issues of a [ZodError]. *)
Definition bodyJson (issuesJson : list ZodIssue -> Json)
  (result : CritiqueResult) : Json :=
  match result with
  | Failure request_id error details =>
      JObject
        ([(lit "ok", JBool false);
          (lit "request_id", JString request_id);
          (lit "error", JString error)]
         ++ match details with
            | Some issues => [(lit "details", issuesJson issues)]
            | None => []
            end)
  | Success request_id id model hasAllHeaders text =>
      JObject
        [(lit "ok", JBool true);
         (lit "request_id", JString request_id);
         (lit "id", JString id);
         (lit "model", JString model);
         (lit "hasAllHeaders", JBool hasAllHeaders);
         (lit "text", JString text)]
  end.

(** The response of the handler as [fetch] delivers it: [ok] for a
    status from 200 to 299. *)
Definition delivered (issuesJson : list ZodIssue -> Json) (res : Response)
  : SamplePage.FetchResponse :=
  SamplePage.mkFetchResponse
    ((200 <=? status res) && (status res <=? 299)) (status res)
    (Normal (bodyJson issuesJson (body res))).

(** ** More concrete surroundings *)

(** An endpoint that answers every call with the content of the last
    message it was sent. *)
Definition echoing : Endpoint :=
  fun _ params _ =>
    Normal (mkChatCompletion
              (Some [mkChoice
                       (Some (mkResponseMessage
                                (option_map content
                                   (last (map Some (messages params)) None))))])).

(** A sample of the store, with no label and no meta. *)
Definition storedSample : SamplePage.Sample :=
  SamplePage.mkSample (lit "s1") None (Some (lit "Return sum of list"))
    (Some (lit "def f(x): return 0"))
    (JObject [(lit "trace", JString (lit "AssertionError"))]) None JNull.

(** A browser whose [fetch] is answered by the handler's rejection of a
    missing credential. *)
Definition browserGetting500 : SamplePage.Browser :=
  SamplePage.mkBrowser
    (fun _ _ =>
       Normal (SamplePage.mkFetchResponse false 500
                 (Normal (JObject
                            [(lit "ok", JBool false);
                             (lit "request_id", JString (lit "r1"));
                             (lit "error",
                              JString (lit "Server misconfigured: HF_TOKEN missing"))]))))
    (fun _ => None).

(** A browser whose [fetch] is answered with status 200 and the body
    [null]. *)
Definition browserGettingNull : SamplePage.Browser :=
  SamplePage.mkBrowser
    (fun _ _ => Normal (SamplePage.mkFetchResponse true 200 (Normal JNull)))
    (fun _ => None).

(** A browser whose [fetch] delivers the response of one run of the
    handler. *)
Definition servedBy (issuesJson : list ZodIssue -> Json) (rid : jsstring)
  (env : Env) (endpoint : Endpoint) (req : Request) : SamplePage.Browser :=
  SamplePage.mkBrowser
    (fun _ _ =>
       Normal (delivered issuesJson (fst (POST rid env endpoint req))))
    (fun _ => None).

(** The issues as JSON, by their paths alone. *)
Definition issuePaths (issues : list ZodIssue) : Json :=
  JArray (map (fun issue =>
                 JObject [(lit "path", JArray (map JString (issue_path issue)))])
            issues).

(** * Properties *)

(** ** Strings *)

Lemma jslength_app (a b : jsstring) :
  jslength (a ++ b) = jslength a + jslength b.
Proof. unfold jslength. rewrite length_app. lia. Qed.

Lemma jslength_nonneg (s : jsstring) : 0 <= jslength s.
Proof. unfold jslength. lia. Qed.

Lemma slice_prefix (s : jsstring) (max : Z) :
  0 <= max -> slice s 0 max = firstn (Z.to_nat max) s.
Proof.
  intros Hmax. unfold slice. cbn [Z.ltb Z.compare].
  destruct (max <? 0) eqn:Hneg; [apply Z.ltb_lt in Hneg; lia|].
  pose proof (jslength_nonneg s) as Hlen.
  rewrite (Z.min_l 0 (jslength s)) by exact Hlen.
  cbn [Z.to_nat skipn]. rewrite Z.sub_0_r.
  destruct (Z.le_gt_cases max (jslength s)) as [Hle | Hgt].
  - rewrite Z.min_l by exact Hle. reflexivity.
  - rewrite Z.min_r by lia. unfold jslength in *.
    rewrite Nat2Z.id. rewrite !firstn_all2; [reflexivity | lia | lia].
Qed.

Lemma jslength_firstn (s : jsstring) (max : Z) :
  0 <= max <= jslength s -> jslength (firstn (Z.to_nat max) s) = max.
Proof.
  intros H. unfold jslength in *. rewrite length_firstn. lia.
Qed.

Lemma truncate_short (s : jsstring) (max : Z) :
  jslength s <= max -> truncate s max = s.
Proof.
  intros H. unfold truncate.
  destruct (jslength s <=? max) eqn:E; [reflexivity|].
  apply Z.leb_gt in E. lia.
Qed.

Lemma truncate_long (s : jsstring) (max : Z) :
  0 <= max -> max < jslength s ->
  truncate s max
  = firstn (Z.to_nat max) s ++ truncationMarker (jslength s - max).
Proof.
  intros Hmax H. unfold truncate, truncationMarker.
  destruct (jslength s <=? max) eqn:E; [apply Z.leb_le in E; lia|].
  rewrite slice_prefix by exact Hmax. reflexivity.
Qed.

Lemma lit_unlit (s : string) :
  string_of_list_ascii (map ascii_of_N (lit s)) = s.
Proof.
  unfold lit. rewrite map_map.
  rewrite (map_ext _ (fun a => a)) by apply ascii_N_embedding.
  rewrite map_id. apply string_of_list_ascii_of_string.
Qed.

Lemma parseDecimal_decimal (n : N) : parseDecimal (decimal n) = Some n.
Proof.
  unfold parseDecimal, decimal. rewrite lit_unlit, NilEmpty.usu.
  cbn [option_map]. rewrite DecimalN.Unsigned.of_to. reflexivity.
Qed.

Lemma markerCount_truncationMarker (dropped : Z) :
  0 <= dropped ->
  markerCount (truncationMarker dropped) = Some (Z.to_N dropped).
Proof.
  intros H. unfold markerCount, truncationMarker, intToString.
  destruct (dropped <? 0) eqn:E; [apply Z.ltb_lt in E; lia|].
  rewrite !app_assoc.
  rewrite <- (app_assoc _ (decimal (Z.to_N dropped)) (lit " chars]")).
  rewrite skipn_app, skipn_all, Nat.sub_diag. cbn [skipn app].
  rewrite length_app, Nat.add_sub, firstn_app, Nat.sub_diag, firstn_all.
  cbn [firstn]. rewrite app_nil_r. apply parseDecimal_decimal.
Qed.

Lemma length_trimStart (s : jsstring) : (length (trimStart s) <= length s)%nat.
Proof.
  induction s as [| c s IH]; cbn [trimStart]; [lia|].
  destruct (isWhiteSpace c); cbn [length]; lia.
Qed.

Lemma trimStart_head (c : code_unit) (s : jsstring) :
  isWhiteSpace c = false -> trimStart (c :: s) = c :: s.
Proof. intros H. cbn [trimStart]. rewrite H. reflexivity. Qed.

Lemma trimStart_fixed_head (c : code_unit) (s : jsstring) :
  trimStart (c :: s) = c :: s -> isWhiteSpace c = false.
Proof.
  cbn [trimStart]. destruct (isWhiteSpace c); [|reflexivity].
  intros H. pose proof (length_trimStart s) as L.
  rewrite H in L. cbn [length] in L. lia.
Qed.

Lemma trimEnd_last (c : code_unit) (s : jsstring) :
  isWhiteSpace c = false -> trimEnd (s ++ [c]) = s ++ [c].
Proof.
  intros H. unfold trimEnd. rewrite rev_app_distr. cbn [rev app].
  rewrite trimStart_head by exact H.
  cbn [rev]. rewrite rev_involutive. reflexivity.
Qed.

Lemma truncationMarker_last (dropped : Z) :
  exists body, truncationMarker dropped = body ++ [93%N].
Proof.
  exists (LF ++ LF ++ lit "...[TRUNCATED " ++ intToString dropped
          ++ lit " chars").
  unfold truncationMarker. rewrite <- !app_assoc. reflexivity.
Qed.

(** Trimming leaves the result of [truncate] alone when the field carries
    no whitespace at its start and, if it is rendered whole, none at its
    end. *)
Lemma trim_truncate (s : jsstring) (max : Z) :
  0 < max -> trimStart s = s -> (jslength s <= max -> trimEnd s = s) ->
  trim (truncate s max) = truncate s max.
Proof.
  intros Hmax Hstart Hend.
  destruct (Z.le_gt_cases (jslength s) max) as [Hle | Hgt].
  - rewrite truncate_short by exact Hle.
    unfold trim. rewrite Hstart. apply Hend, Hle.
  - rewrite truncate_long by lia.
    destruct (truncationMarker_last (jslength s - max)) as [body ->].
    destruct s as [| c s]; [cbn in Hgt; lia|].
    apply trimStart_fixed_head in Hstart.
    destruct (Z.to_nat max) as [| n] eqn:En; [lia|].
    unfold trim. cbn [firstn app]. rewrite trimStart_head by exact Hstart.
    change (c :: firstn n s ++ body ++ [93%N])
      with ((c :: firstn n s) ++ body ++ [93%N]).
    rewrite app_assoc. apply trimEnd_last. reflexivity.
Qed.

(** [truncate] obeys the truncation law for every string and every budget
    that is not negative. *)
Lemma truncate_obeys (s : jsstring) (max : Z) :
  0 <= max -> obeysTruncationLaw s max (truncate s max).
Proof.
  intros Hmax. split.
  - apply truncate_short.
  - intros Hgt. rewrite truncate_long by assumption.
    split; [reflexivity|]. split.
    + rewrite jslength_app, jslength_firstn by lia. reflexivity.
    + apply markerCount_truncationMarker. lia.
Qed.

(** The builder returns the assembled prompt under the overall cap. *)
Lemma buildPrompt_assembled (input : CritiqueRequest) :
  buildPrompt input = truncate (assembledPrompt input) MAX_PROMPT_CHARS.
Proof.
  unfold buildPrompt, assembledPrompt. f_equal.
Qed.

(** ** Numbers as text *)

Lemma dropZeros_restore (l : jsstring) :
  repeat 48%N (length l - length (dropZeros l)) ++ dropZeros l = l /\
  (length (dropZeros l) <= length l)%nat.
Proof.
  induction l as [| c l [IH Hlen]]; [split; reflexivity|].
  cbn [dropZeros]. destruct (c =? 48)%N eqn:E.
  - apply N.eqb_eq in E. subst c. cbn [length]. split; [|lia].
    replace (S (length l) - length (dropZeros l))%nat
      with (S (length l - length (dropZeros l))) by lia.
    cbn [repeat app]. rewrite IH. reflexivity.
  - split; [|lia]. rewrite Nat.sub_diag. reflexivity.
Qed.

Lemma stripTrailingZeros_restore (ds : jsstring) :
  stripTrailingZeros ds
  ++ zeros (jslength ds - jslength (stripTrailingZeros ds)) = ds /\
  jslength (stripTrailingZeros ds) <= jslength ds.
Proof.
  unfold stripTrailingZeros, zeros, jslength.
  destruct (dropZeros_restore (rev ds)) as [H Hlen].
  rewrite !length_rev in *. split; [|lia].
  replace (Z.to_nat (Z.of_nat (length ds) - Z.of_nat (length (dropZeros (rev ds)))))
    with (length ds - length (dropZeros (rev ds)))%nat by lia.
  apply (f_equal (@rev code_unit)) in H.
  rewrite rev_app_distr, rev_involutive, rev_repeat in H. exact H.
Qed.

(** For an integer of at most 21 digits [Number::toString] gives the
    decimal digits. *)
Lemma toString_integer (neg : bool) (m : N) :
  jslength (decimal m) <= 21 ->
  JsNum.toString (Finite neg m 0)
  = match m with
    | 0%N => lit "0"
    | _ => (if neg then lit "-" else []) ++ decimal m
    end.
Proof.
  intros Hlen. destruct m as [| p]; [reflexivity|].
  cbn [JsNum.toString]. f_equal.
  destruct (stripTrailingZeros_restore (decimal (N.pos p))) as [H Hk].
  change (Z.of_N 0) with 0. rewrite Z.sub_0_r.
  replace ((jslength (stripTrailingZeros (decimal (N.pos p)))
            <=? jslength (decimal (N.pos p)))
           && (jslength (decimal (N.pos p)) <=? 21)) with true.
  - exact H.
  - symmetry. apply andb_true_iff. split; apply Z.leb_le; assumption.
Qed.

Lemma of_uint_acc_lower (d : Decimal.uint) (acc : positive) :
  (N.pos acc * 10 ^ N.of_nat (Decimal.nb_digits d)
   <= N.pos (Pos.of_uint_acc d acc))%N.
Proof.
  revert acc. induction d; intros acc;
    cbn [Pos.of_uint_acc Decimal.nb_digits];
    [cbn; lia | ..];
    rewrite Nat2N.inj_succ, N.pow_succ_r', N.mul_assoc;
    (eapply N.le_trans; [|apply IHd]);
    apply N.mul_le_mono_r; lia.
Qed.

(** A natural below 10^k has at most k decimal digits. *)
Lemma nb_digits_bound (n : N) (k : nat) :
  (0 < k)%nat -> (n < 10 ^ N.of_nat k)%N ->
  (Decimal.nb_digits (N.to_uint n) <= k)%nat.
Proof.
  intros Hk Hn. destruct n as [| p]; [cbn; lia|].
  cbn [N.to_uint].
  pose proof (DecimalPos.Unsigned.of_to p) as Hof.
  pose proof (DecimalPos.Unsigned.to_uint_nonnil p) as Hnil.
  destruct (Nat.le_gt_cases (Decimal.nb_digits (Pos.to_uint p)) k) as [H | H];
    [exact H|]. exfalso.
  assert (Hlow : forall d, d <> Decimal.Nil -> Decimal.unorm d = d ->
                 d = Decimal.D0 Decimal.Nil \/
                 (10 ^ N.of_nat (Decimal.nb_digits d - 1) <= Pos.of_uint d)%N).
  { intros d Hd Hunorm.
    destruct d; [contradiction | ..];
      try (right; cbn [Pos.of_uint Decimal.nb_digits];
           rewrite Nat.sub_succ, Nat.sub_0_r;
           eapply N.le_trans; [|apply of_uint_acc_lower]; lia).
    revert Hunorm. unfold Decimal.unorm. cbn [Decimal.nzhead].
    destruct (Decimal.nzhead d) as [| u | | | | | | | | |] eqn:E;
      intros Hunorm; try discriminate Hunorm.
    - injection Hunorm as <-. left. reflexivity.
    - injection Hunorm as ->. exfalso.
      pose proof (DecimalFacts.nb_digits_nzhead d) as Hnz.
      rewrite E in Hnz. cbn in Hnz. lia. }
  assert (Hnorm : Decimal.unorm (Pos.to_uint p) = Pos.to_uint p).
  { pose proof (DecimalN.Unsigned.to_of (N.to_uint (N.pos p))) as Hto.
    rewrite DecimalN.Unsigned.of_to in Hto. cbn [N.to_uint] in Hto.
    symmetry. exact Hto. }
  destruct (Hlow _ Hnil Hnorm) as [Hzero | Hge].
  - exact (DecimalPos.Unsigned.to_uint_nonzero p Hzero).
  - rewrite Hof in Hge.
    assert (Hpow : (10 ^ N.of_nat k
                    <= 10 ^ N.of_nat (Decimal.nb_digits (Pos.to_uint p) - 1))%N)
      by (apply N.pow_le_mono_r; lia).
    lia.
Qed.

Lemma decimal_length_bound (n : N) :
  (n < 10 ^ 21)%N -> jslength (decimal n) <= 21.
Proof.
  intros Hn. unfold decimal, jslength, lit.
  rewrite length_map.
  assert (Hlen : forall d, length (list_ascii_of_string (NilEmpty.string_of_uint d))
                           = Decimal.nb_digits d).
  { induction d; cbn; congruence. }
  rewrite Hlen.
  assert (H : (Decimal.nb_digits (N.to_uint n) <= 21)%nat)
    by (apply nb_digits_bound; [lia | exact Hn]).
  lia.
Qed.

(** The text [truncate] writes for a count is what [Number::toString]
    gives for it: for an integer of magnitude below 10^21 the two agree. *)
Lemma intToString_toString (z : Z) :
  - 10 ^ 21 < z < 10 ^ 21 -> JsNum.toString (ofZ z) = intToString z.
Proof.
  intros Hz. unfold ofZ, intToString.
  rewrite toString_integer
    by (apply decimal_length_bound; change (10 ^ 21)%N with (Z.to_N (10 ^ 21)); lia).
  destruct z as [| p | p]; [reflexivity | reflexivity | reflexivity].
Qed.

(** ** The prompt builder *)

Example sampleBody_parses :
  CritiqueRequestSchema_parse (sampleBody (lit " Return sum of list") None)
  = Normal paddedRequest.
Proof. reflexivity. Qed.

Example scenarioA_prompt_length : jslength (buildPrompt scenarioA) = 2012.
Proof. vm_compute. reflexivity. Qed.

Lemma truncationMarker_length (dropped : Z) :
  jslength (truncationMarker dropped) = 23 + jslength (intToString dropped).
Proof.
  unfold truncationMarker. rewrite !jslength_app.
  change (jslength LF) with 1.
  change (jslength (lit "...[TRUNCATED ")) with 14.
  change (jslength (lit " chars]")) with 7. lia.
Qed.

(** [truncate] leaves the code units before the budget where they are. *)
Lemma nth_truncate (s : jsstring) (max : Z) (i : nat) (d : code_unit) :
  0 <= max -> Z.of_nat i < max ->
  nth i (truncate s max) d = nth i s d.
Proof.
  intros Hmax Hi.
  destruct (Z.le_gt_cases (jslength s) max) as [Hle | Hgt].
  - rewrite truncate_short by exact Hle. reflexivity.
  - rewrite truncate_long by assumption.
    rewrite app_nth1 by (rewrite length_firstn; unfold jslength in Hgt; lia).
    rewrite nth_firstn.
    destruct (Nat.ltb_spec i (Z.to_nat max)); [reflexivity | lia].
Qed.

(** The first code unit of the problem-statement section of a prompt. *)
Lemma rendersSections_first (input : CritiqueRequest) (x : code_unit)
  (p c f : jsstring) :
  rendersSections input (x :: p) c f ->
  nth (length PROMPT_HEAD) (buildPrompt input) 0%N = x.
Proof.
  unfold rendersSections. intros ->.
  rewrite nth_truncate; [apply nth_middle | discriminate | reflexivity].
Qed.

(** C3, as stated, fails: the problem statement and the code are trimmed
    after they are truncated.  The prompt of a statement within its budget
    that starts with a space shows it without the space, so not unchanged,
    and the prompt of a statement of 20001 spaces shows the visible part of
    the marker alone, 22 code units instead of 20000 plus the marker.  In
    both prompts no reading of the section obeys the law: the code unit
    after the fixed head is the letter [R], and the full stop of the
    marker, where the law asks for the space the field starts with. *)
Lemma truncation_law_fails_on_padded_fields :
  CritiqueRequestSchema_parse (sampleBody (lit " Return sum of list") None)
  = Normal paddedRequest /\
  rendersSections paddedRequest
    (lit "Return sum of list") (lit "def f(x): return 0") traceText /\
  (forall p c f,
      rendersSections paddedRequest p c f ->
      ~ obeysTruncationLaw (prd paddedRequest) MAX_PRD_CHARS p) /\
  rendersSections blankRequest
    (lit "...[TRUNCATED 1 chars]") (lit "def f(x): return 0") traceText /\
  (forall p c f,
      rendersSections blankRequest p c f ->
      ~ obeysTruncationLaw (prd blankRequest) MAX_PRD_CHARS p).
Proof.
  split; [reflexivity|].
  split; [unfold rendersSections; vm_compute; reflexivity|].
  split; [|split; [unfold rendersSections; vm_compute; reflexivity|]].
  - intros p c f Hr [Hshort _].
    assert (Hp : p = prd paddedRequest)
      by (apply Hshort; vm_compute; discriminate).
    subst p. apply rendersSections_first in Hr.
    vm_compute in Hr. discriminate Hr.
  - intros p c f Hr [_ Hlong].
    assert (H : MAX_PRD_CHARS < jslength (prd blankRequest))
      by (vm_compute; reflexivity).
    destruct (Hlong H) as [Hp _].
    assert (Hhead : exists rest, p = 32%N :: rest)
      by (exists (tl p); rewrite Hp; reflexivity).
    destruct Hhead as [rest ->]. apply rendersSections_first in Hr.
    vm_compute in Hr. discriminate Hr.
Qed.

(** C3, amended: [truncate] obeys the truncation law for every string and
    every budget that is not negative: a string within the budget is
    returned unchanged, a longer one as its prefix of budget length
    followed by the marker, of length budget plus marker length, and the
    marker states the count of dropped code units, length minus budget.
    Every prompt is the fixed text around three sections: the failure-info
    section is what [truncate] returns for the serialized value and obeys
    the law; the problem-statement and code sections are what [truncate]
    returns with white space trimmed from both ends, so they obey the law
    when the field does not start with white space and, if within the
    budget, does not end with it. *)
Theorem truncation_law (input : CritiqueRequest) :
  (forall (s : jsstring) (max : Z),
      0 <= max -> obeysTruncationLaw s max (truncate s max)) /\
  exists p c f : jsstring,
    rendersSections input p c f /\
    p = trim (truncate (prd input) MAX_PRD_CHARS) /\
    c = trim (truncate (buggy_solution_code input) MAX_CODE_CHARS) /\
    (forall raw : jsstring,
        JSON.stringify (nullish (ofOptJson (failure_info input)) VNull)
        = Normal (Some raw) ->
        obeysTruncationLaw raw MAX_FAILUREINFO_CHARS f) /\
    (trimStart (prd input) = prd input ->
     (jslength (prd input) <= MAX_PRD_CHARS ->
      trimEnd (prd input) = prd input) ->
     obeysTruncationLaw (prd input) MAX_PRD_CHARS p) /\
    (trimStart (buggy_solution_code input) = buggy_solution_code input ->
     (jslength (buggy_solution_code input) <= MAX_CODE_CHARS ->
      trimEnd (buggy_solution_code input) = buggy_solution_code input) ->
     obeysTruncationLaw (buggy_solution_code input) MAX_CODE_CHARS c).
Proof.
  split; [exact truncate_obeys|].
  exists (trim (truncate (prd input) MAX_PRD_CHARS)),
    (trim (truncate (buggy_solution_code input) MAX_CODE_CHARS)),
    (safeStringifyFailureInfo (ofOptJson (failure_info input))).
  split; [exact (buildPrompt_assembled input)|].
  split; [reflexivity|]. split; [reflexivity|].
  split.
  { intros raw Hraw. unfold safeStringifyFailureInfo.
    rewrite Hraw. cbn. apply truncate_obeys. discriminate. }
  split; intros Hstart Hend;
    (rewrite trim_truncate; [apply truncate_obeys; discriminate
                            | reflexivity | exact Hstart | exact Hend]).
Qed.

(** The law on a problem statement of 20001 letters: the prompt shows its
    first 20000 letters followed by the marker that counts one. *)
Lemma truncation_law_witness :
  exists p c f : jsstring,
    rendersSections longPrdRequest p c f /\
    obeysTruncationLaw (prd longPrdRequest) MAX_PRD_CHARS p /\
    p = firstn (Z.to_nat MAX_PRD_CHARS) (prd longPrdRequest)
        ++ truncationMarker 1.
Proof.
  destruct (proj2 (truncation_law longPrdRequest))
    as [p [c [f [Hr [_ [_ [_ [Hprd _]]]]]]]].
  assert (Hlaw : obeysTruncationLaw (prd longPrdRequest) MAX_PRD_CHARS p).
  { apply Hprd.
    - apply trimStart_head. reflexivity.
    - intros Hle. exfalso. apply Hle. vm_compute. reflexivity. }
  exists p, c, f. split; [exact Hr|]. split; [exact Hlaw|].
  apply (proj2 Hlaw). vm_compute. reflexivity.
Defined.

(** C2, as stated, fails: a label of 60000 letters (the label has no
    budget of its own) makes the assembled prompt longer than the cap, and
    the builder then returns 60000 code units followed by the marker,
    60027 code units in all.  The body with this label is accepted by the
    validator, and the prompt of the request it is parsed into has this
    length. *)
Lemma prompt_longer_than_cap :
  match CritiqueRequestSchema_parse
          (sampleBody (lit "Return sum of list")
             (Some (repeat 97%N (N.to_nat 60000)))) with
  | Normal input => jslength (buildPrompt input)
  | Throw _ => 0
  end = 60027 /\
  jslength (buildPrompt longLabelRequest) = 60027 /\
  ~ jslength (buildPrompt longLabelRequest) <= MAX_PROMPT_CHARS.
Proof.
  assert (H : jslength (buildPrompt longLabelRequest) = 60027)
    by (vm_compute; reflexivity).
  split; [vm_compute; reflexivity|].
  split; [exact H|]. rewrite H. vm_compute. intros C. apply C. reflexivity.
Qed.

(** C2, amended: the builder applies [truncate] with the cap of 60000 to
    the assembled prompt.  An assembled prompt within the cap is returned
    unchanged; a longer one is returned as its first 60000 code units
    followed by the truncation marker, so the result is longer than 60000
    by exactly the length of the marker, and never longer than that. *)
Theorem prompt_cap (input : CritiqueRequest) :
  obeysTruncationLaw (assembledPrompt input) MAX_PROMPT_CHARS
    (buildPrompt input) /\
  jslength (buildPrompt input)
  <= MAX_PROMPT_CHARS + 23
     + jslength (intToString
                   (jslength (assembledPrompt input) - MAX_PROMPT_CHARS)) /\
  (MAX_PROMPT_CHARS < jslength (assembledPrompt input) ->
   MAX_PROMPT_CHARS < jslength (buildPrompt input)).
Proof.
  rewrite buildPrompt_assembled.
  set (prompt := assembledPrompt input).
  assert (Hcap : 0 <= MAX_PROMPT_CHARS) by discriminate.
  pose proof (truncate_obeys prompt MAX_PROMPT_CHARS Hcap) as Hlaw.
  pose proof (truncationMarker_length (jslength prompt - MAX_PROMPT_CHARS))
    as Hmarker.
  pose proof (jslength_nonneg
                (intToString (jslength prompt - MAX_PROMPT_CHARS))) as Hdigits.
  split; [exact Hlaw|].
  destruct Hlaw as [Hshort Hlong].
  split.
  - destruct (Z.le_gt_cases (jslength prompt) MAX_PROMPT_CHARS) as [Hle | Hgt].
    + rewrite (Hshort Hle). lia.
    + destruct (Hlong Hgt) as [_ [Hlen _]]. lia.
  - intros Hgt. destruct (Hlong Hgt) as [_ [Hlen _]]. lia.
Qed.

(** The first case on scenario A: its assembled prompt is within the cap
    and is returned unchanged. *)
Lemma prompt_cap_witness :
  buildPrompt scenarioA = assembledPrompt scenarioA.
Proof.
  apply (proj1 (proj1 (prompt_cap scenarioA))).
  vm_compute. discriminate.
Defined.

(** ** Serialization of the failure info *)

Example failure_info_absent :
  safeStringifyFailureInfo VUndefined = lit "null".
Proof. reflexivity. Qed.

Example failure_info_trace :
  safeStringifyFailureInfo
    (VObject [(lit "trace", VString (lit "AssertionError"))])
  = lit "{" ++ LF ++ lit "  " ++ QUOTE ++ lit "trace" ++ QUOTE ++ lit ": "
    ++ QUOTE ++ lit "AssertionError" ++ QUOTE ++ LF ++ lit "}".
Proof. reflexivity. Qed.

Example failure_info_cyclic :
  safeStringifyFailureInfo (VObject [(lit "self", VArray [VCircular])])
  = lit "null".
Proof. reflexivity. Qed.

Example failure_info_function :
  JSON.stringify VFunction = Normal None /\
  safeStringifyFailureInfo VFunction = lit "null".
Proof. split; reflexivity. Qed.

(** A string of 12001 letters, whose JSON text is 12003 code units long. *)
Example failure_info_long :
  jslength (safeStringifyFailureInfo (VString (repeat 97%N (N.to_nat 12001))))
  = 12000 + jslength (truncationMarker 3).
Proof. vm_compute. reflexivity. Qed.

Lemma Json_nested_ind (P : Json -> Prop) :
  P JNull -> (forall b, P (JBool b)) -> (forall x, P (JNumber x)) ->
  (forall s, P (JString s)) ->
  (forall items, Forall P items -> P (JArray items)) ->
  (forall props, Forall (fun kv => P (snd kv)) props -> P (JObject props)) ->
  forall j, P j.
Proof.
  intros HNull HBool HNum HStr HArr HObj.
  fix IH 1. intros [| b | x | s | items | props].
  - exact HNull.
  - apply HBool.
  - apply HNum.
  - apply HStr.
  - apply HArr. induction items as [| j items IHitems]; constructor;
      [apply IH | exact IHitems].
  - apply HObj. induction props as [| [k j] props IHprops]; constructor;
      [apply IH | exact IHprops].
Qed.

(** Parsed JSON is serialized to a string at every indentation: the
    serializer neither throws nor returns [undefined] on it. *)
Lemma serialize_json (j : Json) :
  forall indent, exists s, JSON.serialize indent (ofJson j) = Normal (Some s).
Proof.
  induction j as [| b | x | s | items HF | props HF] using Json_nested_ind;
    intros indent; cbn [ofJson JSON.serialize]; try (eexists; reflexivity).
  - match goal with
    | |- exists s, match ?e with _ => _ end = _ =>
        assert (H : exists partial, e = Normal partial)
    end.
    { induction HF as [| j items Hj _ IH]; cbn [map]; [eexists; reflexivity|].
      destruct (Hj (indent ++ JSON.gap)) as [s ->].
      destruct IH as [partial ->]. eexists. reflexivity. }
    destruct H as [[| p partial] ->]; eexists; reflexivity.
  - match goal with
    | |- exists s, match ?e with _ => _ end = _ =>
        assert (H : exists partial, e = Normal partial)
    end.
    { induction HF as [| [k j] props Hj _ IH]; cbn [map fst snd];
        [eexists; reflexivity|].
      cbn [snd] in Hj. destruct (Hj (indent ++ JSON.gap)) as [s ->].
      destruct IH as [partial ->]. eexists. reflexivity. }
    destruct H as [[| p partial] ->]; eexists; reflexivity.
Qed.

Lemma nullish_ofJson (j : Json) : nullish (ofJson j) VNull = ofJson j.
Proof. destruct j; reflexivity. Qed.

(** C5: the serializer returns a string for every value, whatever
    [JSON.stringify] does on it.  When [JSON.stringify] returns a string the
    result is that string under the truncation law with the budget of
    12000: the string itself when it is within the budget, and otherwise its
    first 12000 code units followed by the marker that counts the rest, so
    never longer than the budget plus the marker.  When [JSON.stringify]
    throws (a cyclic structure, a BigInt) or returns [undefined] (a
    function, a symbol) the result is the text [null].  An absent value and
    [null] are serialized as [null], and every parsed JSON value is
    serialized to a string, so it is shown under the law. *)
Theorem safeStringifyFailureInfo_total (x : JsValue) :
  match JSON.stringify (nullish x VNull) with
  | Normal (Some raw) =>
      obeysTruncationLaw raw MAX_FAILUREINFO_CHARS
        (safeStringifyFailureInfo x) /\
      jslength (safeStringifyFailureInfo x)
      <= MAX_FAILUREINFO_CHARS
         + jslength (truncationMarker (jslength raw - MAX_FAILUREINFO_CHARS)) /\
      firstn (Z.to_nat MAX_FAILUREINFO_CHARS) (safeStringifyFailureInfo x)
      = firstn (Z.to_nat MAX_FAILUREINFO_CHARS) raw
  | Normal None => safeStringifyFailureInfo x = lit "null"
  | Throw _ => safeStringifyFailureInfo x = lit "null"
  end /\
  (forall j : Json,
      x = ofJson j ->
      exists raw : jsstring,
        JSON.stringify (nullish x VNull) = Normal (Some raw) /\
        safeStringifyFailureInfo x = truncate raw MAX_FAILUREINFO_CHARS) /\
  safeStringifyFailureInfo VUndefined = lit "null" /\
  safeStringifyFailureInfo VNull = lit "null" /\
  safeStringifyFailureInfo VCircular = lit "null" /\
  safeStringifyFailureInfo (VArray [VBigInt 1]) = lit "null" /\
  safeStringifyFailureInfo VFunction = lit "null" /\
  safeStringifyFailureInfo VSymbol = lit "null".
Proof.
  assert (Hbudget : 0 <= MAX_FAILUREINFO_CHARS) by discriminate.
  split; [|split; [|repeat split]].
  - unfold safeStringifyFailureInfo.
    destruct (JSON.stringify (nullish x VNull)) as [[raw |] | e];
      try reflexivity.
    change (tryCatch _ _) with (truncate raw MAX_FAILUREINFO_CHARS).
    pose proof (truncate_obeys raw MAX_FAILUREINFO_CHARS Hbudget) as Hlaw.
    split; [exact Hlaw|].
    pose proof (jslength_nonneg
                  (truncationMarker (jslength raw - MAX_FAILUREINFO_CHARS)))
      as Hmarker.
    destruct Hlaw as [Hshort Hlong].
    destruct (Z.le_gt_cases (jslength raw) MAX_FAILUREINFO_CHARS)
      as [Hle | Hgt].
    + rewrite (Hshort Hle). split; [lia | reflexivity].
    + destruct (Hlong Hgt) as [Heq [Hlen _]].
      split; [rewrite Hlen; lia|].
      rewrite Heq, firstn_app, firstn_firstn, Nat.min_id, length_firstn.
      replace (Z.to_nat MAX_FAILUREINFO_CHARS
               - Nat.min (Z.to_nat MAX_FAILUREINFO_CHARS) (length raw))%nat
        with 0%nat by (unfold jslength in Hgt; lia).
      cbn [firstn]. apply app_nil_r.
  - intros j ->. rewrite nullish_ofJson.
    destruct (serialize_json j []) as [raw Hraw].
    exists raw. unfold safeStringifyFailureInfo.
    rewrite nullish_ofJson. unfold JSON.stringify in *. rewrite Hraw.
    split; reflexivity.
Qed.

(** ** The header check *)

Lemma startsWith_spec (s search : jsstring) :
  startsWith s search = true <-> exists after, s = search ++ after.
Proof.
  revert s. induction search as [| a search IH]; intros s.
  - split; [intros _; exists s; reflexivity | destruct s; reflexivity].
  - destruct s as [| b s]; cbn [startsWith].
    + split; [discriminate | intros [after H]; discriminate].
    + rewrite andb_true_iff, N.eqb_eq, IH. split.
      * intros [-> [after ->]]. exists after. reflexivity.
      * intros [after H]. cbn [app] in H. injection H as -> ->.
        split; [reflexivity | exists after; reflexivity].
Qed.

(** [includes] decides occurrence as a substring. *)
Lemma includes_spec (s search : jsstring) :
  includes s search = true <-> occursIn search s.
Proof.
  unfold occursIn. induction s as [| c s IH]; cbn [includes].
  - rewrite orb_false_r, startsWith_spec. split.
    + intros [after H]. exists [], after. exact H.
    + intros [before [after H]].
      destruct before; [exists after; exact H | discriminate].
  - rewrite orb_true_iff, startsWith_spec, IH. split.
    + intros [[after H] | [before [after H]]].
      * exists [], after. exact H.
      * exists (c :: before), after. rewrite H. reflexivity.
    + intros [before [after H]]. destruct before as [| c' before].
      * left. exists after. exact H.
      * right. cbn [app] in H. injection H as _ ->.
        exists before, after. reflexivity.
Qed.

Lemma hasAllHeaders_spec (text : jsstring) :
  hasAllHeaders text = true <->
  occursIn (lit "Detailed Diagnosis") text /\
  occursIn (lit "[Proposed Fix]") text /\
  occursIn (lit "<Test_Validation>") text.
Proof.
  unfold hasAllHeaders. rewrite !andb_true_iff, !includes_spec. tauto.
Qed.

Example headers_in_any_order :
  hasAllHeaders
    (lit "<Test_Validation> noise [Proposed Fix] Detailed Diagnosis ###")
  = true.
Proof. reflexivity. Qed.

Example header_missing :
  hasAllHeaders (lit "Detailed Diagnosis [Proposed Fix] <Test_Validation")
  = false.
Proof. reflexivity. Qed.

(** ** The request validator *)

Lemma required_field (props : list (jsstring * Json)) (key : jsstring) :
  (violatesRequired (Zod.getProp key props) = false /\
   Zod.field props key (Zod.min 1 Zod.string)
   = Zod.Valid (stringOf (Zod.getProp key props))) \/
  (violatesRequired (Zod.getProp key props) = true /\
   exists code,
     Zod.field props key (Zod.min 1 Zod.string)
     = Zod.Invalid [mkIssue code [key]]).
Proof.
  unfold Zod.field, Zod.min, Zod.string.
  destruct (Zod.getProp key props) as [[| b | x | [| c s] | items | fields] |];
    try (right; split; [reflexivity | eexists; reflexivity]).
  left. split; [reflexivity|].
  replace (jslength (c :: s) <? 1) with false; [reflexivity|].
  symmetry. apply Z.ltb_ge. unfold jslength. cbn [length]. lia.
Qed.

Lemma optional_string_field (props : list (jsstring * Json)) (key : jsstring) :
  (violatesOptionalString (Zod.getProp key props) = false /\
   Zod.field props key (Zod.optional Zod.string)
   = Zod.Valid (optStringOf (Zod.getProp key props))) \/
  (violatesOptionalString (Zod.getProp key props) = true /\
   Zod.field props key (Zod.optional Zod.string)
   = Zod.Invalid [mkIssue invalid_type [key]]).
Proof.
  unfold Zod.field, Zod.optional, Zod.string.
  destruct (Zod.getProp key props) as [[| b | x | s | items | fields] |];
    cbn; solve [ left; split; reflexivity | right; split; reflexivity ].
Qed.

(** The schema accepts an object exactly when no field is violated, and
    otherwise reports one issue per violated field, in the order of the
    shape, each at the path of its field. *)
Lemma CritiqueRequestSchema_issues (props : list (jsstring * Json)) :
  (violatedFields props = [] /\
   CritiqueRequestSchema props = Zod.Valid (requestOf props)) \/
  (violatedFields props <> [] /\
   exists issues,
     CritiqueRequestSchema props = Zod.Invalid issues /\
     map issue_path issues = map (fun key => [key]) (violatedFields props)).
Proof.
  unfold CritiqueRequestSchema, violatedFields, requestOf. cbn [filter].
  destruct (required_field props (lit "id")) as [[V1 ->] | [V1 [c1 ->]]];
  destruct (required_field props (lit "prd")) as [[V2 ->] | [V2 [c2 ->]]];
  destruct (required_field props (lit "buggy_solution_code"))
    as [[V3 ->] | [V3 [c3 ->]]];
  destruct (optional_string_field props (lit "label")) as [[V4 ->] | [V4 ->]];
  destruct (optional_string_field props (lit "qwq_critique"))
    as [[V5 ->] | [V5 ->]];
  rewrite V1, V2, V3, V4, V5; cbn;
  solve [ left; split; reflexivity
        | right; split; [discriminate | eexists; split; reflexivity] ].
Qed.

(** ** The paths of the handler *)

Lemma POST_bad_content_type rid env endpoint req :
  declaresJson req = false ->
  POST rid env endpoint req
  = (jsonNoStore
       (Failure rid (lit "Content-Type must be application/json") None) 415,
     []).
Proof.
  unfold declaresJson, POST, POST_try. intros ->. reflexivity.
Qed.

Lemma POST_misconfigured rid env endpoint req :
  declaresJson req = true -> credential env = None ->
  POST rid env endpoint req
  = (jsonNoStore
       (Failure rid (lit "Server misconfigured: HF_TOKEN missing") None) 500,
     []).
Proof.
  unfold declaresJson, credential, POST, POST_try. intros -> Hcred.
  destruct (HF_TOKEN env) as [[| c token] |];
    [reflexivity | discriminate | reflexivity].
Qed.

Lemma POST_rejected rid env endpoint req hfToken err :
  declaresJson req = true -> credential env = Some hfToken ->
  validated req = Throw err ->
  POST rid env endpoint req = (POST_catch rid err, []).
Proof.
  unfold declaresJson, credential, validated, POST, POST_try.
  intros -> Hcred Hval.
  destruct (HF_TOKEN env) as [[| c token] |]; try discriminate.
  cbn [negb]. destruct (json req) as [data | e]; cbn in Hval |- *.
  - rewrite Hval. reflexivity.
  - injection Hval as ->. reflexivity.
Qed.

Lemma POST_invoked rid env endpoint req hfToken input :
  declaresJson req = true -> credential env = Some hfToken ->
  validated req = Normal input ->
  POST rid env endpoint req
  = (match answer env endpoint hfToken input with
     | Normal completion =>
         jsonNoStore
           (Success rid input.(id) (modelOf env)
              (hasAllHeaders (completionText completion))
              (completionText completion)) 200
     | Throw err => POST_catch rid err
     end,
     [SetTimeout (timeoutMs env);
      Create (clientOf hfToken) (paramsOf env input);
      ClearTimeout]).
Proof.
  unfold declaresJson, credential, validated, answer, POST, POST_try.
  intros -> Hcred Hval.
  destruct (HF_TOKEN env) as [[| c token] |]; try discriminate.
  injection Hcred as <-.
  cbn [negb]. destruct (json req) as [data | e]; cbn in Hval |- *;
    [|discriminate].
  rewrite Hval. cbn.
  fold (clientOf (c :: token)) (modelOf env) (paramsOf env input).
  destruct (endpoint _ _ _) as [completion | err]; reflexivity.
Qed.

Lemma POST_catch_outcome rid err :
  outcome (POST_catch rid err) = Some (outcomeOfThrown err) /\
  status (POST_catch rid err) = statusOf (outcomeOfThrown err) /\
  notCacheable (POST_catch rid err).
Proof.
  destruct err as [issues | name |]; cbn [POST_catch outcomeOfThrown];
    [| destruct (list_eq_dec N.eq_dec name (lit "AbortError")) |];
    repeat split.
Qed.

Lemma POST_catch_is_failure rid err :
  exists error details, body (POST_catch rid err) = Failure rid error details.
Proof.
  destruct err as [issues | name |]; cbn [POST_catch];
    [| destruct (list_eq_dec N.eq_dec name (lit "AbortError")) |];
    eexists; eexists; reflexivity.
Qed.

(** ** Failure classification *)

Example scenarioB :
  fst (POST (lit "r1") envWithToken (answering threeHeaders)
         (jsonRequest bodyMissingPrd))
  = jsonNoStore
      (Failure (lit "r1") (lit "Invalid request body")
         (Some [mkIssue invalid_type [lit "prd"]])) 400.
Proof. reflexivity. Qed.

(** C1, as stated, fails: the handler tests the content type first and the
    credential second, and reads the body only then.  A body without
    [prd] is answered as a missing credential (500) when the credential
    is absent, and as a content-type mismatch (415) when the content is
    not declared as JSON. *)
Lemma validation_does_not_come_first :
  validated (jsonRequest bodyMissingPrd)
  = Throw (ZodError [mkIssue invalid_type [lit "prd"]]) /\
  outcome (fst (POST (lit "r1") envWithoutToken (answering threeHeaders)
                  (jsonRequest bodyMissingPrd)))
  = Some Misconfigured /\
  outcome (fst (POST (lit "r1") envWithoutToken (answering threeHeaders)
                  (plainTextRequest bodyMissingPrd)))
  = Some BadContentType /\
  outcome (fst (POST (lit "r1") envWithToken (answering threeHeaders)
                  (plainTextRequest bodyMissingPrd)))
  = Some BadContentType.
Proof. repeat split. Qed.

(** C1, amended: failures are classified in the order of the handler's
    tests.  A content-type mismatch is reported as BadContentType whatever
    the body and the credential are; with the content declared as JSON a
    missing credential is reported as Misconfigured whatever the body is;
    with both in place a body that fails validation is reported as a
    ValidationError carrying the issues, with status 400. *)
Theorem failure_priority rid env endpoint req :
  (declaresJson req = false ->
   outcome (fst (POST rid env endpoint req)) = Some BadContentType) /\
  (declaresJson req = true -> credential env = None ->
   outcome (fst (POST rid env endpoint req)) = Some Misconfigured) /\
  (forall hfToken issues,
      declaresJson req = true -> credential env = Some hfToken ->
      validated req = Throw (ZodError issues) ->
      fst (POST rid env endpoint req)
      = jsonNoStore
          (Failure rid (lit "Invalid request body") (Some issues)) 400 /\
      outcome (fst (POST rid env endpoint req)) = Some ValidationError).
Proof.
  split; [|split].
  - intros H. rewrite POST_bad_content_type by exact H. reflexivity.
  - intros H Hcred. rewrite POST_misconfigured by assumption. reflexivity.
  - intros hfToken issues H Hcred Hval.
    rewrite (POST_rejected _ _ _ _ _ _ H Hcred Hval). split; reflexivity.
Qed.

(** The third case on scenario B of the specification: content declared
    as JSON, credential present, [prd] missing. *)
Lemma failure_priority_witness :
  fst (POST (lit "r1") envWithToken (answering threeHeaders)
         (jsonRequest bodyMissingPrd))
  = jsonNoStore
      (Failure (lit "r1") (lit "Invalid request body")
         (Some [mkIssue invalid_type [lit "prd"]])) 400 /\
  outcome (fst (POST (lit "r1") envWithToken (answering threeHeaders)
                  (jsonRequest bodyMissingPrd)))
  = Some ValidationError.
Proof.
  apply (proj2 (proj2 (failure_priority (lit "r1") envWithToken
                         (answering threeHeaders)
                         (jsonRequest bodyMissingPrd)))
           (lit "hf_token") [mkIssue invalid_type [lit "prd"]]);
    reflexivity.
Defined.

(** ** Statuses and caching *)

(** Every response is marked as not cacheable and carries the status of
    the outcome its body reports: 415 for a content-type mismatch, 500 for
    a missing credential, 400 for a thrown [ZodError], 504 for a thrown
    value named [AbortError], 500 for any other thrown value, and 200 for a
    success. *)
Lemma status_follows_outcome rid env endpoint req :
  let res := fst (POST rid env endpoint req) in
  notCacheable res /\
  (exists o, outcome res = Some o /\ status res = statusOf o) /\
  (declaresJson req = false ->
   outcome res = Some BadContentType /\ status res = 415) /\
  (declaresJson req = true -> credential env = None ->
   outcome res = Some Misconfigured /\ status res = 500) /\
  (forall hfToken,
      declaresJson req = true -> credential env = Some hfToken ->
      match input <- validated req ;; answer env endpoint hfToken input with
      | Normal _ => outcome res = Some Succeeded /\ status res = 200
      | Throw (ZodError _) =>
          outcome res = Some ValidationError /\ status res = 400
      | Throw (ErrorNamed name) =>
          if list_eq_dec N.eq_dec name (lit "AbortError")
          then outcome res = Some UpstreamTimeout /\ status res = 504
          else outcome res = Some ServerError /\ status res = 500
      | Throw ThrownOther => outcome res = Some ServerError /\ status res = 500
      end).
Proof.
  intros res. subst res.
  assert (Hcatch : forall err,
             match err with
             | ZodError _ =>
                 outcome (POST_catch rid err) = Some ValidationError /\
                 status (POST_catch rid err) = 400
             | ErrorNamed name =>
                 if list_eq_dec N.eq_dec name (lit "AbortError")
                 then outcome (POST_catch rid err) = Some UpstreamTimeout /\
                      status (POST_catch rid err) = 504
                 else outcome (POST_catch rid err) = Some ServerError /\
                      status (POST_catch rid err) = 500
             | ThrownOther =>
                 outcome (POST_catch rid err) = Some ServerError /\
                 status (POST_catch rid err) = 500
             end).
  { intros [issues | name |]; cbn [POST_catch];
      [| destruct (list_eq_dec N.eq_dec name (lit "AbortError")) |];
      split; reflexivity. }
  destruct (declaresJson req) eqn:Hct.
  2:{ rewrite POST_bad_content_type by exact Hct. cbn [fst].
      split; [reflexivity|]. split; [exists BadContentType; split; reflexivity|].
      split; [intros _; split; reflexivity|].
      split; [discriminate|]. intros; discriminate. }
  destruct (credential env) as [hfToken |] eqn:Hcred.
  2:{ rewrite POST_misconfigured by assumption. cbn [fst].
      split; [reflexivity|]. split; [exists Misconfigured; split; reflexivity|].
      split; [discriminate|]. split; [intros _ _; split; reflexivity|].
      intros; discriminate. }
  destruct (validated req) as [input | err] eqn:Hval.
  - rewrite (POST_invoked _ _ _ _ _ _ Hct Hcred Hval). cbn [fst].
    destruct (answer env endpoint hfToken input) as [completion | err] eqn:Hans.
    + split; [reflexivity|]. split; [exists Succeeded; split; reflexivity|].
      split; [discriminate|]. split; [discriminate|].
      intros tok _ Htok. injection Htok as <-. cbn. rewrite Hans.
      split; reflexivity.
    + destruct (POST_catch_outcome rid err) as [Hout [Hst Hcache]].
      split; [exact Hcache|]. split; [eexists; split; eassumption|].
      split; [discriminate|]. split; [discriminate|].
      intros tok _ Htok. injection Htok as <-. cbn. rewrite Hans.
      apply Hcatch.
  - rewrite (POST_rejected _ _ _ _ _ _ Hct Hcred Hval). cbn [fst].
    destruct (POST_catch_outcome rid err) as [Hout [Hst Hcache]].
    split; [exact Hcache|]. split; [eexists; split; eassumption|].
    split; [discriminate|]. split; [discriminate|].
    intros tok _ Htok. cbn. apply Hcatch.
Qed.

(** C9 at its failing input: a valid request whose call to the model is
    aborted by the timer.  The handler means to answer a timeout with 504
    (its comment says so) and tests the [name] of the thrown value against
    [AbortError]; the client throws its [APIUserAbortError], whose [name] is
    [Error], so the test fails and the handler answers 500 with the generic
    message.  The rest of the claim holds: every response is marked as not
    cacheable and its status is the one of the outcome its body reports,
    415 for a content-type mismatch, 500 for a missing credential, 400 for
    a validation failure, 500 for any other failure and 200 for a
    success. *)
Theorem timeout_answered_as_server_error :
  fst (POST (lit "r1") envTimeout10 timingOut
         (jsonRequest (sampleBody (lit "Return sum of list") None)))
  = jsonNoStore (Failure (lit "r1") (lit "Server error") None) 500 /\
  outcome (fst (POST (lit "r1") envTimeout10 timingOut
                  (jsonRequest (sampleBody (lit "Return sum of list") None))))
  <> Some UpstreamTimeout /\
  status (fst (POST (lit "r1") envTimeout10 timingOut
                 (jsonRequest (sampleBody (lit "Return sum of list") None))))
  <> statusOf UpstreamTimeout /\
  snd (POST (lit "r1") envTimeout10 timingOut
         (jsonRequest (sampleBody (lit "Return sum of list") None)))
  = [SetTimeout (ofZ 10);
     Create (clientOf (lit "hf_token")) (paramsOf envTimeout10 scenarioA);
     ClearTimeout] /\
  (forall rid env endpoint req hfToken input,
      declaresJson req = true -> credential env = Some hfToken ->
      validated req = Normal input ->
      answer env endpoint hfToken input = Throw APIUserAbortError ->
      fst (POST rid env endpoint req)
      = jsonNoStore (Failure rid (lit "Server error") None) 500) /\
  (forall rid env endpoint req,
      notCacheable (fst (POST rid env endpoint req)) /\
      (exists o,
          outcome (fst (POST rid env endpoint req)) = Some o /\
          status (fst (POST rid env endpoint req)) = statusOf o) /\
      (declaresJson req = false ->
       status (fst (POST rid env endpoint req)) = 415) /\
      (declaresJson req = true -> credential env = None ->
       status (fst (POST rid env endpoint req)) = 500) /\
      (forall hfToken,
          declaresJson req = true -> credential env = Some hfToken ->
          match input <- validated req ;; answer env endpoint hfToken input
          with
          | Normal _ => status (fst (POST rid env endpoint req)) = 200
          | Throw (ZodError _) => status (fst (POST rid env endpoint req)) = 400
          | Throw (ErrorNamed name) =>
              status (fst (POST rid env endpoint req))
              = if list_eq_dec N.eq_dec name (lit "AbortError")
                then 504 else 500
          | Throw ThrownOther => status (fst (POST rid env endpoint req)) = 500
          end)).
Proof.
  split; [reflexivity|]. split; [discriminate|]. split; [discriminate|].
  split; [reflexivity|]. split.
  - intros rid env endpoint req hfToken input Hct Hcred Hval Hans.
    rewrite (POST_invoked _ _ _ _ _ _ Hct Hcred Hval), Hans. reflexivity.
  - intros rid env endpoint req.
    destruct (status_follows_outcome rid env endpoint req)
      as [Hcache [Hout [H415 [H500 Hrest]]]].
    split; [exact Hcache|]. split; [exact Hout|].
    split; [intros H; apply (H415 H)|].
    split; [intros H1 H2; apply (H500 H1 H2)|].
    intros hfToken Hct Hcred. specialize (Hrest hfToken Hct Hcred).
    destruct (input <- validated req ;; answer env endpoint hfToken input)
      as [completion | [issues | name |]];
      [apply Hrest | apply Hrest | | apply Hrest].
    destruct (list_eq_dec N.eq_dec name (lit "AbortError")); apply Hrest.
Qed.

(** ** The timeout *)

Lemma timeoutMs_unset env :
  CRITIQUE_TIMEOUT_MS env = None -> timeoutMs env = ofZ 45000.
Proof. unfold timeoutMs. intros ->. reflexivity. Qed.

Lemma timeoutMs_empty env :
  CRITIQUE_TIMEOUT_MS env = Some [] -> timeoutMs env = ofZ 45000.
Proof. unfold timeoutMs. intros ->. reflexivity. Qed.

Example timeoutMs_numeric : timeoutMs envTimeout10 = ofZ 10.
Proof. reflexivity. Qed.

Example Number_examples :
  StringToNumber (lit "45000") = ofZ 45000 /\
  StringToNumber (lit " 1.5e3 ") = ofZ 1500 /\
  StringToNumber (lit "0x10") = ofZ 16 /\
  StringToNumber (lit "abc") = NaN /\
  StringToNumber (lit "45s") = NaN.
Proof. repeat split; vm_compute; reflexivity. Qed.

(** [Number] rounds to the nearest double, the even one of two equally
    near: 2^53 + 1 is read as 2^53 and 2^53 + 3 as 2^53 + 4; it overflows
    to an infinity and underflows to zero; and the digits of the result
    are the shortest that read back, as [Number::toString] prints them. *)
Example Number_rounds :
  StringToNumber (lit "9007199254740993") = ofZ 9007199254740992 /\
  StringToNumber (lit "9007199254740995") = ofZ 9007199254740996 /\
  StringToNumber (lit "0x20000000000001") = ofZ 9007199254740992 /\
  StringToNumber (lit "1e400") = Infinity false /\
  StringToNumber (lit "-1e400") = Infinity true /\
  StringToNumber (lit "1.7976931348623159e308") = Infinity false /\
  StringToNumber (lit "2e-324") = Finite false 0 0 /\
  StringToNumber (lit "3e-324") = Finite false 5 324 /\
  StringToNumber (lit "0.1") = Finite false 1 1 /\
  StringToNumber (lit "0.1000000000000000055511151231257827") = Finite false 1 1 /\
  StringToNumber (lit "0.30000000000000004") = Finite false 30000000000000004 17 /\
  JsNum.toString (StringToNumber (lit "123456789012345678901234567890"))
  = lit "1.2345678901234568e+29" /\
  JsNum.toString (StringToNumber (lit "1e23")) = lit "1e+23".
Proof. repeat split; vm_compute; reflexivity. Qed.

(** *** The Number value for a natural below 2^53 *)

Lemma roundHalfEven_one (a : N) : roundHalfEven a 1 = a.
Proof.
  unfold roundHalfEven. rewrite N.div_1_r, N.mod_1_r. reflexivity.
Qed.

Lemma binade_natural (c : N) :
  (0 < c)%N -> binade c 1 = Z.of_N (N.log2 c).
Proof.
  intros Hc. unfold binade. change (N.log2 1) with 0%N.
  rewrite Z.sub_0_r. cbv zeta.
  destruct (0 <=? Z.of_N (N.log2 c)) eqn:E; [|apply Z.leb_gt in E; lia].
  rewrite N2Z.id, N.mul_1_l.
  destruct (c <? 2 ^ N.log2 c)%N eqn:E2; [|reflexivity].
  apply N.ltb_lt in E2. pose proof (N.log2_spec c Hc). lia.
Qed.

(** A natural below 2^53 is a double: the nearest one is itself. *)
Lemma nearestDouble_natural (c : N) :
  (0 < c < 2 ^ 53)%N ->
  nearestDouble c 1
  = Some ((c * 2 ^ (52 - N.log2 c))%N, Z.of_N (N.log2 c) - 52).
Proof.
  intros [Hpos Hlt]. unfold nearestDouble.
  rewrite binade_natural by exact Hpos.
  assert (HL : (N.log2 c < 53)%N) by (apply N.log2_lt_pow2; assumption).
  pose proof (N.log2_spec c Hpos) as [_ Hup].
  remember (N.log2 c) as L eqn:EL.
  rewrite Z.max_l by lia. cbv zeta.
  assert (Hq : (c * 2 ^ (52 - L) < 2 ^ 53)%N).
  { replace 53%N with (N.succ L + (52 - L))%N by lia.
    rewrite N.pow_add_r. apply N.mul_lt_mono_pos_r; [|exact Hup].
    apply N.neq_0_lt_0, N.pow_nonzero. discriminate. }
  destruct (0 <=? Z.of_N L - 52) eqn:E.
  - apply Z.leb_le in E. assert (HL52 : L = 52%N) by lia.
    rewrite HL52 in *. change (Z.to_N (Z.of_N 52 - 52)) with 0%N.
    change (1 * 2 ^ 0)%N with 1%N. rewrite roundHalfEven_one.
    change (2 ^ (52 - 52))%N with 1%N in *. rewrite N.mul_1_r in *.
    rewrite (proj2 (N.eqb_neq c (2 ^ 53)%N)) by lia.
    reflexivity.
  - apply Z.leb_gt in E. rewrite roundHalfEven_one.
    replace (Z.to_N (- (Z.of_N L - 52))) with (52 - L)%N by lia.
    rewrite (proj2 (N.eqb_neq _ (2 ^ 53)%N)) by lia.
    rewrite (proj2 (Z.ltb_ge 971 (Z.of_N L - 52))) by lia.
    reflexivity.
Qed.

(** The double nearest to a natural from 2^53 on has a positive
    exponent. *)
Lemma nearestDouble_big (c q : N) (k : Z) :
  (2 ^ 53 <= c)%N -> nearestDouble c 1 = Some (q, k) -> 1 <= k.
Proof.
  intros Hc.
  assert (Hpos : (0 < c)%N)
    by (eapply N.lt_le_trans; [|exact Hc]; reflexivity).
  assert (HL : (53 <= N.log2 c)%N) by (apply N.log2_le_pow2; assumption).
  unfold nearestDouble. rewrite binade_natural by exact Hpos.
  rewrite Z.max_l by lia. cbv zeta.
  remember (Z.of_N (N.log2 c) - 52) as k0 eqn:Ek.
  destruct (0 <=? k0);
    match goal with
    | |- context [(?x =? 2 ^ 53)%N] => destruct (x =? 2 ^ 53)%N
    end;
    match goal with
    | |- context [971 <? ?x] => destruct (971 <? x)
    end;
    intros H; try discriminate H; injection H as _ <-; lia.
Qed.

(** Among the naturals, only a natural below 2^53 itself reads back as
    its double. *)
Lemma readsBack_natural (n s : N) (p : Z) :
  (0 < n < 2 ^ 53)%N -> (0 < s)%N -> 0 <= p ->
  readsBack s p ((n * 2 ^ (52 - N.log2 n))%N, Z.of_N (N.log2 n) - 52)
  = (s * 10 ^ Z.to_N p =? n)%N.
Proof.
  intros Hn Hs Hp. unfold readsBack, scale.
  rewrite (proj2 (Z.leb_le 0 p)) by exact Hp.
  remember (s * 10 ^ Z.to_N p)%N as c eqn:Ec.
  assert (Hc : (0 < c)%N).
  { rewrite Ec. apply N.mul_pos_pos; [exact Hs|].
    apply N.neq_0_lt_0, N.pow_nonzero. discriminate. }
  assert (HLn : (N.log2 n < 53)%N) by (apply N.log2_lt_pow2; apply Hn).
  destruct (N.lt_ge_cases c (2 ^ 53)) as [Hlt | Hge].
  - rewrite nearestDouble_natural by (split; assumption).
    unfold sameDouble. cbn [fst snd].
    destruct (N.eqb_spec c n) as [-> | Hne].
    + rewrite N.eqb_refl, Z.eqb_refl. reflexivity.
    + apply andb_false_iff.
      destruct (Z.eqb_spec (Z.of_N (N.log2 n) - 52) (Z.of_N (N.log2 c) - 52))
        as [El | El]; [left | right; reflexivity].
      apply N.eqb_neq. intros Eq.
      assert (Elog : N.log2 c = N.log2 n) by lia.
      rewrite Elog in Eq. apply N.mul_cancel_r in Eq; [congruence|].
      apply N.pow_nonzero. discriminate.
  - assert (Hne : (c =? n)%N = false) by (apply N.eqb_neq; lia).
    rewrite Hne.
    destruct (nearestDouble c 1) as [[q k] |] eqn:E; [|reflexivity].
    apply nearestDouble_big in E; [|exact Hge].
    unfold sameDouble. cbn [fst snd]. apply andb_false_iff. right.
    apply Z.eqb_neq. lia.
Qed.

(** The shortest digits of a natural below 2^53 are its own, up to the
    zeros they end with. *)
Lemma shortest_natural (n c : N) :
  (0 < n < 2 ^ 53)%N -> (0 < c)%N ->
  forall (fuel : nat) (p : Z),
    0 <= p -> (Z.to_nat p < fuel)%nat ->
    exists (s : N) (p' : Z),
      shortest fuel (n * c) c
        ((n * 2 ^ (52 - N.log2 n))%N, Z.of_N (N.log2 n) - 52) p
      = (s, p') /\ 0 <= p' /\ (s * 10 ^ Z.to_N p')%N = n.
Proof.
  intros Hn Hc. induction fuel as [| fuel IH]; intros p Hp Hfuel; [lia|].
  cbn [shortest]. rewrite (proj2 (Z.leb_le 0 p)) by exact Hp.
  assert (Hpow : (10 ^ Z.to_N p <> 0)%N) by (apply N.pow_nonzero; discriminate).
  rewrite (N.mul_comm n c), N.Div0.div_mul_cancel_l by lia.
  remember (n / 10 ^ Z.to_N p)%N as lo eqn:Elo.
  assert (Hhi : readsBack (lo + 1) p
                  ((n * 2 ^ (52 - N.log2 n))%N, Z.of_N (N.log2 n) - 52)
                = false).
  { rewrite readsBack_natural by (assumption || lia).
    apply N.eqb_neq. rewrite Elo.
    pose proof (N.mul_succ_div_gt n (10 ^ Z.to_N p) Hpow). lia. }
  rewrite Hhi, andb_false_r.
  destruct (0 <? lo)%N eqn:Epos.
  - apply N.ltb_lt in Epos. rewrite readsBack_natural by assumption.
    cbn [andb].
    destruct (N.eqb_spec (lo * 10 ^ Z.to_N p) n) as [Eq | Hne].
    + exists lo, p. repeat split; assumption.
    + assert (Hp1 : 1 <= p).
      { destruct (Z.eq_dec p 0) as [-> | Hp0]; [|lia].
        exfalso. apply Hne. rewrite Elo. cbn. rewrite N.div_1_r. lia. }
      cbv iota. rewrite (N.mul_comm c n). apply IH; lia.
  - cbn [andb]. cbv iota. apply N.ltb_ge in Epos.
    assert (Hp1 : 1 <= p).
    { destruct (Z.eq_dec p 0) as [-> | Hp0]; [|lia].
      exfalso. rewrite Elo in Epos. cbn in Epos.
      rewrite N.div_1_r in Epos. lia. }
    rewrite (N.mul_comm c n). apply IH; lia.
Qed.

Lemma nbDigits_natural (n : N) :
  (n < 2 ^ 53)%N -> 0 <= nbDigits n <= 16.
Proof.
  intros Hn. unfold nbDigits.
  assert (H : (Decimal.nb_digits (N.to_uint n) <= 16)%nat).
  { apply nb_digits_bound; [lia|].
    eapply N.lt_trans; [exact Hn | reflexivity]. }
  lia.
Qed.

(** The Number value for a natural below 2^53 is that natural. *)
Lemma toNumber_natural (neg : bool) (n : N) :
  (n < 2 ^ 53)%N -> toNumber neg n 0 = Finite neg n 0.
Proof.
  intros Hn. unfold toNumber.
  destruct (N.eqb_spec n 0) as [-> | Hne]; [reflexivity|].
  assert (Hpos : (0 < n)%N) by lia.
  pose proof (nbDigits_natural n Hn) as Hdigits.
  rewrite Z.add_0_r.
  rewrite (proj2 (Z.ltb_ge 310 (nbDigits n))) by lia.
  rewrite (proj2 (Z.ltb_ge (nbDigits n) (-330))) by lia.
  unfold scale at 1. cbn [Z.leb Z.compare Z.to_N]. rewrite N.pow_0_r, N.mul_1_r.
  rewrite nearestDouble_natural by (split; assumption).
  assert (HL : (N.log2 n < 53)%N) by (apply N.log2_lt_pow2; assumption).
  assert (Hq : (n * 2 ^ (52 - N.log2 n) <> 0)%N).
  { apply N.neq_mul_0. split; [exact Hne|].
    apply N.pow_nonzero. discriminate. }
  rewrite (proj2 (N.eqb_neq _ 0%N) Hq).
  assert (Hscale : exists c, (0 < c)%N /\
            scale 2 (n * 2 ^ (52 - N.log2 n)) (Z.of_N (N.log2 n) - 52)
            = ((n * c)%N, c)).
  { unfold scale.
    destruct (0 <=? Z.of_N (N.log2 n) - 52) eqn:E.
    - apply Z.leb_le in E. exists 1%N. split; [reflexivity|].
      replace (52 - N.log2 n)%N with 0%N by lia.
      replace (Z.to_N (Z.of_N (N.log2 n) - 52)) with 0%N by lia.
      rewrite N.pow_0_r, !N.mul_1_r. reflexivity.
    - apply Z.leb_gt in E. exists (2 ^ (52 - N.log2 n))%N. split.
      + apply N.neq_0_lt_0, N.pow_nonzero. discriminate.
      + replace (Z.to_N (- (Z.of_N (N.log2 n) - 52)))
          with (52 - N.log2 n)%N by lia.
        reflexivity. }
  destruct Hscale as [c [Hc ->]].
  assert (Hmag : magnitude (n * c) c = nbDigits n).
  { unfold magnitude.
    rewrite (proj2 (N.leb_le c (n * c))) by nia.
    rewrite N.div_mul by lia. reflexivity. }
  rewrite Hmag.
  destruct (shortest_natural n c (conj Hpos Hn) Hc 18 (nbDigits n))
    as [s [p' [-> [Hp' Hs]]]]; [lia | lia |].
  unfold mkFinite. rewrite (proj2 (Z.leb_le 0 p')) by exact Hp'.
  rewrite Hs. reflexivity.
Qed.

(** *** [Number] on a string of decimal digits *)

Lemma lit_digit_string (d : Decimal.uint) :
  Forall (fun c => isWhiteSpace c = false) (lit (NilEmpty.string_of_uint d)).
Proof.
  induction d; cbn; constructor; try reflexivity; assumption.
Qed.

Lemma trim_no_whitespace (s : jsstring) :
  Forall (fun c => isWhiteSpace c = false) s -> trim s = s.
Proof.
  intros H. unfold trim, trimEnd.
  assert (Hstart : forall l, Forall (fun c => isWhiteSpace c = false) l ->
                             trimStart l = l).
  { intros l Hl. destruct Hl as [| c l Hc _]; [reflexivity|].
    apply trimStart_head, Hc. }
  rewrite (Hstart s H). rewrite Hstart by (apply Forall_rev, H).
  apply rev_involutive.
Qed.

Ltac read_digit :=
  change (lit (String ?a ?s)) with (N_of_ascii a :: lit s);
  cbn [JsNum.digits N_of_ascii];
  match goal with
  | |- context [digitValue 10 ?c] =>
      let v := eval vm_compute in (digitValue 10 c) in
      change (digitValue 10 c) with v; cbv iota
  end.

Lemma digits_positive (d : Decimal.uint) (p : positive) (count : N) :
  JsNum.digits 10 (N.pos p) count (lit (NilEmpty.string_of_uint d))
  = (N.pos (Pos.of_uint_acc d p),
     (count + N.of_nat (Decimal.nb_digits d))%N, []).
Proof.
  revert p count.
  induction d; intros p count;
    cbn [NilEmpty.string_of_uint Pos.of_uint_acc Decimal.nb_digits];
    [cbn; rewrite N.add_0_r; reflexivity | ..];
    read_digit;
    match goal with
    | |- JsNum.digits 10 ?acc _ _ = (N.pos (Pos.of_uint_acc _ ?q), _, _) =>
        replace acc with (N.pos q) by lia;
        rewrite IHd; f_equal; f_equal; lia
    end.
Qed.

Lemma digits_zero (d : Decimal.uint) (count : N) :
  JsNum.digits 10 0 count (lit (NilEmpty.string_of_uint d))
  = (Pos.of_uint d, (count + N.of_nat (Decimal.nb_digits d))%N, []).
Proof.
  revert count.
  induction d; intros count;
    cbn [NilEmpty.string_of_uint Pos.of_uint Decimal.nb_digits];
    [cbn; rewrite N.add_0_r; reflexivity | ..];
    read_digit;
    [ change (0 * 10 + 0)%N with 0%N; rewrite IHd
    | match goal with
      | |- JsNum.digits 10 ?acc _ _ = (N.pos (Pos.of_uint_acc _ ?q), _, _) =>
          change acc with (N.pos q); rewrite digits_positive
      end .. ];
    f_equal; f_equal; lia.
Qed.

(** A string of decimal digits converts to the Number value for the
    natural it denotes. *)
Lemma StringToNumber_digits (d : Decimal.uint) :
  d <> Decimal.Nil ->
  StringToNumber (lit (NilEmpty.string_of_uint d))
  = toNumber false (N.of_uint d) 0.
Proof.
  intros Hd. unfold StringToNumber.
  rewrite trim_no_whitespace by apply lit_digit_string.
  transitivity
    (unsignedDecimalLiteral false (lit (NilEmpty.string_of_uint d))).
  { destruct d as [| l | l | l | l | l | l | l | l | l | l];
      [contradiction | ..]; try reflexivity.
    destruct l; reflexivity. }
  unfold unsignedDecimalLiteral.
  destruct (list_eq_dec N.eq_dec _ (lit "Infinity")) as [E | _].
  { destruct d; try contradiction; cbn in E; discriminate E. }
  rewrite digits_zero.
  assert (Hn : ((0 + N.of_nat (Decimal.nb_digits d) + 0 =? 0) = false)%N).
  { apply N.eqb_neq.
    destruct d; [contradiction | ..]; cbn [Decimal.nb_digits]; lia. }
  rewrite Hn. cbn [exponentPart]. reflexivity.
Qed.

(** The decimal digits of a natural below 2^53 convert to that natural. *)
Lemma StringToNumber_decimal (n : N) :
  (n < 2 ^ 53)%N -> StringToNumber (decimal n) = ofZ (Z.of_N n).
Proof.
  intros Hn. unfold decimal, ofZ. rewrite StringToNumber_digits.
  - rewrite DecimalN.Unsigned.of_to, Zabs2N.id, toNumber_natural by exact Hn.
    destruct (Z.of_N n <? 0) eqn:E; [apply Z.ltb_lt in E; lia | reflexivity].
  - destruct n; [discriminate | apply DecimalPos.Unsigned.to_uint_nonnil].
Qed.

Lemma decimal_not_empty (n : N) : decimal n <> [].
Proof.
  unfold decimal.
  assert (H : N.to_uint n <> Decimal.Nil)
    by (destruct n; [discriminate | apply DecimalPos.Unsigned.to_uint_nonnil]).
  destruct (N.to_uint n); [contradiction | ..]; discriminate.
Qed.

(** The timeout is the configured value when the variable holds the
    decimal digits of a natural below 2^53. *)
Lemma timeoutMs_decimal env (n : N) :
  (n < 2 ^ 53)%N ->
  CRITIQUE_TIMEOUT_MS env = Some (decimal n) ->
  timeoutMs env = ofZ (Z.of_N n).
Proof.
  unfold timeoutMs. intros Hn ->.
  pose proof (decimal_not_empty n) as Hne.
  pose proof (StringToNumber_decimal n Hn) as Hnum.
  destruct (decimal n) as [| c s]; [contradiction | exact Hnum].
Qed.

(** C4 at its failing input: with the timeout variable set to [abc] the
    handler arms the timer with NaN, not with 45000.  The default replaces
    an unset or empty variable only; a text that is no number is passed to
    [Number], which gives NaN.  For an unset variable the timeout is 45000,
    and for a variable that holds the decimal digits of a natural below
    2^53 it is that natural (beyond, [Number] rounds to the nearest
    double). *)
Theorem timeout_of_non_numeric_setting :
  timeoutMs envTimeoutAbc = NaN /\
  timeoutMs envTimeoutAbc <> ofZ 45000 /\
  snd (POST (lit "r1") envTimeoutAbc (answering threeHeaders)
         (jsonRequest (sampleBody (lit "Return sum of list") None)))
  = [SetTimeout NaN;
     Create (clientOf (lit "hf_token")) (paramsOf envTimeoutAbc scenarioA);
     ClearTimeout] /\
  (forall env, CRITIQUE_TIMEOUT_MS env = None -> timeoutMs env = ofZ 45000) /\
  (forall env n,
      (n < 2 ^ 53)%N ->
      CRITIQUE_TIMEOUT_MS env = Some (decimal n) ->
      timeoutMs env = ofZ (Z.of_N n)).
Proof.
  split; [reflexivity|]. split; [discriminate|]. split; [reflexivity|].
  split; [exact timeoutMs_unset | exact timeoutMs_decimal].
Qed.

(** ** The outbound call *)

(** C8: a request that reaches the model invoker (content declared as
    JSON, credential present, body valid) makes the handler call
    [client.chat.completions.create] exactly once, between arming and
    disarming the timer, with the prompt built from the request; the handler
    never repeats the call, whether the call returns or throws.  (The
    client is constructed with [maxRetries: 2]; what it retries below this
    call is its own.) *)
Theorem exactly_one_outbound_call rid env endpoint req hfToken input :
  declaresJson req = true -> credential env = Some hfToken ->
  validated req = Normal input ->
  outboundCalls (snd (POST rid env endpoint req))
  = [(clientOf hfToken, paramsOf env input)] /\
  length (outboundCalls (snd (POST rid env endpoint req))) = 1%nat /\
  snd (POST rid env endpoint req)
  = [SetTimeout (timeoutMs env);
     Create (clientOf hfToken) (paramsOf env input);
     ClearTimeout].
Proof.
  intros Hct Hcred Hval.
  rewrite (POST_invoked _ _ _ _ _ _ Hct Hcred Hval).
  repeat split.
Qed.

(** The theorem on scenario A of the specification, with an endpoint on
    which the call is aborted. *)
Lemma exactly_one_outbound_call_witness :
  outboundCalls
    (snd (POST (lit "r1") envWithToken aborting
            (jsonRequest (sampleBody (lit "Return sum of list") None))))
  = [(clientOf (lit "hf_token"), paramsOf envWithToken scenarioA)] /\
  length
    (outboundCalls
       (snd (POST (lit "r1") envWithToken aborting
               (jsonRequest (sampleBody (lit "Return sum of list") None)))))
  = 1%nat /\
  snd (POST (lit "r1") envWithToken aborting
         (jsonRequest (sampleBody (lit "Return sum of list") None)))
  = [SetTimeout (timeoutMs envWithToken);
     Create (clientOf (lit "hf_token")) (paramsOf envWithToken scenarioA);
     ClearTimeout].
Proof.
  apply (exactly_one_outbound_call (lit "r1") envWithToken aborting
           (jsonRequest (sampleBody (lit "Return sum of list") None))
           (lit "hf_token") scenarioA); reflexivity.
Defined.

(** No call is made and no timer is armed on the other paths. *)
Lemma no_outbound_call_otherwise rid env endpoint req :
  (declaresJson req = false \/ credential env = None \/
   exists err, validated req = Throw err) ->
  snd (POST rid env endpoint req) = [].
Proof.
  intros H. destruct (declaresJson req) eqn:Hct.
  2:{ rewrite POST_bad_content_type by exact Hct. reflexivity. }
  destruct (credential env) as [hfToken |] eqn:Hcred.
  2:{ rewrite POST_misconfigured by assumption. reflexivity. }
  destruct H as [H | [H | [err H]]]; try discriminate.
  rewrite (POST_rejected _ _ _ _ _ _ Hct Hcred H). reflexivity.
Qed.

(** ** The header flag *)

Example scenarioA_response :
  fst (POST (lit "r1") envWithToken (answering threeHeaders)
         (jsonRequest (sampleBody (lit "Return sum of list") None)))
  = jsonNoStore
      (Success (lit "r1") (lit "s1") (lit "Qwen/Qwen2.5-Coder-7B-Instruct")
         true threeHeaders) 200.
Proof. reflexivity. Qed.

(** C6: the flag of a success result is the conjunction of three substring
    checks on the generated text.  A request that reaches the model and gets
    a completion is answered with a success whose text is the content of
    the first choice of that completion and whose flag is the check on
    that text; so for every text an endpoint generates the flag is true
    exactly when [Detailed Diagnosis], [[Proposed Fix]] and
    [<Test_Validation>] each occur somewhere in it, in any order and with
    any other content around them, and false when one of them does not
    occur.  No other success is ever built. *)
Theorem hasAllHeaders_flag :
  (forall text : jsstring,
      hasAllHeaders text = true <->
      occursIn (lit "Detailed Diagnosis") text /\
      occursIn (lit "[Proposed Fix]") text /\
      occursIn (lit "<Test_Validation>") text) /\
  (forall rid env endpoint req hfToken input completion,
      declaresJson req = true -> credential env = Some hfToken ->
      validated req = Normal input ->
      answer env endpoint hfToken input = Normal completion ->
      fst (POST rid env endpoint req)
      = jsonNoStore
          (Success rid input.(id) (modelOf env)
             (hasAllHeaders (completionText completion))
             (completionText completion)) 200) /\
  (forall text rid env req hfToken input,
      declaresJson req = true -> credential env = Some hfToken ->
      validated req = Normal input ->
      exists flag,
        body (fst (POST rid env (answering text) req))
        = Success rid input.(id) (modelOf env) flag text /\
        (flag = true <->
         occursIn (lit "Detailed Diagnosis") text /\
         occursIn (lit "[Proposed Fix]") text /\
         occursIn (lit "<Test_Validation>") text)) /\
  (forall rid env endpoint req rid' id' model flag text,
      body (fst (POST rid env endpoint req))
      = Success rid' id' model flag text ->
      flag = hasAllHeaders text /\
      exists hfToken input completion,
        credential env = Some hfToken /\
        validated req = Normal input /\
        answer env endpoint hfToken input = Normal completion /\
        text = completionText completion) /\
  (forall text header,
      In header [lit "Detailed Diagnosis"; lit "[Proposed Fix]";
                 lit "<Test_Validation>"] ->
      ~ occursIn header text -> hasAllHeaders text = false).
Proof.
  assert (Hsuccess :
            forall rid env endpoint req hfToken input completion,
              declaresJson req = true -> credential env = Some hfToken ->
              validated req = Normal input ->
              answer env endpoint hfToken input = Normal completion ->
              fst (POST rid env endpoint req)
              = jsonNoStore
                  (Success rid input.(id) (modelOf env)
                     (hasAllHeaders (completionText completion))
                     (completionText completion)) 200).
  { intros rid env endpoint req hfToken input completion Hct Hcred Hval Hans.
    rewrite (POST_invoked _ _ _ _ _ _ Hct Hcred Hval), Hans. reflexivity. }
  split; [exact hasAllHeaders_spec|]. split; [exact Hsuccess|].
  split; [|split].
  - intros text rid env req hfToken input Hct Hcred Hval.
    exists (hasAllHeaders text).
    rewrite (Hsuccess rid env (answering text) req hfToken input
               (mkChatCompletion
                  (Some [mkChoice (Some (mkResponseMessage (Some text)))]))
               Hct Hcred Hval eq_refl).
    split; [reflexivity | apply hasAllHeaders_spec].
  - intros rid env endpoint req rid' id' model flag text.
    destruct (declaresJson req) eqn:Hct.
    2:{ rewrite POST_bad_content_type by exact Hct. discriminate. }
    destruct (credential env) as [hfToken |] eqn:Hcred.
    2:{ rewrite POST_misconfigured by assumption. discriminate. }
    destruct (validated req) as [input | err] eqn:Hval.
    + rewrite (POST_invoked _ _ _ _ _ _ Hct Hcred Hval). cbn [fst].
      destruct (answer env endpoint hfToken input) as [completion | err]
        eqn:Hans.
      * cbn. intros H. injection H as _ _ _ <- <-.
        split; [reflexivity|].
        exists hfToken, input, completion. repeat split. exact Hans.
      * destruct (POST_catch_is_failure rid err) as [e [d ->]]. discriminate.
    + rewrite (POST_rejected _ _ _ _ _ _ Hct Hcred Hval). cbn [fst].
      destruct (POST_catch_is_failure rid err) as [e [d ->]]. discriminate.
  - intros text header Hin Hnot.
    destruct (hasAllHeaders text) eqn:E; [|reflexivity].
    apply hasAllHeaders_spec in E. destruct E as [H1 [H2 H3]].
    destruct Hin as [<- | [<- | [<- | []]]]; contradiction.
Qed.

(** The response of scenario A to a completion that holds the three
    headers: a success with that text and the flag true. *)
Lemma hasAllHeaders_flag_witness :
  fst (POST (lit "r1") envWithToken (answering threeHeaders)
         (jsonRequest (sampleBody (lit "Return sum of list") None)))
  = jsonNoStore
      (Success (lit "r1") scenarioA.(id) (modelOf envWithToken)
         (hasAllHeaders
            (completionText
               (mkChatCompletion
                  (Some [mkChoice
                           (Some (mkResponseMessage (Some threeHeaders)))]))))
         (completionText
            (mkChatCompletion
               (Some [mkChoice
                        (Some (mkResponseMessage (Some threeHeaders)))]))))
      200.
Proof.
  apply (proj1 (proj2 hasAllHeaders_flag) (lit "r1") envWithToken
           (answering threeHeaders)
           (jsonRequest (sampleBody (lit "Return sum of list") None))
           (lit "hf_token") scenarioA
           (mkChatCompletion
              (Some [mkChoice (Some (mkResponseMessage (Some threeHeaders)))])));
    reflexivity.
Defined.

(** ** What the validator accepts *)

Example every_issue_is_reported :
  CritiqueRequestSchema_parse
    (JObject [(lit "id", JString []);
              (lit "buggy_solution_code", JNumber (ofZ 1));
              (lit "label", JNull);
              (lit "unknown", JBool true)])
  = Throw (ZodError [mkIssue too_small [lit "id"];
                     mkIssue invalid_type [lit "prd"];
                     mkIssue invalid_type [lit "buggy_solution_code"];
                     mkIssue invalid_type [lit "label"]]).
Proof. reflexivity. Qed.

(** C7, as stated, fails: an object whose [id], [prd] and
    [buggy_solution_code] are strings that are not empty is rejected when
    its [qwq_critique] (or its [label]) is present and no string. *)
Lemma required_fields_do_not_suffice :
  (forall key,
      In key [lit "id"; lit "prd"; lit "buggy_solution_code"] ->
      violatesRequired (Zod.getProp key propsWithNumericCritique) = false) /\
  CritiqueRequestSchema_parse (JObject propsWithNumericCritique)
  = Throw (ZodError [mkIssue invalid_type [lit "qwq_critique"]]) /\
  status (fst (POST (lit "r1") envWithToken (answering threeHeaders)
                 (jsonRequest (JObject propsWithNumericCritique)))) = 400.
Proof.
  split; [|split; reflexivity].
  intros key [<- | [<- | [<- | []]]]; reflexivity.
Qed.

(** C7, amended: the validator accepts every JSON object whose [id],
    [prd] and [buggy_solution_code] are strings of length at least 1 and
    whose [label] and [qwq_critique], when present, are strings
    ([failure_info] and [meta] may be anything or absent), and returns the
    fields of the shape.  Every other object is rejected with a
    ValidationError whose issues name every violated field, one issue per
    field at the path of the field, in the order of the shape: a required
    field that is absent, no string or empty, and a [label] or
    [qwq_critique] that is no string.  Through the handler (content
    declared as JSON, credential present) the rejection is answered with
    status 400 and these issues as details.  A body that is no object is
    rejected with one issue at the root path. *)
Theorem validator_contract (props : list (jsstring * Json)) :
  (violatesRequired (Zod.getProp (lit "id") props) = false ->
   violatesRequired (Zod.getProp (lit "prd") props) = false ->
   violatesRequired (Zod.getProp (lit "buggy_solution_code") props) = false ->
   violatesOptionalString (Zod.getProp (lit "label") props) = false ->
   violatesOptionalString (Zod.getProp (lit "qwq_critique") props) = false ->
   CritiqueRequestSchema_parse (JObject props) = Normal (requestOf props)) /\
  (violatedFields props <> [] ->
   exists issues,
     CritiqueRequestSchema_parse (JObject props) = Throw (ZodError issues) /\
     map issue_path issues = map (fun key => [key]) (violatedFields props) /\
     forall rid env endpoint ct hfToken,
       declaresJson (mkRequest ct (Normal (JObject props))) = true ->
       credential env = Some hfToken ->
       fst (POST rid env endpoint (mkRequest ct (Normal (JObject props))))
       = jsonNoStore
           (Failure rid (lit "Invalid request body") (Some issues)) 400) /\
  (forall key,
      In key [lit "id"; lit "prd"; lit "buggy_solution_code"] ->
      violatesRequired (Zod.getProp key props) = true ->
      In key (violatedFields props)) /\
  (forall data,
      match data with JObject _ => False | _ => True end ->
      CritiqueRequestSchema_parse data
      = Throw (ZodError [mkIssue invalid_type []])).
Proof.
  split; [|split; [|split]].
  - intros V1 V2 V3 V4 V5. cbn [CritiqueRequestSchema_parse].
    destruct (CritiqueRequestSchema_issues props)
      as [[_ ->] | [Hsome _]]; [reflexivity|].
    exfalso. apply Hsome. unfold violatedFields. cbn [filter].
    rewrite V1, V2, V3, V4, V5. reflexivity.
  - intros Hsome. cbn [CritiqueRequestSchema_parse].
    destruct (CritiqueRequestSchema_issues props)
      as [[Hnone _] | [_ [issues [Hparse Hpaths]]]]; [contradiction|].
    exists issues. rewrite Hparse. split; [reflexivity|].
    split; [exact Hpaths|].
    intros rid env endpoint ct hfToken Hct Hcred.
    rewrite (POST_rejected _ _ _ _ hfToken (ZodError issues) Hct Hcred);
      [reflexivity|].
    unfold validated. cbn. rewrite Hparse. reflexivity.
  - intros key Hin Hv. unfold violatedFields. apply in_or_app. left.
    apply filter_In. split; assumption.
  - intros [| b | x | s | items | fields] H; try reflexivity. contradiction.
Qed.

(** The first case on an object with the three required fields. *)
Lemma validator_contract_witness :
  CritiqueRequestSchema_parse (JObject requiredProps)
  = Normal (requestOf requiredProps).
Proof.
  apply (proj1 (validator_contract requiredProps)); reflexivity.
Defined.

(** ** Properties beyond the schema *)

Lemma getProp_setProp key value props key' :
  Zod.getProp key' (setProp key value props)
  = if list_eq_dec N.eq_dec key key' then Some value
    else Zod.getProp key' props.
Proof.
  induction props as [| [k v] rest IH]; cbn [setProp Zod.getProp].
  - destruct (list_eq_dec N.eq_dec key key'); reflexivity.
  - destruct (list_eq_dec N.eq_dec k key) as [-> | Hk]; cbn [Zod.getProp].
    + destruct (list_eq_dec N.eq_dec key key'); reflexivity.
    + destruct (list_eq_dec N.eq_dec k key') as [-> | Hk'].
      * destruct (list_eq_dec N.eq_dec key key'); [congruence | reflexivity].
      * exact IH.
Qed.

(** The schema reads an object through the keys of its shape only. *)
Lemma CritiqueRequestSchema_reads_shape props props' :
  (forall key, In key schemaKeys ->
               Zod.getProp key props' = Zod.getProp key props) ->
  CritiqueRequestSchema props' = CritiqueRequestSchema props.
Proof.
  intros H. unfold CritiqueRequestSchema, Zod.field.
  rewrite !H by (unfold schemaKeys; cbn [In]; tauto). reflexivity.
Qed.

(** The handler reads the validated request through its [id] and its
    prompt only. *)
Lemma POST_reads_id_and_prompt rid env endpoint req req' input input' :
  content_type req' = content_type req ->
  validated req = Normal input -> validated req' = Normal input' ->
  id input' = id input -> buildPrompt input' = buildPrompt input ->
  POST rid env endpoint req' = POST rid env endpoint req.
Proof.
  intros Hct Hval Hval' Hid Hprompt.
  assert (Hdecl : declaresJson req' = declaresJson req)
    by (unfold declaresJson; rewrite Hct; reflexivity).
  destruct (declaresJson req) eqn:Hj.
  2:{ rewrite !POST_bad_content_type by assumption. reflexivity. }
  destruct (credential env) as [hfToken |] eqn:Hcred.
  2:{ rewrite !POST_misconfigured by assumption. reflexivity. }
  rewrite (POST_invoked _ _ _ _ _ _ Hj Hcred Hval).
  rewrite (POST_invoked _ _ _ _ _ _ Hdecl Hcred Hval').
  unfold answer, paramsOf. rewrite Hid, Hprompt. reflexivity.
Qed.

Lemma POST_reads_validated rid env endpoint req req' :
  content_type req' = content_type req -> validated req' = validated req ->
  POST rid env endpoint req' = POST rid env endpoint req.
Proof.
  intros Hct Hval.
  assert (Hdecl : declaresJson req' = declaresJson req)
    by (unfold declaresJson; rewrite Hct; reflexivity).
  destruct (declaresJson req) eqn:Hj.
  2:{ rewrite !POST_bad_content_type by assumption. reflexivity. }
  destruct (credential env) as [hfToken |] eqn:Hcred.
  2:{ rewrite !POST_misconfigured by assumption. reflexivity. }
  destruct (validated req) as [input | err] eqn:Hv.
  - rewrite (POST_invoked _ _ _ _ _ _ Hj Hcred Hv).
    rewrite (POST_invoked _ _ _ _ _ _ Hdecl Hcred Hval). reflexivity.
  - rewrite (POST_rejected _ _ _ _ _ _ Hj Hcred Hv).
    rewrite (POST_rejected _ _ _ _ _ _ Hdecl Hcred Hval). reflexivity.
Qed.

Lemma getProp_setProp_other key value props key' :
  key <> key' ->
  Zod.getProp key' (setProp key value props) = Zod.getProp key' props.
Proof.
  intros H. rewrite getProp_setProp.
  destruct (list_eq_dec N.eq_dec key key'); [contradiction | reflexivity].
Qed.

Lemma getProp_setProp_same key value props :
  Zod.getProp key (setProp key value props) = Some value.
Proof.
  rewrite getProp_setProp.
  destruct (list_eq_dec N.eq_dec key key); [reflexivity | contradiction].
Qed.

Lemma violatedFields_nil props :
  violatedFields props = [] <->
  violatesRequired (Zod.getProp (lit "id") props) = false /\
  violatesRequired (Zod.getProp (lit "prd") props) = false /\
  violatesRequired (Zod.getProp (lit "buggy_solution_code") props) = false /\
  violatesOptionalString (Zod.getProp (lit "label") props) = false /\
  violatesOptionalString (Zod.getProp (lit "qwq_critique") props) = false.
Proof.
  unfold violatedFields. cbn [filter].
  destruct (violatesRequired (Zod.getProp (lit "id") props));
  destruct (violatesRequired (Zod.getProp (lit "prd") props));
  destruct (violatesRequired (Zod.getProp (lit "buggy_solution_code") props));
  destruct (violatesOptionalString (Zod.getProp (lit "label") props));
  destruct (violatesOptionalString (Zod.getProp (lit "qwq_critique") props));
  cbn; split; intros H; try discriminate H; try reflexivity;
    try (repeat split; reflexivity);
    destruct H as [H1 [H2 [H3 [H4 H5]]]]; discriminate.
Qed.

(** A [qwq_critique] that is no string is rejected, whatever else the
    object holds. *)
Lemma non_string_critique_rejected (props : list (jsstring * Json))
  (value : Json) :
  match value with JString _ => False | _ => True end ->
  exists issues,
    CritiqueRequestSchema_parse
      (JObject (setProp (lit "qwq_critique") value props))
    = Throw (ZodError issues) /\
    In [lit "qwq_critique"] (map issue_path issues).
Proof.
  intros Hvalue.
  set (props' := setProp (lit "qwq_critique") value props).
  assert (Hsame : Zod.getProp (lit "qwq_critique") props' = Some value)
    by apply getProp_setProp_same.
  assert (Hin : In (lit "qwq_critique") (violatedFields props')).
  { unfold violatedFields. apply in_or_app. right. apply filter_In.
    split; [cbn [In]; tauto|]. rewrite Hsame.
    destruct value; try reflexivity. contradiction. }
  cbn [CritiqueRequestSchema_parse].
  destruct (CritiqueRequestSchema_issues props')
    as [[Hnone _] | [_ [issues [-> Hpaths]]]].
  - rewrite Hnone in Hin. contradiction.
  - exists issues. split; [reflexivity|]. rewrite Hpaths.
    apply (in_map (fun k => [k])). exact Hin.
Qed.

(** C10, as stated, fails: [qwq_critique] is a key of the schema, and
    adding it with a value that is no string to an object that is
    accepted makes validation fail; the response turns from 200 into
    400. *)
Lemma added_critique_can_fail_validation :
  ~ In (lit "qwq_critique")
      [lit "id"; lit "prd"; lit "buggy_solution_code"; lit "failure_info";
       lit "label"; lit "meta"] /\
  CritiqueRequestSchema_parse (JObject requiredProps)
  = Normal (requestOf requiredProps) /\
  CritiqueRequestSchema_parse
    (JObject (setProp (lit "qwq_critique") (JNumber (ofZ 5)) requiredProps))
  = Throw (ZodError [mkIssue invalid_type [lit "qwq_critique"]]) /\
  status (fst (POST (lit "r1") envWithToken (answering threeHeaders)
                 (jsonRequest (JObject requiredProps)))) = 200 /\
  status (fst (POST (lit "r1") envWithToken (answering threeHeaders)
                 (jsonRequest
                    (JObject (setProp (lit "qwq_critique") (JNumber (ofZ 5))
                                requiredProps))))) = 400.
Proof.
  split; [|repeat split].
  cbn [In]. intros [H | [H | [H | [H | [H | [H | []]]]]]]; discriminate H.
Qed.

Example critique_is_ignored :
  POST (lit "r1") envWithToken (answering threeHeaders)
    (jsonRequest
       (JObject (setProp (lit "qwq_critique") (JString (lit "looks wrong"))
                   requiredProps)))
  = POST (lit "r1") envWithToken (answering threeHeaders)
      (jsonRequest (JObject requiredProps)).
Proof. reflexivity. Qed.

(** C10, amended: adding a property whose key the schema does not name,
    with any value, changes nothing: the validator returns the same
    result and the handler the same response and the same call.  Adding
    the undocumented field [qwq_critique] with a string value to an object
    that is accepted leaves it accepted, with the same prompt and the same
    response.  Adding [qwq_critique] with a value that is no string makes
    validation fail, with an issue at the path [qwq_critique]. *)
Theorem extra_properties (props : list (jsstring * Json)) (key : jsstring)
  (value : Json) :
  (~ In key schemaKeys ->
   CritiqueRequestSchema_parse (JObject (setProp key value props))
   = CritiqueRequestSchema_parse (JObject props) /\
   forall rid env endpoint ct,
     POST rid env endpoint
       (mkRequest ct (Normal (JObject (setProp key value props))))
     = POST rid env endpoint (mkRequest ct (Normal (JObject props)))) /\
  (forall critique input,
      key = lit "qwq_critique" -> value = JString critique ->
      CritiqueRequestSchema_parse (JObject props) = Normal input ->
      exists input',
        CritiqueRequestSchema_parse (JObject (setProp key value props))
        = Normal input' /\
        buildPrompt input' = buildPrompt input /\
        forall rid env endpoint ct,
          POST rid env endpoint
            (mkRequest ct (Normal (JObject (setProp key value props))))
          = POST rid env endpoint (mkRequest ct (Normal (JObject props)))) /\
  (key = lit "qwq_critique" ->
   match value with JString _ => False | _ => True end ->
   exists issues,
     CritiqueRequestSchema_parse (JObject (setProp key value props))
     = Throw (ZodError issues) /\
     In [lit "qwq_critique"] (map issue_path issues)).
Proof.
  split; [|split; [|intros ->; apply non_string_critique_rejected]].
  - intros Hkey.
    assert (Hparse :
              CritiqueRequestSchema_parse (JObject (setProp key value props))
              = CritiqueRequestSchema_parse (JObject props)).
    { cbn [CritiqueRequestSchema_parse].
      rewrite (CritiqueRequestSchema_reads_shape props); [reflexivity|].
      intros k Hk. apply getProp_setProp_other. intros ->. contradiction. }
    split; [exact Hparse|].
    intros rid env endpoint ct. apply POST_reads_validated; [reflexivity|].
    unfold validated. cbn. exact Hparse.
  - intros critique input -> -> Hparse.
    cbn [CritiqueRequestSchema_parse] in Hparse.
    destruct (CritiqueRequestSchema_issues props)
      as [[Hnone Hvalid] | [_ [issues [Hinvalid _]]]];
      [| rewrite Hinvalid in Hparse; discriminate].
    rewrite Hvalid in Hparse. injection Hparse as <-.
    set (props' := setProp (lit "qwq_critique") (JString critique) props).
    assert (Hother : forall k, k <> lit "qwq_critique" ->
                               Zod.getProp k props' = Zod.getProp k props).
    { intros k Hk. apply getProp_setProp_other. congruence. }
    assert (Hsame : Zod.getProp (lit "qwq_critique") props'
                    = Some (JString critique))
      by apply getProp_setProp_same.
    assert (Hnone' : violatedFields props' = []).
    { apply violatedFields_nil in Hnone.
      destruct Hnone as [V1 [V2 [V3 [V4 _]]]].
      apply violatedFields_nil.
      rewrite !Hother by discriminate. rewrite Hsame.
      repeat split; assumption. }
    assert (Hparse' : CritiqueRequestSchema_parse (JObject props')
                      = Normal (requestOf props')).
    { cbn [CritiqueRequestSchema_parse].
      destruct (CritiqueRequestSchema_issues props')
        as [[_ ->] | [Hsome _]]; [reflexivity | contradiction]. }
    assert (Hprompt : buildPrompt (requestOf props')
                      = buildPrompt (requestOf props)).
    { unfold buildPrompt, requestOf. cbn [prd buggy_solution_code failure_info label].
      rewrite !Hother by discriminate. reflexivity. }
    exists (requestOf props'). split; [exact Hparse'|].
    split; [exact Hprompt|].
    intros rid env endpoint ct.
    apply (POST_reads_id_and_prompt _ _ _ _ _ (requestOf props)
             (requestOf props')).
    + reflexivity.
    + unfold validated. cbn [json bind Monad_Completion].
      cbn [CritiqueRequestSchema_parse]. rewrite Hvalid. reflexivity.
    + unfold validated. cbn [json bind Monad_Completion]. exact Hparse'.
    + unfold requestOf. cbn [id]. rewrite Hother by discriminate. reflexivity.
    + exact Hprompt.
Qed.

(** The first case with a key the schema does not name. *)
Lemma extra_properties_witness :
  CritiqueRequestSchema_parse
    (JObject (setProp (lit "debug") (JBool true) requiredProps))
  = CritiqueRequestSchema_parse (JObject requiredProps) /\
  forall rid env endpoint ct,
    POST rid env endpoint
      (mkRequest ct
         (Normal (JObject (setProp (lit "debug") (JBool true) requiredProps))))
    = POST rid env endpoint (mkRequest ct (Normal (JObject requiredProps))).
Proof.
  apply (proj1 (extra_properties requiredProps (lit "debug") (JBool true))).
  unfold schemaKeys. cbn [In].
  intros [H | [H | [H | [H | [H | [H | [H | []]]]]]]]; discriminate H.
Defined.


(** ** The credential and the timer *)

(** X1: a missing credential short-circuits: with the content declared as
    JSON and [HF_TOKEN] unset or empty, the handler answers with status
    500 without reading the body, arming the timer or calling the
    endpoint. *)
Theorem missing_credential_short_circuits rid env endpoint req :
  declaresJson req = true ->
  HF_TOKEN env = None \/ HF_TOKEN env = Some [] ->
  POST rid env endpoint req
  = (jsonNoStore
       (Failure rid (lit "Server misconfigured: HF_TOKEN missing") None) 500,
     []) /\
  outboundCalls (snd (POST rid env endpoint req)) = [].
Proof.
  intros Hct Htoken.
  assert (Hcred : credential env = None)
    by (unfold credential; destruct Htoken as [-> | ->]; reflexivity).
  rewrite POST_misconfigured by assumption. split; reflexivity.
Qed.

Lemma missing_credential_short_circuits_witness :
  POST (lit "r1") envWithoutToken (answering threeHeaders)
    (jsonRequest bodyMissingPrd)
  = (jsonNoStore
       (Failure (lit "r1") (lit "Server misconfigured: HF_TOKEN missing") None)
       500,
     []) /\
  outboundCalls
    (snd (POST (lit "r1") envWithoutToken (answering threeHeaders)
            (jsonRequest bodyMissingPrd))) = [].
Proof.
  apply (missing_credential_short_circuits (lit "r1") envWithoutToken
           (answering threeHeaders) (jsonRequest bodyMissingPrd));
    [reflexivity | left; reflexivity].
Defined.

(** X2: the timer is armed before the call and disarmed after it on every
    run that arms it, whether the call returns or throws: the events of a
    run are either none, or arming, one call, disarming, in this order. *)
Theorem timer_always_disarmed rid env endpoint req :
  snd (POST rid env endpoint req) = [] \/
  exists client params,
    snd (POST rid env endpoint req)
    = [SetTimeout (timeoutMs env); Create client params; ClearTimeout].
Proof.
  destruct (declaresJson req) eqn:Hct.
  2:{ left. rewrite POST_bad_content_type by exact Hct. reflexivity. }
  destruct (credential env) as [hfToken |] eqn:Hcred.
  2:{ left. rewrite POST_misconfigured by assumption. reflexivity. }
  destruct (validated req) as [input | err] eqn:Hval.
  - right. rewrite (POST_invoked _ _ _ _ _ _ Hct Hcred Hval).
    eexists. eexists. reflexivity.
  - left. rewrite (POST_rejected _ _ _ _ _ _ Hct Hcred Hval). reflexivity.
Qed.

(** * Further properties *)

(** ** Values the validator and the serializer handle *)

(** X3: the failure info of a validated request is always serialized: it
    is parsed JSON or absent, on which [JSON.stringify] returns a string, so
    the section of the prompt is that string under its budget and the
    fallback of the [catch] clause is never taken.  An absent value and
    [null] both give the text [null]. *)
Theorem validated_failure_info_is_serialized (input : CritiqueRequest) :
  (exists raw,
      JSON.stringify (nullish (ofOptJson (failure_info input)) VNull)
      = Normal (Some raw) /\
      failureInfoSection input = truncate raw MAX_FAILUREINFO_CHARS) /\
  (failure_info input = None \/ failure_info input = Some JNull ->
   failureInfoSection input = lit "null").
Proof.
  split.
  - assert (H : exists j, nullish (ofOptJson (failure_info input)) VNull
                          = ofJson j).
    { destruct (failure_info input) as [j |]; cbn [ofOptJson].
      - exists j. apply nullish_ofJson.
      - exists JNull. reflexivity. }
    destruct H as [j Hj].
    destruct (serialize_json j []) as [raw Hraw].
    exists raw. unfold failureInfoSection, safeStringifyFailureInfo.
    rewrite Hj. unfold JSON.stringify. rewrite Hraw. split; reflexivity.
  - intros [H | H]; unfold failureInfoSection; rewrite H; reflexivity.
Qed.

(** ** What the validator hands over *)

Lemma required_string_found (datum : option Json) :
  violatesRequired datum = false ->
  datum = Some (JString (stringOf datum)) /\ stringOf datum <> [].
Proof.
  destruct datum as [[| b | x | [| c s] | items | fields] |];
    try discriminate. intros _. split; [reflexivity | discriminate].
Qed.

Lemma optional_string_found (datum : option Json) :
  violatesOptionalString datum = false ->
  match optStringOf datum with
  | Some s => datum = Some (JString s)
  | None => datum = None
  end.
Proof.
  destruct datum as [[| b | x | s | items | fields] |];
    try discriminate; reflexivity.
Qed.

(** X4: a request the validator accepts holds exactly what the body holds
    under the keys of the schema: [id], [prd] and [buggy_solution_code] are
    the strings of the body and none of them is empty, [label] and
    [qwq_critique] are the strings of the body or absent with it, and
    [failure_info] and [meta] are the data of the body, absent or not. *)
Theorem accepted_request_fields (body : Json) (input : CritiqueRequest) :
  CritiqueRequestSchema_parse body = Normal input ->
  exists props,
    body = JObject props /\
    Zod.getProp (lit "id") props = Some (JString input.(id)) /\
    Zod.getProp (lit "prd") props = Some (JString input.(prd)) /\
    Zod.getProp (lit "buggy_solution_code") props
    = Some (JString input.(buggy_solution_code)) /\
    input.(id) <> [] /\ input.(prd) <> [] /\
    input.(buggy_solution_code) <> [] /\
    Zod.getProp (lit "failure_info") props = input.(failure_info) /\
    Zod.getProp (lit "meta") props = input.(meta) /\
    Zod.getProp (lit "label") props = option_map JString input.(label) /\
    Zod.getProp (lit "qwq_critique") props
    = option_map JString input.(qwq_critique).
Proof.
  destruct body as [| b | x | s | items | props]; try discriminate.
  cbn [CritiqueRequestSchema_parse]. intros H. exists props.
  destruct (CritiqueRequestSchema_issues props)
    as [[Hnone Hvalid] | [_ [issues [Hinvalid _]]]];
    [| rewrite Hinvalid in H; discriminate].
  rewrite Hvalid in H. injection H as <-.
  apply violatedFields_nil in Hnone.
  destruct Hnone as [V1 [V2 [V3 [V4 V5]]]].
  destruct (required_string_found _ V1) as [E1 N1].
  destruct (required_string_found _ V2) as [E2 N2].
  destruct (required_string_found _ V3) as [E3 N3].
  pose proof (optional_string_found _ V4) as E4.
  pose proof (optional_string_found _ V5) as E5.
  unfold requestOf. cbn [id prd buggy_solution_code failure_info meta label
                           qwq_critique].
  repeat split; try assumption; try reflexivity.
  - destruct (optStringOf (Zod.getProp (lit "label") props)); exact E4.
  - destruct (optStringOf (Zod.getProp (lit "qwq_critique") props)); exact E5.
Qed.

Lemma accepted_request_fields_witness :
  exists props,
    sampleBody (lit " Return sum of list") None = JObject props /\
    Zod.getProp (lit "id") props = Some (JString paddedRequest.(id)) /\
    Zod.getProp (lit "prd") props = Some (JString paddedRequest.(prd)) /\
    Zod.getProp (lit "buggy_solution_code") props
    = Some (JString paddedRequest.(buggy_solution_code)) /\
    paddedRequest.(id) <> [] /\ paddedRequest.(prd) <> [] /\
    paddedRequest.(buggy_solution_code) <> [] /\
    Zod.getProp (lit "failure_info") props = paddedRequest.(failure_info) /\
    Zod.getProp (lit "meta") props = paddedRequest.(meta) /\
    Zod.getProp (lit "label") props
    = option_map JString paddedRequest.(label) /\
    Zod.getProp (lit "qwq_critique") props
    = option_map JString paddedRequest.(qwq_critique).
Proof.
  apply (accepted_request_fields
           (sampleBody (lit " Return sum of list") None) paddedRequest).
  reflexivity.
Defined.

(** ** What every prompt holds *)

Lemma occursIn_app (search a b : jsstring) :
  occursIn search a -> occursIn search (a ++ b).
Proof.
  intros [before [after ->]]. exists before, (after ++ b).
  rewrite <- !app_assoc. reflexivity.
Qed.

(** The fixed head of the prompt survives the overall cap. *)
Lemma buildPrompt_head (input : CritiqueRequest) :
  exists rest, buildPrompt input = PROMPT_HEAD ++ rest.
Proof.
  rewrite buildPrompt_assembled. unfold assembledPrompt.
  set (sections := prdSection input ++ _).
  destruct (Z.le_gt_cases (jslength (PROMPT_HEAD ++ sections))
              MAX_PROMPT_CHARS) as [Hle | Hgt].
  - rewrite truncate_short by exact Hle. exists sections. reflexivity.
  - rewrite truncate_long by (try discriminate; exact Hgt).
    assert (Hhead : (length PROMPT_HEAD <= Z.to_nat MAX_PROMPT_CHARS)%nat).
    { assert (H : jslength PROMPT_HEAD <= MAX_PROMPT_CHARS)
        by (vm_compute; discriminate).
      unfold jslength in H. lia. }
    rewrite firstn_app, (firstn_all2 PROMPT_HEAD) by exact Hhead.
    rewrite <- app_assoc. eexists. reflexivity.
Qed.

(** X5: every prompt starts with the fixed instructions, whatever the
    request holds and whether or not the overall cap cuts it, and so every
    prompt contains the three header lines itself: an endpoint that answers
    with the prompt it was sent gets a result flagged as having all
    headers. *)
Theorem prompt_contains_headers (input : CritiqueRequest) :
  (exists rest, buildPrompt input = PROMPT_HEAD ++ rest) /\
  hasAllHeaders (buildPrompt input) = true /\
  forall rid env req hfToken,
    declaresJson req = true -> credential env = Some hfToken ->
    validated req = Normal input ->
    fst (POST rid env echoing req)
    = jsonNoStore
        (Success rid input.(id) (modelOf env) true (buildPrompt input)) 200.
Proof.
  assert (Hflag : hasAllHeaders (buildPrompt input) = true).
  { destruct (buildPrompt_head input) as [rest ->].
    apply hasAllHeaders_spec.
    repeat split; apply occursIn_app; apply includes_spec;
      vm_compute; reflexivity. }
  split; [apply buildPrompt_head|]. split; [exact Hflag|].
  intros rid env req hfToken Hct Hcred Hval.
  rewrite (POST_invoked _ _ _ _ _ _ Hct Hcred Hval).
  unfold answer, echoing. cbn. rewrite Hflag. reflexivity.
Qed.

(** ** Fields that are absent, null or ignored *)

(** The handler answers alike on two bodies that the validator treats
    alike and whose requests have the same [id] and prompt. *)
Lemma POST_reads_alike rid env endpoint ct props props' :
  match CritiqueRequestSchema props with
  | Zod.Valid input =>
      exists input',
        CritiqueRequestSchema props' = Zod.Valid input' /\
        id input' = id input /\ buildPrompt input' = buildPrompt input
  | Zod.Invalid issues => CritiqueRequestSchema props' = Zod.Invalid issues
  end ->
  POST rid env endpoint (mkRequest ct (Normal (JObject props')))
  = POST rid env endpoint (mkRequest ct (Normal (JObject props))).
Proof.
  intros H. destruct (CritiqueRequestSchema props) as [input | issues] eqn:E.
  - destruct H as [input' [E' [Hid Hprompt]]].
    apply (POST_reads_id_and_prompt _ _ _ _ _ input input');
      try assumption; try reflexivity;
      unfold validated; cbn; [rewrite E | rewrite E']; reflexivity.
  - apply POST_reads_validated; [reflexivity|].
    unfold validated. cbn. rewrite E, H. reflexivity.
Qed.

Lemma optional_string_present path s :
  Zod.optional Zod.string path (Some (JString s)) = Zod.Valid (Some s).
Proof. reflexivity. Qed.

Lemma optional_string_absent path :
  Zod.optional Zod.string path None = Zod.Valid None.
Proof. reflexivity. Qed.

(** Replacing the datum under one key that passes its schema before and
    after. *)
Ltac same_but_one_field :=
  unfold CritiqueRequestSchema, Zod.field;
  repeat rewrite getProp_setProp_same;
  repeat (rewrite getProp_setProp_other by discriminate);
  rewrite ?optional_string_present, ?optional_string_absent;
  repeat match goal with
         | |- context [Zod.min 1 Zod.string ?p ?d] =>
             destruct (Zod.min 1 Zod.string p d)
         | |- context [Zod.optional Zod.string ?p ?d] =>
             destruct (Zod.optional Zod.string p d)
         end;
  cbn; try reflexivity; eexists; repeat split.

(** X6: the handler cannot tell an absent field from its default.  A body
    without [label] and the same body with the label [null] as a string get
    the same response and the same call, and so do a body without
    [failure_info] and the same body with [failure_info: null]. *)
Theorem absent_reads_as_null rid env endpoint ct
  (props : list (jsstring * Json)) :
  (Zod.getProp (lit "label") props = None ->
   POST rid env endpoint
     (mkRequest ct
        (Normal (JObject (setProp (lit "label") (JString (lit "null")) props))))
   = POST rid env endpoint (mkRequest ct (Normal (JObject props)))) /\
  (Zod.getProp (lit "failure_info") props = None ->
   POST rid env endpoint
     (mkRequest ct (Normal (JObject (setProp (lit "failure_info") JNull props))))
   = POST rid env endpoint (mkRequest ct (Normal (JObject props)))).
Proof.
  split; intros Habsent; apply POST_reads_alike.
  - unfold CritiqueRequestSchema at 1. unfold Zod.field at 5.
    rewrite Habsent. same_but_one_field.
  - unfold CritiqueRequestSchema at 1. unfold Zod.field at 4.
    rewrite Habsent. same_but_one_field.
Qed.

(** X7: [meta] is accepted and never read: whatever value a body holds
    under [meta], and whether it holds one at all, the validator accepts
    or rejects the body alike and the handler gives the same response and
    makes the same call. *)
Theorem meta_is_ignored rid env endpoint ct (props : list (jsstring * Json))
  (value : Json) :
  POST rid env endpoint
    (mkRequest ct (Normal (JObject (setProp (lit "meta") value props))))
  = POST rid env endpoint (mkRequest ct (Normal (JObject props))).
Proof.
  apply POST_reads_alike.
  unfold CritiqueRequestSchema at 1. same_but_one_field.
Qed.

(** ** What a response tells *)

(** X8: every response carries the request id of its run, and a success
    is only ever reported after the one call of the run returned: the
    result then names the [id] of the validated request and the model the
    call was made with, and its text is the content of the first choice of
    the completion the endpoint returned. *)
Theorem success_reports_the_call rid env endpoint req :
  requestIdOf (body (fst (POST rid env endpoint req))) = rid /\
  forall rid' id' model flag text,
    body (fst (POST rid env endpoint req))
    = Success rid' id' model flag text ->
    exists hfToken input completion,
      credential env = Some hfToken /\
      validated req = Normal input /\
      endpoint (clientOf hfToken) (paramsOf env input) (timeoutMs env)
      = Normal completion /\
      snd (POST rid env endpoint req)
      = [SetTimeout (timeoutMs env);
         Create (clientOf hfToken) (paramsOf env input);
         ClearTimeout] /\
      id' = input.(id) /\
      model = create_model (paramsOf env input) /\
      text = completionText completion /\
      status (fst (POST rid env endpoint req)) = 200.
Proof.
  destruct (declaresJson req) eqn:Hct.
  2:{ rewrite POST_bad_content_type by exact Hct.
      split; [reflexivity | discriminate]. }
  destruct (credential env) as [hfToken |] eqn:Hcred.
  2:{ rewrite POST_misconfigured by assumption.
      split; [reflexivity | discriminate]. }
  assert (Hcatch : forall err,
             requestIdOf (body (POST_catch rid err)) = rid).
  { intros [issues | name |]; cbn [POST_catch];
      [| destruct (list_eq_dec N.eq_dec name (lit "AbortError")) |];
      reflexivity. }
  destruct (validated req) as [input | err] eqn:Hval.
  - rewrite (POST_invoked _ _ _ _ _ _ Hct Hcred Hval). cbn [fst snd].
    unfold answer.
    destruct (endpoint (clientOf hfToken) (paramsOf env input) (timeoutMs env))
      as [completion | err] eqn:Hans.
    + split; [reflexivity|].
      intros rid' id' model flag text H. cbn in H.
      injection H as <- <- <- <- <-.
      exists hfToken, input, completion.
      repeat split; try reflexivity; assumption.
    + split; [apply Hcatch|].
      intros rid' id' model flag text H.
      destruct (POST_catch_is_failure rid err) as [e [d Hf]].
      rewrite Hf in H. discriminate.
  - rewrite (POST_rejected _ _ _ _ _ _ Hct Hcred Hval). cbn [fst].
    split; [apply Hcatch|].
    intros rid' id' model flag text H.
    destruct (POST_catch_is_failure rid err) as [e [d Hf]].
    rewrite Hf in H. discriminate.
Qed.

(** X9: a completion without content is still a success.  When the
    endpoint returns a completion with no choices, a first choice without
    message, or a message without content, the handler answers 200 with the
    empty text and the header flag false. *)
Theorem empty_completion_is_success rid env endpoint req hfToken input
  completion :
  declaresJson req = true -> credential env = Some hfToken ->
  validated req = Normal input ->
  endpoint (clientOf hfToken) (paramsOf env input) (timeoutMs env)
  = Normal completion ->
  lacksContent completion ->
  fst (POST rid env endpoint req)
  = jsonNoStore (Success rid input.(id) (modelOf env) false []) 200.
Proof.
  intros Hct Hcred Hval Hans Hlacks.
  rewrite (POST_invoked _ _ _ _ _ _ Hct Hcred Hval). unfold answer.
  rewrite Hans. cbn [fst].
  assert (Htext : completionText completion = []).
  { unfold completionText, lacksContent in *.
    destruct (choices completion) as [[| choice rest] |]; try reflexivity.
    destruct (message choice) as [m |]; [|reflexivity].
    rewrite Hlacks. reflexivity. }
  rewrite Htext. reflexivity.
Qed.

Lemma empty_completion_is_success_witness :
  fst (POST (lit "r1") envWithToken
         (fun _ _ _ => Normal (mkChatCompletion (Some [])))
         (jsonRequest (sampleBody (lit "Return sum of list") None)))
  = jsonNoStore
      (Success (lit "r1") scenarioA.(id) (modelOf envWithToken) false []) 200.
Proof.
  apply (empty_completion_is_success (lit "r1") envWithToken
           (fun _ _ _ => Normal (mkChatCompletion (Some [])))
           (jsonRequest (sampleBody (lit "Return sum of list") None))
           (lit "hf_token") scenarioA (mkChatCompletion (Some [])));
    try reflexivity; try exact I.
Defined.

(** X10: a body that cannot be read is a server error, not a validation
    failure.  When [req.json()] throws anything but a [ZodError] or an error
    named [AbortError] (a body that is not JSON makes it throw a
    [SyntaxError]), the handler answers 500 with the generic message and no
    details, and arms no timer and makes no call. *)
Theorem unreadable_body_is_server_error rid env endpoint req hfToken err :
  declaresJson req = true -> credential env = Some hfToken ->
  json req = Throw err ->
  outcomeOfThrown err = ServerError ->
  POST rid env endpoint req
  = (jsonNoStore (Failure rid (lit "Server error") None) 500, []).
Proof.
  intros Hct Hcred Hjson Hkind.
  rewrite (POST_rejected _ _ _ _ hfToken err Hct Hcred)
    by (unfold validated; rewrite Hjson; reflexivity).
  f_equal. destruct err as [issues | name |];
    cbn [outcomeOfThrown POST_catch] in Hkind |- *;
    [discriminate Hkind | | reflexivity].
  destruct (list_eq_dec N.eq_dec name (lit "AbortError"));
    [discriminate Hkind | reflexivity].
Qed.

Lemma unreadable_body_is_server_error_witness :
  POST (lit "r1") envWithToken (answering threeHeaders)
    (mkRequest (Some (lit "application/json"))
       (Throw (ErrorNamed (lit "SyntaxError"))))
  = (jsonNoStore (Failure (lit "r1") (lit "Server error") None) 500, []).
Proof.
  apply (unreadable_body_is_server_error (lit "r1") envWithToken
           (answering threeHeaders)
           (mkRequest (Some (lit "application/json"))
              (Throw (ErrorNamed (lit "SyntaxError"))))
           (lit "hf_token") (ErrorNamed (lit "SyntaxError")));
    reflexivity.
Defined.

(** ** More on [truncate] *)

Lemma intToString_not_empty (z : Z) : 1 <= jslength (intToString z).
Proof.
  unfold intToString. destruct (z <? 0).
  - rewrite jslength_app. pose proof (jslength_nonneg (decimal (Z.abs_N z))).
    change (jslength (lit "-")) with 1. lia.
  - pose proof (decimal_not_empty (Z.to_N z)) as H.
    destruct (decimal (Z.to_N z)); [contradiction|].
    unfold jslength. cbn [length]. lia.
Qed.

(** X11: [truncate] never alters the first [max] characters of a string,
    but its result is not within the budget: for a string over the budget
    the result is over the budget too, by the marker, at least 24
    characters, so a string less than 24 characters over the budget comes
    back longer than it was. *)
Theorem truncate_keeps_prefix_and_overshoots (s : jsstring) (max : Z) :
  0 <= max ->
  firstn (Z.to_nat max) (truncate s max) = firstn (Z.to_nat max) s /\
  (max < jslength s -> max + 24 <= jslength (truncate s max)) /\
  (max < jslength s < max + 24 -> jslength s < jslength (truncate s max)).
Proof.
  intros Hmax.
  assert (Hlong : max < jslength s -> max + 24 <= jslength (truncate s max)).
  { intros Hgt. destruct (truncate_obeys s max Hmax) as [_ H].
    destruct (H Hgt) as [_ [Hlen _]]. rewrite Hlen, truncationMarker_length.
    pose proof (intToString_not_empty (jslength s - max)). lia. }
  split; [|split].
  - destruct (Z.le_gt_cases (jslength s) max) as [Hle | Hgt].
    + rewrite truncate_short by exact Hle. reflexivity.
    + rewrite truncate_long by assumption.
      rewrite firstn_app, firstn_firstn, Nat.min_id.
      rewrite length_firstn.
      replace (Z.to_nat max - Nat.min (Z.to_nat max) (length s))%nat
        with 0%nat by (unfold jslength in Hgt; lia).
      cbn [firstn]. apply app_nil_r.
  - exact Hlong.
  - intros [Hgt Hnear]. specialize (Hlong Hgt). lia.
Qed.

Lemma truncate_keeps_prefix_and_overshoots_witness :
  firstn (Z.to_nat 5) (truncate (lit "hello world") 5)
  = firstn (Z.to_nat 5) (lit "hello world") /\
  (5 < jslength (lit "hello world") ->
   5 + 24 <= jslength (truncate (lit "hello world") 5)) /\
  (5 < jslength (lit "hello world") < 5 + 24 ->
   jslength (lit "hello world") < jslength (truncate (lit "hello world") 5)).
Proof.
  apply (truncate_keeps_prefix_and_overshoots (lit "hello world") 5).
  discriminate.
Defined.

(** ** The sample page *)

(** X12: [clampText] returns a string within the limit unchanged and a
    longer one as its first [max] characters followed by a fixed marker of
    16 characters, which does not state how much was dropped: the result is
    never longer than [max + 16], and at most 15 characters longer than the
    string. *)
Theorem clampText_law (s : jsstring) (max : Z) :
  0 <= max ->
  (jslength s <= max -> SamplePage.clampText s max = s) /\
  (max < jslength s ->
   SamplePage.clampText s max
   = firstn (Z.to_nat max) s ++ LF ++ LF ++ lit "...[TRUNCATED]" /\
   jslength (SamplePage.clampText s max) = max + 16) /\
  jslength (SamplePage.clampText s max) <= max + 16 /\
  jslength (SamplePage.clampText s max) <= jslength s + 15.
Proof.
  intros Hmax. unfold SamplePage.clampText.
  destruct (jslength s <=? max) eqn:E.
  - apply Z.leb_le in E. repeat split; try reflexivity; lia.
  - apply Z.leb_gt in E. rewrite slice_prefix by exact Hmax.
    assert (Hlen : jslength (firstn (Z.to_nat max) s
                             ++ LF ++ LF ++ lit "...[TRUNCATED]") = max + 16).
    { rewrite jslength_app, jslength_firstn by lia. reflexivity. }
    split; [lia|]. split; [intros _; split; [reflexivity | exact Hlen]|].
    rewrite Hlen. lia.
Qed.

Lemma clampText_law_witness :
  (jslength (lit "hello world") <= 5 ->
   SamplePage.clampText (lit "hello world") 5 = lit "hello world") /\
  (5 < jslength (lit "hello world") ->
   SamplePage.clampText (lit "hello world") 5
   = firstn (Z.to_nat 5) (lit "hello world")
     ++ LF ++ LF ++ lit "...[TRUNCATED]" /\
   jslength (SamplePage.clampText (lit "hello world") 5) = 5 + 16) /\
  jslength (SamplePage.clampText (lit "hello world") 5) <= 5 + 16 /\
  jslength (SamplePage.clampText (lit "hello world") 5)
  <= jslength (lit "hello world") + 15.
Proof.
  apply (clampText_law (lit "hello world") 5). discriminate.
Defined.

(** X13: the failure-info block of the page always has a text when the
    sample holds parsed JSON: serialization neither throws nor returns
    [undefined], the text is never longer than 12016 characters, and a
    null column is shown as an empty object. *)
Theorem failureInfoText_of_stored_json (failure_info : Json) :
  (exists text,
      SamplePage.failureInfoText (ofJson failure_info) = Normal text /\
      jslength text <= 12016) /\
  SamplePage.failureInfoText (ofJson JNull) = Normal (lit "{}").
Proof.
  split; [|reflexivity].
  assert (H : exists j, nullish (ofJson failure_info) (VObject []) = ofJson j).
  { destruct failure_info; try (eexists; reflexivity).
    exists (JObject []). reflexivity. }
  destruct H as [j Hj]. destruct (serialize_json j []) as [raw Hraw].
  exists (SamplePage.clampText raw 12000).
  unfold SamplePage.failureInfoText. rewrite Hj.
  unfold JSON.stringify. rewrite Hraw. split; [reflexivity|].
  assert (Hmax : 0 <= 12000) by discriminate.
  destruct (clampText_law raw 12000 Hmax) as [_ [_ [H _]]]. exact H.
Qed.

(** Parsed JSON is serialized to a string without indentation too. *)
Lemma serialize_text_json (j : Json) :
  exists s, JSONText.serialize (ofJson j) = Normal (Some s).
Proof.
  induction j as [| b | x | s | items HF | props HF] using Json_nested_ind;
    cbn [ofJson JSONText.serialize]; try (eexists; reflexivity).
  - match goal with
    | |- exists s, match ?e with _ => _ end = _ =>
        assert (H : exists partial, e = Normal partial)
    end.
    { induction HF as [| j items Hj _ IH]; cbn [map]; [eexists; reflexivity|].
      destruct Hj as [s ->]. destruct IH as [partial ->].
      eexists. reflexivity. }
    destruct H as [partial ->]. eexists. reflexivity.
  - match goal with
    | |- exists s, match ?e with _ => _ end = _ =>
        assert (H : exists partial, e = Normal partial)
    end.
    { induction HF as [| [k j] props Hj _ IH]; cbn [map fst snd];
        [eexists; reflexivity|].
      cbn [snd] in Hj. destruct Hj as [s ->]. destruct IH as [partial ->].
      eexists. reflexivity. }
    destruct H as [partial ->]. eexists. reflexivity.
Qed.

(** The text of the payload is the text of the JSON object it denotes. *)
Lemma payload_text (sample : SamplePage.Sample) (prd code : jsstring) :
  JSONText.stringify (SamplePage.payload sample prd code)
  = JSONText.stringify (ofJson (JObject (payloadProps sample prd code))) /\
  exists text,
    JSONText.stringify (SamplePage.payload sample prd code)
    = Normal (Some text).
Proof.
  assert (H : JSONText.stringify (SamplePage.payload sample prd code)
              = JSONText.stringify
                  (ofJson (JObject (payloadProps sample prd code)))).
  { unfold JSONText.stringify, SamplePage.payload, payloadProps.
    rewrite nullish_ofJson.
    destruct (SamplePage.label sample) as [l |];
      destruct (SamplePage.meta sample) as [| b | x | s | items | fields];
      cbn [ofJson nullish map app fst snd];
      generalize (ofJson (SamplePage.failure_info sample)); intros info;
      try match goal with
          | |- context [(lit "meta", ?v)] =>
              lazymatch v with
              | VUndefined => idtac
              | _ => generalize v; intros other
              end
          end;
      cbn [JSONText.serialize];
      repeat match goal with
             | |- context [match JSONText.serialize ?v with _ => _ end] =>
                 destruct (JSONText.serialize v) as [[? |] | ?]
             end;
      reflexivity. }
  split; [exact H|]. rewrite H. apply serialize_text_json.
Qed.

(** With both texts present, [runCritique] makes five steps: it marks the
    page as loading, clears the critique, calls [fetch] once with the text
    of the payload, sets the critique and clears the mark. *)
Lemma runCritique_events (browser : SamplePage.Browser)
  (sample : SamplePage.Sample) :
  present (SamplePage.prd sample)
  && present (SamplePage.buggy_solution_code sample) = true ->
  exists prd code text result,
    SamplePage.prd sample = Some prd /\
    SamplePage.buggy_solution_code sample = Some code /\
    JSONText.stringify (ofJson (JObject (payloadProps sample prd code)))
    = Normal (Some text) /\
    SamplePage.runCritique browser (Some sample)
    = [SamplePage.SetCritiqueLoading true;
       SamplePage.SetCritique None;
       SamplePage.Fetch (lit "/api/critique")
         (SamplePage.mkRequestInit (lit "POST")
            [(lit "Content-Type", lit "application/json")]
            (lit "no-store") (Some text));
       SamplePage.SetCritique result;
       SamplePage.SetCritiqueLoading false] /\
    (result = None <->
     exists res,
       SamplePage.fetch browser (lit "/api/critique")
         (SamplePage.mkRequestInit (lit "POST")
            [(lit "Content-Type", lit "application/json")]
            (lit "no-store") (Some text))
       = Normal res /\
       SamplePage.ok res = true /\ SamplePage.json res = Normal JNull).
Proof.
  intros H. apply andb_true_iff in H. destruct H as [Hp Hc].
  destruct (SamplePage.prd sample) as [[| c p] |] eqn:Ep; try discriminate.
  destruct (SamplePage.buggy_solution_code sample) as [[| d q] |] eqn:Ec;
    try discriminate.
  destruct (payload_text sample (c :: p) (d :: q)) as [Heq [text Htext]].
  exists (c :: p), (d :: q), text.
  unfold SamplePage.runCritique. rewrite Ep, Ec, Htext.
  rewrite <- Heq, Htext.
  destruct (SamplePage.fetch browser _ _) as [res | e].
  - destruct (SamplePage.json res) as [data | e] eqn:Hjson.
    + destruct (SamplePage.ok res) eqn:Hok; cbn [negb].
      * eexists; repeat split; try reflexivity.
        -- intros Hnone. exists res.
           destruct data; try discriminate Hnone. repeat split; assumption.
        -- intros [res' [Hres [_ Hnull]]]. injection Hres as <-.
           rewrite Hjson in Hnull. injection Hnull as ->. reflexivity.
      * eexists; repeat split; try reflexivity; try discriminate.
        intros [res' [Hres [Hok' _]]]. injection Hres as <-.
        rewrite Hok in Hok'. discriminate Hok'.
    + eexists; repeat split; try reflexivity; try discriminate.
      intros [res' [Hres [_ Hnull]]]. injection Hres as <-.
      rewrite Hjson in Hnull. discriminate Hnull.
  - eexists; repeat split; try reflexivity; try discriminate.
    intros [res' [Hres _]]. discriminate Hres.
Qed.

(** X14: [runCritique] does nothing without a sample, and without a
    problem text or without code (null or empty) it calls nothing: it sets
    the critique to a failure of its own and leaves the rest of the state,
    the loading mark included, as it was. *)
Theorem runCritique_needs_both_texts (browser : SamplePage.Browser)
  (sample : SamplePage.Sample) (st : SamplePage.PageState) :
  present (SamplePage.prd sample)
  && present (SamplePage.buggy_solution_code sample) = false ->
  fetchCalls (SamplePage.runCritique browser (Some sample)) = [] /\
  SamplePage.run st (SamplePage.runCritique browser (Some sample))
  = SamplePage.mkPageState (SamplePage.state_sample st)
      (SamplePage.state_err st)
      (Some (SamplePage.Failed
               (JString (lit "Sample is missing prd or buggy_solution_code"))
               None None))
      (SamplePage.state_critiqueLoading st) /\
  SamplePage.run st (SamplePage.runCritique browser None) = st.
Proof.
  intros H. apply andb_false_iff in H. unfold SamplePage.runCritique.
  destruct (SamplePage.prd sample) as [[| c p] |];
    destruct (SamplePage.buggy_solution_code sample) as [[| d q] |];
    try (repeat split; reflexivity).
  destruct H as [H | H]; discriminate H.
Qed.

Lemma runCritique_needs_both_texts_witness :
  fetchCalls
    (SamplePage.runCritique browserGetting500
       (Some (SamplePage.mkSample (lit "s1") None (Some []) None JNull None
                JNull))) = [] /\
  SamplePage.run SamplePage.initialState
    (SamplePage.runCritique browserGetting500
       (Some (SamplePage.mkSample (lit "s1") None (Some []) None JNull None
                JNull)))
  = SamplePage.mkPageState
      (SamplePage.state_sample SamplePage.initialState)
      (SamplePage.state_err SamplePage.initialState)
      (Some (SamplePage.Failed
               (JString (lit "Sample is missing prd or buggy_solution_code"))
               None None))
      (SamplePage.state_critiqueLoading SamplePage.initialState) /\
  SamplePage.run SamplePage.initialState
    (SamplePage.runCritique browserGetting500 None)
  = SamplePage.initialState.
Proof.
  apply (runCritique_needs_both_texts browserGetting500
           (SamplePage.mkSample (lit "s1") None (Some []) None JNull None
              JNull)
           SamplePage.initialState).
  reflexivity.
Defined.

(** X15: with both texts present, [runCritique] calls [fetch] exactly
    once, whatever the browser answers: a POST to [/api/critique] that
    declares JSON, is not cached, and whose body is the text of the JSON
    object with the sample's id, the two texts, its failure info (null
    when there is none) and, only when they are set, its label and meta. *)
Theorem runCritique_sends_one_request (browser : SamplePage.Browser)
  (sample : SamplePage.Sample) :
  present (SamplePage.prd sample)
  && present (SamplePage.buggy_solution_code sample) = true ->
  exists prd code text,
    SamplePage.prd sample = Some prd /\
    SamplePage.buggy_solution_code sample = Some code /\
    JSONText.stringify (ofJson (JObject (payloadProps sample prd code)))
    = Normal (Some text) /\
    fetchCalls (SamplePage.runCritique browser (Some sample))
    = [(lit "/api/critique",
        SamplePage.mkRequestInit (lit "POST")
          [(lit "Content-Type", lit "application/json")]
          (lit "no-store") (Some text))].
Proof.
  intros H.
  destruct (runCritique_events browser sample H)
    as [prd [code [text [result [Hp [Hc [Htext [-> _]]]]]]]].
  exists prd, code, text. repeat split; assumption || reflexivity.
Qed.

Lemma runCritique_sends_one_request_witness :
  exists prd code text,
    SamplePage.prd storedSample = Some prd /\
    SamplePage.buggy_solution_code storedSample = Some code /\
    JSONText.stringify (ofJson (JObject (payloadProps storedSample prd code)))
    = Normal (Some text) /\
    fetchCalls (SamplePage.runCritique browserGetting500 (Some storedSample))
    = [(lit "/api/critique",
        SamplePage.mkRequestInit (lit "POST")
          [(lit "Content-Type", lit "application/json")]
          (lit "no-store") (Some text))].
Proof.
  apply (runCritique_sends_one_request browserGetting500 storedSample).
  reflexivity.
Defined.

(** X16: with both texts present, [runCritique] always settles: whether
    [fetch] answers, throws, or answers with a body that cannot be read,
    the page ends with the loading mark cleared and its sample and its
    error untouched.  It then holds a critique in every case but one: an
    accepted response whose body is the JSON [null] is stored as it came
    and leaves the critique [null]. *)
Theorem runCritique_settles (browser : SamplePage.Browser)
  (sample : SamplePage.Sample) (st : SamplePage.PageState) :
  present (SamplePage.prd sample)
  && present (SamplePage.buggy_solution_code sample) = true ->
  SamplePage.state_critiqueLoading
    (SamplePage.run st (SamplePage.runCritique browser (Some sample)))
  = false /\
  SamplePage.state_sample
    (SamplePage.run st (SamplePage.runCritique browser (Some sample)))
  = SamplePage.state_sample st /\
  SamplePage.state_err
    (SamplePage.run st (SamplePage.runCritique browser (Some sample)))
  = SamplePage.state_err st /\
  exists init,
    fetchCalls (SamplePage.runCritique browser (Some sample))
    = [(lit "/api/critique", init)] /\
    (SamplePage.state_critique
       (SamplePage.run st (SamplePage.runCritique browser (Some sample)))
     = None <->
     exists res,
       SamplePage.fetch browser (lit "/api/critique") init = Normal res /\
       SamplePage.ok res = true /\ SamplePage.json res = Normal JNull).
Proof.
  intros H.
  destruct (runCritique_events browser sample H)
    as [prd [code [text [result [_ [_ [_ [-> Hnone]]]]]]]].
  split; [reflexivity|]. split; [reflexivity|]. split; [reflexivity|].
  eexists. split; [reflexivity|]. exact Hnone.
Qed.

Lemma runCritique_settles_witness :
  SamplePage.state_critiqueLoading
    (SamplePage.run SamplePage.initialState
       (SamplePage.runCritique browserGettingNull (Some storedSample)))
  = false /\
  SamplePage.state_sample
    (SamplePage.run SamplePage.initialState
       (SamplePage.runCritique browserGettingNull (Some storedSample)))
  = SamplePage.state_sample SamplePage.initialState /\
  SamplePage.state_err
    (SamplePage.run SamplePage.initialState
       (SamplePage.runCritique browserGettingNull (Some storedSample)))
  = SamplePage.state_err SamplePage.initialState /\
  exists init,
    fetchCalls (SamplePage.runCritique browserGettingNull (Some storedSample))
    = [(lit "/api/critique", init)] /\
    (SamplePage.state_critique
       (SamplePage.run SamplePage.initialState
          (SamplePage.runCritique browserGettingNull (Some storedSample)))
     = None <->
     exists res,
       SamplePage.fetch browserGettingNull (lit "/api/critique") init
       = Normal res /\
       SamplePage.ok res = true /\ SamplePage.json res = Normal JNull).
Proof.
  apply (runCritique_settles browserGettingNull storedSample
           SamplePage.initialState).
  reflexivity.
Defined.

(** The two ends of the last case: a failure shown, and [null] stored. *)
Example runCritique_settles_examples :
  SamplePage.state_critique
    (SamplePage.run SamplePage.initialState
       (SamplePage.runCritique browserGetting500 (Some storedSample)))
  = Some (SamplePage.Failed
            (JString (lit "Server misconfigured: HF_TOKEN missing"))
            (Some JNull) (Some (JString (lit "r1")))) /\
  SamplePage.state_critique
    (SamplePage.run SamplePage.initialState
       (SamplePage.runCritique browserGettingNull (Some storedSample)))
  = None.
Proof. split; reflexivity. Qed.

(** ** The page and the handler together *)

(** The headers of the page's call declare JSON to the handler. *)
Lemma page_call_declares_json (text : option jsstring)
  (props : list (jsstring * Json)) :
  declaresJson
    (arriving
       (SamplePage.mkRequestInit (lit "POST")
          [(lit "Content-Type", lit "application/json")]
          (lit "no-store") text) props) = true.
Proof. reflexivity. Qed.

(** The object the page sends is validated into the sample's fields when
    its three required texts are not empty. *)
Lemma payloadProps_parse (sample : SamplePage.Sample) (prd code : jsstring) :
  SamplePage.id sample <> [] -> prd <> [] -> code <> [] ->
  CritiqueRequestSchema_parse (JObject (payloadProps sample prd code))
  = Normal (sentRequest sample prd code).
Proof.
  unfold payloadProps, sentRequest. destruct sample as [i qid p c fi l m].
  cbn [SamplePage.id SamplePage.failure_info SamplePage.label SamplePage.meta].
  intros Hi Hp Hc.
  destruct i as [| i0 i]; [contradiction|].
  destruct prd as [| p0 prd]; [contradiction|].
  destruct code as [| c0 code]; [contradiction|].
  cbn [CritiqueRequestSchema_parse].
  match goal with
  | |- context [CritiqueRequestSchema ?props] =>
      destruct (CritiqueRequestSchema_issues props) as [[_ ->] | [Hne _]]
  end.
  - destruct l as [l |]; destruct m as [| b | x | s | items | fields];
      reflexivity.
  - exfalso. apply Hne.
    destruct l as [l |]; destruct m as [| b | x | s | items | fields];
      reflexivity.
Qed.

(** With an empty id the object is rejected, with one issue, at [id]. *)
Lemma payloadProps_empty_id (sample : SamplePage.Sample)
  (prd code : jsstring) :
  SamplePage.id sample = [] -> prd <> [] -> code <> [] ->
  exists issue,
    CritiqueRequestSchema_parse (JObject (payloadProps sample prd code))
    = Throw (ZodError [issue]) /\
    issue_path issue = [lit "id"].
Proof.
  unfold payloadProps. destruct sample as [i qid p c fi l m].
  cbn [SamplePage.id SamplePage.failure_info SamplePage.label SamplePage.meta].
  intros -> Hp Hc.
  destruct prd as [| p0 prd]; [contradiction|].
  destruct code as [| c0 code]; [contradiction|].
  cbn [CritiqueRequestSchema_parse].
  match goal with
  | |- context [CritiqueRequestSchema ?props] =>
      assert (Hv : violatedFields props = [lit "id"])
        by (destruct l as [l |];
            destruct m as [| b | x | s | items | fields]; reflexivity);
      destruct (CritiqueRequestSchema_issues props)
        as [[Hnone _] | [_ [issues [-> Hpaths]]]]
  end.
  - rewrite Hnone in Hv. discriminate Hv.
  - rewrite Hv in Hpaths.
    destruct issues as [| issue [| other issues]]; try discriminate Hpaths.
    exists issue. split; [reflexivity|].
    cbn [map] in Hpaths. injection Hpaths as ->. reflexivity.
Qed.

Lemma present_not_empty (s : option jsstring) (text : jsstring) :
  present s = true -> s = Some text -> text <> [].
Proof. intros H ->. destruct text; [discriminate H | discriminate]. Qed.

(** X17: the request the page sends for a sample with an id passes the
    handler's guards: its header declares JSON, and the object its body
    denotes is validated into the sample's id, its two texts, its failure
    info (present, null when the sample has none), its label and its meta,
    with no earlier critique; with a credential the handler then makes its
    one call to the model with the prompt built from these.  (That the
    handler reads from the text the object it denotes is the round trip of
    [JSON.parse] and [JSON.stringify], which is not modelled.) *)
Theorem page_request_reaches_the_model (browser : SamplePage.Browser)
  (sample : SamplePage.Sample) (rid : jsstring) (env : Env)
  (endpoint : Endpoint) (hfToken : jsstring) :
  SamplePage.id sample <> [] ->
  present (SamplePage.prd sample)
  && present (SamplePage.buggy_solution_code sample) = true ->
  credential env = Some hfToken ->
  exists prd code init,
    SamplePage.prd sample = Some prd /\
    SamplePage.buggy_solution_code sample = Some code /\
    fetchCalls (SamplePage.runCritique browser (Some sample))
    = [(lit "/api/critique", init)] /\
    JSONText.stringify (ofJson (JObject (payloadProps sample prd code)))
    = Normal (SamplePage.body init) /\
    declaresJson (arriving init (payloadProps sample prd code)) = true /\
    validated (arriving init (payloadProps sample prd code))
    = Normal (sentRequest sample prd code) /\
    snd (POST rid env endpoint (arriving init (payloadProps sample prd code)))
    = [SetTimeout (timeoutMs env);
       Create (clientOf hfToken) (paramsOf env (sentRequest sample prd code));
       ClearTimeout].
Proof.
  intros Hid H Hcred.
  destruct (runCritique_events browser sample H)
    as [prd [code [text [result [Hp [Hc [Htext [-> _]]]]]]]].
  apply andb_true_iff in H. destruct H as [H1 H2].
  pose proof (present_not_empty _ _ H1 Hp) as Np.
  pose proof (present_not_empty _ _ H2 Hc) as Nc.
  eexists prd, code, _. split; [exact Hp|]. split; [exact Hc|].
  split; [reflexivity|]. split; [exact Htext|].
  split; [apply page_call_declares_json|].
  assert (Hval : validated
                   (arriving
                      (SamplePage.mkRequestInit (lit "POST")
                         [(lit "Content-Type", lit "application/json")]
                         (lit "no-store") (Some text))
                      (payloadProps sample prd code))
                 = Normal (sentRequest sample prd code)).
  { unfold validated, arriving. cbn [json bind Monad_Completion].
    apply payloadProps_parse; assumption. }
  split; [exact Hval|].
  rewrite (POST_invoked _ _ _ _ _ _ (page_call_declares_json _ _) Hcred Hval).
  reflexivity.
Qed.

Lemma page_request_reaches_the_model_witness :
  exists prd code init,
    SamplePage.prd storedSample = Some prd /\
    SamplePage.buggy_solution_code storedSample = Some code /\
    fetchCalls (SamplePage.runCritique browserGetting500 (Some storedSample))
    = [(lit "/api/critique", init)] /\
    JSONText.stringify (ofJson (JObject (payloadProps storedSample prd code)))
    = Normal (SamplePage.body init) /\
    declaresJson (arriving init (payloadProps storedSample prd code)) = true /\
    validated (arriving init (payloadProps storedSample prd code))
    = Normal (sentRequest storedSample prd code) /\
    snd (POST (lit "r1") envWithToken (answering threeHeaders)
           (arriving init (payloadProps storedSample prd code)))
    = [SetTimeout (timeoutMs envWithToken);
       Create (clientOf (lit "hf_token"))
         (paramsOf envWithToken (sentRequest storedSample prd code));
       ClearTimeout].
Proof.
  apply (page_request_reaches_the_model browserGetting500 storedSample
           (lit "r1") envWithToken (answering threeHeaders)
           (lit "hf_token")).
  - discriminate.
  - reflexivity.
  - reflexivity.
Defined.

(** X18: the page guards the two texts but not the id: for a sample whose
    id is empty it still sends its request, and the handler rejects it
    with status 400 without calling the model. *)
Theorem empty_id_is_sent_and_rejected (browser : SamplePage.Browser)
  (sample : SamplePage.Sample) (rid : jsstring) (env : Env)
  (endpoint : Endpoint) (hfToken : jsstring) :
  SamplePage.id sample = [] ->
  present (SamplePage.prd sample)
  && present (SamplePage.buggy_solution_code sample) = true ->
  credential env = Some hfToken ->
  exists prd code init,
    SamplePage.prd sample = Some prd /\
    SamplePage.buggy_solution_code sample = Some code /\
    fetchCalls (SamplePage.runCritique browser (Some sample))
    = [(lit "/api/critique", init)] /\
    status
      (fst (POST rid env endpoint
              (arriving init (payloadProps sample prd code)))) = 400 /\
    (exists issues,
        body (fst (POST rid env endpoint
                     (arriving init (payloadProps sample prd code))))
        = Failure rid (lit "Invalid request body") (Some issues) /\
        map issue_path issues = [[lit "id"]]) /\
    snd (POST rid env endpoint (arriving init (payloadProps sample prd code)))
    = [].
Proof.
  intros Hid H Hcred.
  destruct (runCritique_events browser sample H)
    as [prd [code [text [result [Hp [Hc [Htext [-> _]]]]]]]].
  apply andb_true_iff in H. destruct H as [H1 H2].
  pose proof (present_not_empty _ _ H1 Hp) as Np.
  pose proof (present_not_empty _ _ H2 Hc) as Nc.
  destruct (payloadProps_empty_id sample prd code Hid Np Nc)
    as [issue [Hparse Hpath]].
  eexists prd, code, _. split; [exact Hp|]. split; [exact Hc|].
  split; [reflexivity|].
  assert (Hval : validated
                   (arriving
                      (SamplePage.mkRequestInit (lit "POST")
                         [(lit "Content-Type", lit "application/json")]
                         (lit "no-store") (Some text))
                      (payloadProps sample prd code))
                 = Throw (ZodError [issue])).
  { unfold validated, arriving. cbn [json bind Monad_Completion].
    exact Hparse. }
  rewrite (POST_rejected _ _ _ _ _ _ (page_call_declares_json _ _) Hcred Hval).
  cbn [fst snd POST_catch]. split; [reflexivity|]. split; [|reflexivity].
  exists [issue]. split; [reflexivity|]. cbn [map]. rewrite Hpath.
  reflexivity.
Qed.

Lemma empty_id_is_sent_and_rejected_witness :
  exists prd code init,
    SamplePage.prd
      (SamplePage.mkSample [] None (Some (lit "Return sum of list"))
         (Some (lit "def f(x): return 0")) JNull None JNull) = Some prd /\
    SamplePage.buggy_solution_code
      (SamplePage.mkSample [] None (Some (lit "Return sum of list"))
         (Some (lit "def f(x): return 0")) JNull None JNull) = Some code /\
    fetchCalls
      (SamplePage.runCritique browserGetting500
         (Some (SamplePage.mkSample [] None (Some (lit "Return sum of list"))
                  (Some (lit "def f(x): return 0")) JNull None JNull)))
    = [(lit "/api/critique", init)] /\
    status
      (fst (POST (lit "r1") envWithToken (answering threeHeaders)
              (arriving init
                 (payloadProps
                    (SamplePage.mkSample [] None
                       (Some (lit "Return sum of list"))
                       (Some (lit "def f(x): return 0")) JNull None JNull)
                    prd code)))) = 400 /\
    (exists issues,
        body
          (fst (POST (lit "r1") envWithToken (answering threeHeaders)
                  (arriving init
                     (payloadProps
                        (SamplePage.mkSample [] None
                           (Some (lit "Return sum of list"))
                           (Some (lit "def f(x): return 0")) JNull None JNull)
                        prd code))))
        = Failure (lit "r1") (lit "Invalid request body") (Some issues) /\
        map issue_path issues = [[lit "id"]]) /\
    snd (POST (lit "r1") envWithToken (answering threeHeaders)
           (arriving init
              (payloadProps
                 (SamplePage.mkSample [] None
                    (Some (lit "Return sum of list"))
                    (Some (lit "def f(x): return 0")) JNull None JNull)
                 prd code)))
    = [].
Proof.
  apply (empty_id_is_sent_and_rejected browserGetting500
           (SamplePage.mkSample [] None (Some (lit "Return sum of list"))
              (Some (lit "def f(x): return 0")) JNull None JNull)
           (lit "r1") envWithToken (answering threeHeaders)
           (lit "hf_token")).
  - reflexivity.
  - reflexivity.
  - reflexivity.
Defined.

(** Every response of the handler is a success with status 200 or a
    failure with one of its four failure statuses, and carries the id of
    the run. *)
Lemma POST_response_shape rid env endpoint req :
  (exists id model flag text,
      body (fst (POST rid env endpoint req)) = Success rid id model flag text /\
      status (fst (POST rid env endpoint req)) = 200) \/
  (exists error details,
      body (fst (POST rid env endpoint req)) = Failure rid error details /\
      (status (fst (POST rid env endpoint req)) = 400 \/
       status (fst (POST rid env endpoint req)) = 415 \/
       status (fst (POST rid env endpoint req)) = 500 \/
       status (fst (POST rid env endpoint req)) = 504)).
Proof.
  assert (Hcatch : forall err,
             exists error details,
               body (POST_catch rid err) = Failure rid error details /\
               (status (POST_catch rid err) = 400 \/
                status (POST_catch rid err) = 415 \/
                status (POST_catch rid err) = 500 \/
                status (POST_catch rid err) = 504)).
  { intros [issues | name |]; cbn [POST_catch];
      [| destruct (list_eq_dec N.eq_dec name (lit "AbortError")) |];
      eexists; eexists; (split; [reflexivity|]); cbn; tauto. }
  destruct (declaresJson req) eqn:Hct.
  2:{ right. rewrite POST_bad_content_type by exact Hct.
      eexists; eexists; split; [reflexivity|]. cbn. tauto. }
  destruct (credential env) as [hfToken |] eqn:Hcred.
  2:{ right. rewrite POST_misconfigured by assumption.
      eexists; eexists; split; [reflexivity|]. cbn. tauto. }
  destruct (validated req) as [input | err] eqn:Hval.
  - rewrite (POST_invoked _ _ _ _ _ _ Hct Hcred Hval). cbn [fst].
    destruct (answer env endpoint hfToken input) as [completion | err].
    + left. do 4 eexists. split; reflexivity.
    + right. apply Hcatch.
  - rewrite (POST_rejected _ _ _ _ _ _ Hct Hcred Hval). cbn [fst].
    right. apply Hcatch.
Qed.

(** X19: when [fetch] delivers the response of a run of the handler, the
    page holds what the handler answered: the body as it is for a success,
    and for a failure the handler's error text, its details (null when it
    gave none) and the request id of the run; the page's own fallback text
    is never shown. *)
Theorem page_shows_the_handlers_answer (issuesJson : list ZodIssue -> Json)
  (browser : SamplePage.Browser) (sample : SamplePage.Sample)
  (st : SamplePage.PageState) (rid : jsstring) (env : Env)
  (endpoint : Endpoint) (req : Request) :
  present (SamplePage.prd sample)
  && present (SamplePage.buggy_solution_code sample) = true ->
  (forall init,
      SamplePage.fetch browser (lit "/api/critique") init
      = Normal (delivered issuesJson (fst (POST rid env endpoint req)))) ->
  SamplePage.state_critique
    (SamplePage.run st (SamplePage.runCritique browser (Some sample)))
  = Some match body (fst (POST rid env endpoint req)) with
         | Success _ _ _ _ _ =>
             SamplePage.FromServer
               (bodyJson issuesJson (body (fst (POST rid env endpoint req))))
         | Failure _ error details =>
             SamplePage.Failed (JString error)
               (Some (SamplePage.orNullish (option_map issuesJson details)
                        JNull))
               (Some (JString rid))
         end.
Proof.
  intros H Hfetch. apply andb_true_iff in H. destruct H as [Hp Hc].
  destruct (SamplePage.prd sample) as [[| c p] |] eqn:Ep; try discriminate.
  destruct (SamplePage.buggy_solution_code sample) as [[| d q] |] eqn:Ec;
    try discriminate.
  destruct (payload_text sample (c :: p) (d :: q)) as [_ [text Htext]].
  unfold SamplePage.runCritique. rewrite Ep, Ec, Htext, Hfetch.
  unfold delivered.
  cbn [SamplePage.json SamplePage.ok SamplePage.status].
  destruct (POST_response_shape rid env endpoint req)
    as [[id [model [flag [answer [-> ->]]]]] | [error [details [-> Hst]]]].
  - reflexivity.
  - assert (Hok : (200 <=? status (fst (POST rid env endpoint req)))
                  && (status (fst (POST rid env endpoint req)) <=? 299)
                  = false).
    { destruct Hst as [-> | [-> | [-> | ->]]]; reflexivity. }
    rewrite Hok. cbn [negb].
    destruct details as [issues |]; reflexivity.
Qed.

Lemma page_shows_the_handlers_answer_witness :
  SamplePage.state_critique
    (SamplePage.run SamplePage.initialState
       (SamplePage.runCritique
          (servedBy issuePaths (lit "r1") envWithToken
             (answering threeHeaders) (jsonRequest bodyMissingPrd))
          (Some storedSample)))
  = Some match body (fst (POST (lit "r1") envWithToken
                            (answering threeHeaders)
                            (jsonRequest bodyMissingPrd))) with
         | Success _ _ _ _ _ =>
             SamplePage.FromServer
               (bodyJson issuePaths
                  (body (fst (POST (lit "r1") envWithToken
                                (answering threeHeaders)
                                (jsonRequest bodyMissingPrd)))))
         | Failure _ error details =>
             SamplePage.Failed (JString error)
               (Some (SamplePage.orNullish (option_map issuePaths details)
                        JNull))
               (Some (JString (lit "r1")))
         end.
Proof.
  apply (page_shows_the_handlers_answer issuePaths
           (servedBy issuePaths (lit "r1") envWithToken
              (answering threeHeaders) (jsonRequest bodyMissingPrd))
           storedSample SamplePage.initialState (lit "r1") envWithToken
           (answering threeHeaders) (jsonRequest bodyMissingPrd)).
  - reflexivity.
  - intros init. reflexivity.
Defined.

(** *** Loading the sample *)

(** X20: the load of the sample page does nothing without an id; with one
    it first clears the sample, the error and the critique, and then sets
    at most one of the sample and the error: the message of a failed query
    (even when data came with it), the sample of a query that found one,
    and the text [No sample found for id: ] with the id otherwise; the
    answer of a query that settles after the page is gone is dropped, and
    the loading mark of the critique is never touched. *)
Theorem loadSample_outcome (id : option jsstring)
  (result : QueryResult SamplePage.Sample) (alive : bool)
  (st : SamplePage.PageState) :
  SamplePage.run st (SamplePage.loadSample id result alive)
  = match id with
    | None | Some [] => st
    | Some id =>
        SamplePage.mkPageState
          (if alive then match error result with
                         | Some _ => None
                         | None => data result
                         end
           else None)
          (if alive then match error result, data result with
                         | Some message, _ => Some message
                         | None, None =>
                             Some (lit "No sample found for id: " ++ id)
                         | None, Some _ => None
                         end
           else None)
          None
          (SamplePage.state_critiqueLoading st)
    end /\
  (SamplePage.state_sample st = None \/ SamplePage.state_err st = None ->
   SamplePage.state_sample
     (SamplePage.run st (SamplePage.loadSample id result alive)) = None \/
   SamplePage.state_err
     (SamplePage.run st (SamplePage.loadSample id result alive)) = None).
Proof.
  unfold SamplePage.loadSample.
  destruct id as [[| c id] |];
    [split; [reflexivity | intros H; exact H] |
     | split; [reflexivity | intros H; exact H]].
  destruct alive; cbn [negb];
    [| split; [reflexivity | intros _; left; reflexivity]].
  destruct (error result) as [message |];
    [split; [reflexivity | intros _; left; reflexivity]|].
  destruct (data result) as [sample |];
    split; try reflexivity; intros _; [right | left]; reflexivity.
Qed.

(** *** Loading the list *)

(** X21: the load of the home page ends with the loading mark cleared
    exactly when the page is still there as the query settles; a failed
    query sets its message and leaves the rows as they were, a query with
    no error sets the rows (none for null data) and leaves the error
    cleared, and the answer of a query that settles after the page is gone
    changes nothing but the error, cleared at the start. *)
Theorem loadRows_outcome (result : QueryResult (list HomePage.SampleRow))
  (alive : bool) (st : HomePage.HomeState) :
  HomePage.loading (HomePage.run st (HomePage.loadRows result alive))
  = negb alive /\
  HomePage.rows (HomePage.run st (HomePage.loadRows result alive))
  = (if alive then match error result, data result with
                   | Some _, _ => HomePage.rows st
                   | None, Some rows => rows
                   | None, None => []
                   end
     else HomePage.rows st) /\
  HomePage.err (HomePage.run st (HomePage.loadRows result alive))
  = (if alive then error result else None).
Proof.
  unfold HomePage.loadRows.
  destruct alive; cbn [negb]; [| repeat split].
  destruct (error result) as [message |]; [repeat split|].
  destruct (data result) as [rows |]; repeat split.
Qed.
